(** * Vertex AI SDK: metadata artifacts, reasoning-engine packaging, transport
    credentials

    A shallow embedding of three source files of the SDK,

    - [google/cloud/aiplatform/metadata/artifact.py]
    - [vertexai/reasoning_engines/_reasoning_engines.py]
    - [aiplatform_v1beta1/services/model_service/transports/base.py]

    together with the properties of their behaviour.  Python code that
    raises, logs and talks to remote services is written in a small
    state/exception/event monad; remote collaborators are either records
    of operations (so that statements quantify over every behaviour of
    the service) or small executable models. *)

From Stdlib Require Import ZArith List String Ascii Bool Lia.
From Stdlib Require Import Sorting.Sorted Sorting.Permutation.
From stdpp Require Import base option list strings pretty gmap.

#[local] Set Warnings "-register-all".
#[local] Open Scope string_scope.
#[local] Open Scope list_scope.

(* ================================================================== *)
(** * Python runtime: exceptions and effects *)
(* ================================================================== *)

Module Py.

(** The exception classes the three files raise or catch.  Every class
    is a subclass of [Exception]; interpreter signals that derive from
    [BaseException] only (keyboard interrupt, interpreter exit) are not
    program failures and have no counterpart here, so [except Exception]
    is a handler for every [exn]. *)
Inductive exn_class : Set :=
| ValueError
| TypeError
| KeyError
| IOError                  (* alias of OSError since Python 3.3 *)
| FileNotFoundError        (* subclass of OSError *)
| ImportError
| AlreadyExists            (* google.api_core.exceptions *)
| NotFound                 (* google.api_core.exceptions *)
| DuplicateCredentialArgs  (* google.api_core.exceptions *)
| DefaultCredentialsError  (* google.auth.exceptions *)
| OtherException (name : string).

#[global] Instance exn_class_eq_dec : EqDecision exn_class.
Proof. solve_decision. Defined.

(** Direct base class below [Exception], where the code relies on one. *)
Definition base_class (c : exn_class) : option exn_class :=
  match c with
  | FileNotFoundError => Some IOError
  | _ => None
  end.

Definition issubclass (c d : exn_class) : bool :=
  bool_decide (c = d)
  || match base_class c with
     | Some b => bool_decide (b = d)
     | None => false
     end.

(** An exception instance: class, message ([str(e)]) and the cause set
    by [raise ... from err]. *)
Inductive exn : Type :=
| Exn (cls : exn_class) (msg : string) (cause : option exn).

Definition exn_cls (e : exn) : exn_class := let 'Exn c _ _ := e in c.
Definition exn_msg (e : exn) : string := let 'Exn _ m _ := e in m.
Definition exn_cause (e : exn) : option exn := let 'Exn _ _ c := e in c.

Definition isinstance (e : exn) (c : exn_class) : bool :=
  issubclass (exn_cls e) c.

(** Outcome of a call: a value or a raised exception. *)
Inductive res (A : Type) : Type :=
| Ok (a : A)
| Raise (e : exn).
Arguments Ok {A} a.
Arguments Raise {A} e.

Definition is_ok {A} (r : res A) : bool :=
  match r with Ok _ => true | Raise _ => false end.

(** Truthiness of the values tested with [if x:] / [x or y]. *)
Definition truthy_str (s : string) : bool :=
  negb (String.eqb s "").
Definition truthy_opt_str (s : option string) : bool :=
  match s with Some s => truthy_str s | None => false end.
Definition truthy_list {A} (l : list A) : bool :=
  match l with [] => false | _ :: _ => true end.

(** [repr] of a [str], a [string] being a [str] of code points below
    U+0100.  The quote is the double one when the string holds a single
    quote and no double one, the single one otherwise; the quote and the
    backslash are escaped, tab, line feed and carriage return are written
    [\t], [\n] and [\r], any other character that is not printable (a
    control character, the no-break space, the soft hyphen) is written
    [\xhh] in lower-case hexadecimal, and the rest stands for itself. *)
Fixpoint has_char (c : ascii) (s : string) : bool :=
  match s with
  | EmptyString => false
  | String d rest => Ascii.eqb c d || has_char c rest
  end.

Definition hex_digit (n : N) : ascii :=
  match n with
  | 0 => "0" | 1 => "1" | 2 => "2" | 3 => "3" | 4 => "4" | 5 => "5"
  | 6 => "6" | 7 => "7" | 8 => "8" | 9 => "9" | 10 => "a" | 11 => "b"
  | 12 => "c" | 13 => "d" | 14 => "e" | _ => "f"
  end%N%char.

Definition is_printable (c : ascii) : bool :=
  let n := N_of_ascii c in
  ((32 <=? n) && (n <? 127) || (161 <=? n) && negb (n =? 173))%N.

Definition repr_char (quote c : ascii) : string :=
  let escape (d : ascii) : string :=
    String "092"%char (String d EmptyString) in
  if Ascii.eqb c quote || Ascii.eqb c "092"%char then escape c
  else if Ascii.eqb c "009"%char then escape "t"%char
  else if Ascii.eqb c "010"%char then escape "n"%char
  else if Ascii.eqb c "013"%char then escape "r"%char
  else if is_printable c then String c EmptyString
  else String "092"%char
         (String "x"%char
            (String (hex_digit (N_of_ascii c / 16))
               (String (hex_digit (N_of_ascii c mod 16)) EmptyString))).

Fixpoint repr_body (quote : ascii) (s : string) : string :=
  match s with
  | EmptyString => EmptyString
  | String c rest => repr_char quote c +:+ repr_body quote rest
  end.

Definition repr (s : string) : string :=
  let quote : ascii :=
    if has_char "039"%char s && negb (has_char "034"%char s)
    then "034"%char else "039"%char in
  String quote (repr_body quote s +:+ String quote EmptyString).

(** [sep.join(parts)] *)
Fixpoint join (sep : string) (parts : list string) : string :=
  match parts with
  | [] => ""
  | [p] => p
  | p :: rest => p +:+ sep +:+ join sep rest
  end.

(** [sub in s]: the string [sub] occurs in [s]. *)
Definition occurs_in (sub s : string) : Prop :=
  exists pre post, s = pre +:+ sub +:+ post.

(** ** The effect monad

    A computation reads and updates a state [St] (the remote side, the
    object store), returns or raises, and emits the events [Ev] it
    performs, in order.  Events are output only: nothing a computation
    does depends on events emitted earlier. *)
Section Monad.
Context {St Ev : Type}.

Definition M (A : Type) : Type := St -> res A * St * list Ev.

Definition ret {A} (a : A) : M A := fun s => (Ok a, s, []).

Definition raise {A} (e : exn) : M A := fun s => (Raise e, s, []).

Definition bind {A B} (m : M A) (k : A -> M B) : M B :=
  fun s =>
    match m s with
    | (Ok a, s1, ev1) =>
        let '(r, s2, ev2) := k a s1 in (r, s2, ev1 ++ ev2)
    | (Raise e, s1, ev1) => (Raise e, s1, ev1)
    end.

Definition emit (ev : Ev) : M unit := fun s => (Ok tt, s, [ev]).

(** A call into a collaborator that is a function of the state. *)
Definition call {A} (f : St -> res A * St) : M A :=
  fun s => let '(r, s1) := f s in (r, s1, []).

Definition lift {A} (r : res A) : M A := fun s => (r, s, []).

(** [try: m except c as e: h e] *)
Definition try_except {A} (m : M A) (c : exn_class) (h : exn -> M A)
  : M A :=
  fun s =>
    match m s with
    | (Ok a, s1, ev1) => (Ok a, s1, ev1)
    | (Raise e, s1, ev1) =>
        if isinstance e c
        then let '(r, s2, ev2) := h e s1 in (r, s2, ev1 ++ ev2)
        else (Raise e, s1, ev1)
    end.

(** [try: m except Exception as e: h e] *)
Definition try_except_all {A} (m : M A) (h : exn -> M A) : M A :=
  fun s =>
    match m s with
    | (Ok a, s1, ev1) => (Ok a, s1, ev1)
    | (Raise e, s1, ev1) =>
        let '(r, s2, ev2) := h e s1 in (r, s2, ev1 ++ ev2)
    end.

(** [for x in xs: body x] *)
Fixpoint for_each {A} (xs : list A) (body : A -> M unit) : M unit :=
  match xs with
  | [] => ret tt
  | x :: rest => bind (body x) (fun _ => for_each rest body)
  end.

(** A computation that leaves the state alone and emits no event of the
    kind [P]. *)
Definition silent {A} (P : Ev -> bool) (m : M A) : Prop :=
  forall s, (m s).1.2 = s /\ Forall (fun ev => P ev = false) (m s).2.

(** A computation every event of which satisfies [Q]. *)
Definition emits {A} (Q : Ev -> Prop) (m : M A) : Prop :=
  forall s, Forall Q (m s).2.

Definition result_of {A} (o : res A * St * list Ev) : res A := o.1.1.
Definition state_of {A} (o : res A * St * list Ev) : St := o.1.2.
Definition events_of {A} (o : res A * St * list Ev) : list Ev := o.2.

(** Two runs that end alike: same result, same state, and the same
    events of the kind [P] in the same order. *)
Definition same_upto {A} (P : Ev -> bool) (o1 o2 : res A * St * list Ev)
  : Prop :=
  result_of o1 = result_of o2
  /\ state_of o1 = state_of o2
  /\ List.filter P (events_of o1) = List.filter P (events_of o2).
End Monad.

Arguments M : clear implicits.

Declare Scope py_scope.
Delimit Scope py_scope with py.
Notation "'let*' x ':=' m 'in' k" := (bind m (fun x => k))
  (at level 10, x name, m at level 100, k at level 200) : py_scope.
Notation "m ';;;' k" := (bind m (fun _ => k))
  (at level 100, k at level 200, right associativity) : py_scope.

End Py.

Import Py.
#[local] Open Scope py_scope.

(* ================================================================== *)
(** * google/cloud/aiplatform/metadata/artifact.py *)
(* ================================================================== *)

Module Metadata.

(** The double-quote character of the filter strings. *)
Definition dq : string := String "034"%char EmptyString.

(** The newline character. *)
Definition nl : string := String "010"%char EmptyString.

(** Credentials are opaque to this layer. *)
Definition Credentials : Type := string.

Inductive State : Set := STATE_UNSPECIFIED | PENDING | LIVE.

(** [gca_artifact.Artifact], the message of the wire.  A string field
    that is not set reads as the empty string; [create_time] is the
    timestamp the service stamps, in nanoseconds. *)
Record gca_artifact : Type := {
  name : string;
  uri : string;
  schema_title : string;
  schema_version : string;
  display_name : string;
  description : string;
  metadata : gmap string string;
  state : State;
  create_time : Z;
}.

Definition proto_str (o : option string) : string := default EmptyString o.

(** [metadata_service.ListArtifactsRequest] *)
Record ListArtifactsRequest : Type := {
  lr_parent : string;
  lr_filter : option string;
}.

(** The metadata client ([utils.MetadataClientWithOverride]): the two
    calls of the service this file issues, over a service state [St]. *)
Record MetadataClient (St : Type) : Type := {
  create_artifact :
    string -> gca_artifact -> option string -> St -> res gca_artifact * St;
  list_artifacts :
    ListArtifactsRequest -> St -> res (list gca_artifact) * St;
}.
Arguments create_artifact {St} _ _ _ _ _.
Arguments list_artifacts {St} _ _ _.

(** [initializer.global_config]: the ambient project and location. *)
Record GlobalConfig : Type := {
  gc_project : string;
  gc_location : string;
}.

(** Modelled from the spec: [initializer.global_config.common_location_path]
    is not among the sources; the resource-name format of the spec gives
    [projects/{project}/locations/{location}], an argument left out
    falling back to the ambient value. *)
Definition common_location_path (cfg : GlobalConfig)
    (project location : option string) : string :=
  "projects/" +:+ default (gc_project cfg) project
    +:+ "/locations/" +:+ default (gc_location cfg) location.

(** [f"{x}"] of an optional string. *)
Definition fmt_opt (o : option string) : string := default "None" o.

(** The parent of the artifacts of a metadata store:
    [common_location_path(project, location)
     + f"/metadataStores/{metadata_store_id}"]. *)
Definition metadata_store_path (cfg : GlobalConfig)
    (metadata_store_id project location : option string) : string :=
  common_location_path cfg project location
    +:+ "/metadataStores/" +:+ fmt_opt metadata_store_id.

(** The local handle: [cls(resource=..., project=..., location=...,
    credentials=...)] binds the message it is given. *)
Record Artifact : Type := {
  gca_resource : gca_artifact;
  project : option string;
  location : option string;
  credentials : option Credentials;
}.

Definition resource_name (a : Artifact) : string := name (gca_resource a).
Definition artifact_uri (a : Artifact) : string := uri (gca_resource a).
Definition artifact_create_time (a : Artifact) : Z :=
  create_time (gca_resource a).

(** What a call does, in order. *)
Inductive event : Type :=
| InstantiateClient (location : option string)
    (credentials : option Credentials)
| RpcCreateArtifact (parent : string) (artifact : gca_artifact)
    (artifact_id : option string)
| RpcListArtifacts (request : ListArtifactsRequest)
| ConstructArtifact (resource_name : string)
| WaitResource (resource_name : string)
| LogInfo (msg : string).

(** [list.sort(key=...)]: a stable sort, ascending.  The result of a
    stable sort is unique, so insertion (an element goes before the
    first one whose key is not smaller) gives the list Python's sort
    gives. *)
Section Sort.
Context {A : Type} (key : A -> Z).

(** Ascending order of the keys. *)
Definition key_le (a b : A) : Prop := (key a <= key b)%Z.

Fixpoint insert_by (x : A) (l : list A) : list A :=
  match l with
  | [] => [x]
  | y :: l' =>
      if (key x <=? key y)%Z then x :: y :: l'
      else y :: insert_by x l'
  end.

Fixpoint sort_by (l : list A) : list A :=
  match l with
  | [] => []
  | x :: l' => insert_by x (sort_by l')
  end.
End Sort.

(** The classes whose instances the resolver takes. *)
Inductive resource_type : Set :=
| Model
| OtherType (type_name : string).

(** A platform resource as the resolver sees it.  [r_wait] is what
    [resource.wait()] does: [None] when the resource is stable, the
    failure of its pending operation otherwise. *)
Record VertexResource : Type := {
  r_type : resource_type;
  r_resource_name : string;
  r_project : string;
  r_location : string;
  r_credentials : option Credentials;
  r_display_name : option string;
  r_api_endpoint : string;
  r_wait : option exn;
}.

(** Modelled from the spec: [metadata_utils.make_gcp_resource_url] is
    not among the sources; it computes the canonical URI of a resource
    from its endpoint and its resource name. *)
Definition make_gcp_resource_url (resource : VertexResource) : string :=
  "https://" +:+ r_api_endpoint resource +:+ "/v1/"
    +:+ r_resource_name resource.

(** Modelled from the spec: [metadata_utils.make_filter_string] is not
    among the sources; it builds the filter of equality on
    [(schema_title, uri)]. *)
Definition make_filter_string (schema_title uri : string) : string :=
  "schema_title=" +:+ dq +:+ schema_title +:+ dq
    +:+ " AND uri=" +:+ dq +:+ uri +:+ dq.

(** [f'uri = "{uri}"'] *)
Definition uri_filter (uri : string) : string :=
  "uri = " +:+ dq +:+ uri +:+ dq.

Definition _resource_to_artifact_type (t : resource_type) : option string :=
  match t with
  | Model => Some "google.VertexModel"
  | OtherType _ => None
  end.

(** The message [_create_resource] builds:
    [gca_artifact.Artifact(uri=..., schema_title=..., ...,
     metadata=metadata if metadata else {}, state=LIVE)]. *)
Definition new_gapic_artifact (schema_title : string)
    (uri display_name schema_version description : option string)
    (metadata : option (gmap string string)) : gca_artifact :=
  {| name := EmptyString;
     uri := proto_str uri;
     schema_title := schema_title;
     schema_version := proto_str schema_version;
     display_name := proto_str display_name;
     description := proto_str description;
     metadata := default ∅ metadata;
     state := LIVE;
     create_time := 0 |}.

Section Calls.
Context {St : Type}.
Variable client : MetadataClient St.
Variable cfg : GlobalConfig.

#[local] Abbreviation M := (Py.M St event).

(** Modelled from the spec: [cls._instantiate_client] is inherited from a
    base class that is not among the sources; it builds the client of
    the remote facade for a location and credentials, and calls
    nothing. *)
Definition _instantiate_client (location : option string)
    (credentials : option Credentials) : M (MetadataClient St) :=
  emit (InstantiateClient location credentials) ;;; ret client.

(** Modelled from the spec: the constructor [cls(resource=...,
    project=..., location=..., credentials=...)] is inherited from a base
    class that is not among the sources; the resource handle wraps the
    snapshot it is given, without a remote call. *)
Definition construct (resource : gca_artifact)
    (project location : option string)
    (credentials : option Credentials) : M Artifact :=
  emit (ConstructArtifact (name resource)) ;;;
  ret {| gca_resource := resource; project := project;
         location := location; credentials := credentials |}.

(** [_Artifact._create_resource] *)
Definition _create_resource (api_client : MetadataClient St)
    (parent : string) (resource_id : option string)
    (schema_title : string)
    (uri display_name schema_version description : option string)
    (metadata : option (gmap string string)) : M gca_artifact :=
  let gapic_artifact :=
    new_gapic_artifact schema_title uri display_name schema_version
      description metadata in
  emit (RpcCreateArtifact parent gapic_artifact resource_id) ;;;
  call (create_artifact api_client parent gapic_artifact resource_id).

(** [_Artifact._create] *)
Definition _create (resource_id : option string) (schema_title : string)
    (uri display_name schema_version description : option string)
    (metadata : option (gmap string string))
    (metadata_store_id project location : option string)
    (credentials : option Credentials) : M Artifact :=
  let* api_client := _instantiate_client location credentials in
  let parent := metadata_store_path cfg metadata_store_id project location in
  let* resource :=
    try_except
      (_create_resource api_client parent resource_id schema_title uri
         display_name schema_version description metadata)
      AlreadyExists
      (fun e => raise e) in
  construct resource project location credentials.

(** [_Artifact._list_resources] *)
Definition _list_resources (api_client : MetadataClient St)
    (parent : string) (filter : option string) : M (list gca_artifact) :=
  let list_request := {| lr_parent := parent; lr_filter := filter |} in
  emit (RpcListArtifacts list_request) ;;;
  call (list_artifacts api_client list_request).

Fixpoint construct_all (resources : list gca_artifact)
    (project location : option string)
    (credentials : option Credentials) : M (list Artifact) :=
  match resources with
  | [] => ret []
  | r :: rest =>
      let* a := construct r project location credentials in
      let* others := construct_all rest project location credentials in
      ret (a :: others)
  end.

(** Modelled from the spec: [Artifact.list] is inherited from a base
    class that is not among the sources; the facade's
    [list(parent, filter) -> sequence<Resource>] lists under the
    metadata store of the parent and wraps each message in a handle. *)
Definition Artifact_list (filter : option string)
    (metadata_store_id project location : option string)
    (credentials : option Credentials) : M (list Artifact) :=
  let* api_client := _instantiate_client location credentials in
  let parent := metadata_store_path cfg metadata_store_id project location in
  let* resources := _list_resources api_client parent filter in
  construct_all resources project location credentials.

(** [Artifact.create] *)
Definition create (schema_title : string)
    (resource_id uri display_name schema_version description
       : option string)
    (metadata : option (gmap string string))
    (metadata_store_id project location : option string)
    (credentials : option Credentials) : M Artifact :=
  _create resource_id schema_title uri display_name schema_version
    description metadata metadata_store_id project location credentials.

(** [Artifact.get_with_uri] *)
Definition get_with_uri (uri : string)
    (metadata_store_id project location : option string)
    (credentials : option Credentials) : M Artifact :=
  let* matched_artifacts :=
    Artifact_list (Some (uri_filter uri)) metadata_store_id project
      location credentials in
  match matched_artifacts with
  | [] =>
      raise (Exn ValueError
               ("No artifact with uri " +:+ uri +:+ " is in the `"
                  +:+ fmt_opt metadata_store_id +:+ "` MetadataStore.")
               None)
  | first :: others =>
      (if (1 <? length matched_artifacts)%nat then
         let resource_names :=
           join nl (map resource_name matched_artifacts) in
         emit (LogInfo ("Mutiple artifacts with uri " +:+ uri
                          +:+ " were found: " +:+ resource_names)) ;;;
         emit (LogInfo ("Returning " +:+ resource_name first))
       else ret tt) ;;;
      ret first
  end.

(** [VertexResourceArtifactResolver.supports_metadata] *)
Definition supports_metadata (resource : VertexResource) : bool :=
  bool_decide (is_Some (_resource_to_artifact_type (r_type resource))).

(** Modelled from the spec: [resource.wait()] belongs to a class that is
    not among the sources; it waits for the resource to reach a stable
    state, and raises when its pending operation failed. *)
Definition wait (resource : VertexResource) : M unit :=
  emit (WaitResource (r_resource_name resource)) ;;;
  match r_wait resource with
  | Some e => raise e
  | None => ret tt
  end.

(** [cls._resource_to_artifact_type[type(resource)]] *)
Definition lookup_artifact_type (resource : VertexResource) : M string :=
  match _resource_to_artifact_type (r_type resource) with
  | Some t => ret t
  | None =>
      raise (Exn KeyError
               match r_type resource with
               | Model => "Model"
               | OtherType n => n
               end None)
  end.

(** [VertexResourceArtifactResolver.resolve_vertex_resource] *)
Definition resolve_vertex_resource (resource : VertexResource)
  : M (option Artifact) :=
  wait resource ;;;
  let* metadata_type := lookup_artifact_type resource in
  let uri := make_gcp_resource_url resource in
  let* artifacts :=
    Artifact_list (Some (make_filter_string metadata_type uri))
      (Some "default") (Some (r_project resource))
      (Some (r_location resource)) (r_credentials resource) in
  let artifacts := sort_by artifact_create_time artifacts in
  ret (last artifacts).

(** [VertexResourceArtifactResolver.create_vertex_resource_artifact] *)
Definition create_vertex_resource_artifact (resource : VertexResource)
  : M Artifact :=
  wait resource ;;;
  let* metadata_type := lookup_artifact_type resource in
  let uri := make_gcp_resource_url resource in
  create metadata_type None (Some uri) (r_display_name resource) None
    None (Some {[ "resourceName" := r_resource_name resource ]})
    (Some "default") (Some (r_project resource))
    (Some (r_location resource)) (r_credentials resource).

(** [VertexResourceArtifactResolver.resolve_or_create_resource_artifact] *)
Definition resolve_or_create_resource_artifact
    (resource : VertexResource) : M Artifact :=
  let* artifact := resolve_vertex_resource resource in
  match artifact with
  | Some a => ret a
  | None => create_vertex_resource_artifact resource
  end.
End Calls.

(** The request [resolve_vertex_resource] sends for a resource whose
    artifact type is [metadata_type], and the handle it binds to a listed
    message. *)
Definition resolver_request (cfg : GlobalConfig) (resource : VertexResource)
    (metadata_type : string) : ListArtifactsRequest :=
  {| lr_parent :=
       metadata_store_path cfg (Some "default") (Some (r_project resource))
         (Some (r_location resource));
     lr_filter :=
       Some (make_filter_string metadata_type
               (make_gcp_resource_url resource)) |}.

Definition resolver_handle (resource : VertexResource) (r : gca_artifact)
  : Artifact :=
  Build_Artifact r (Some (r_project resource)) (Some (r_location resource))
    (r_credentials resource).

(** ** The metadata service

    Modelled from the spec: the remote service is not part of the
    repository.  It keeps the artifacts of every metadata store in the
    order they were created, stamps a new artifact with its clock,
    generates the ID of an artifact created without one, refuses an ID
    that is taken, and lists the artifacts of a parent that satisfy the
    filter; the filters are the two equalities this file sends. *)
Record Store : Type := {
  st_rows : list (string * gca_artifact);
  st_clock : Z;
  st_serial : nat;
}.

Definition row_matches (request : ListArtifactsRequest)
    (row : string * gca_artifact) : bool :=
  String.eqb (lr_parent request) row.1
  && match lr_filter request with
     | None => true
     | Some f =>
         String.eqb f (uri_filter (uri row.2))
         || String.eqb f (make_filter_string (schema_title row.2)
                            (uri row.2))
     end.

Definition store_list (request : ListArtifactsRequest) (st : Store)
  : res (list gca_artifact) * Store :=
  (Ok (map snd (List.filter (row_matches request) (st_rows st))), st).

Definition store_create (parent : string) (artifact : gca_artifact)
    (artifact_id : option string) (st : Store) : res gca_artifact * Store :=
  let id :=
    if truthy_opt_str artifact_id then proto_str artifact_id
    else pretty (st_serial st) in
  let full_name := parent +:+ "/artifacts/" +:+ id in
  if truthy_opt_str artifact_id
     && existsb (fun row => String.eqb (name row.2) full_name) (st_rows st)
  then (Raise (Exn AlreadyExists full_name None), st)
  else
    let row :=
      {| name := full_name;
         uri := uri artifact;
         schema_title := schema_title artifact;
         schema_version := schema_version artifact;
         display_name := display_name artifact;
         description := description artifact;
         metadata := metadata artifact;
         state := state artifact;
         create_time := st_clock st |} in
    (Ok row,
     {| st_rows := st_rows st ++ [(parent, row)];
        st_clock := st_clock st;
        st_serial := S (st_serial st) |}).

Definition store_client : MetadataClient Store :=
  {| create_artifact := store_create; list_artifacts := store_list |}.

(** The artifact the service stores for [create_vertex_resource_artifact],
    and the store once it has. *)
Definition created_row (cfg : GlobalConfig) (resource : VertexResource)
    (metadata_type : string) (st : Store) : gca_artifact :=
  {| name := lr_parent (resolver_request cfg resource metadata_type)
               +:+ "/artifacts/" +:+ pretty (st_serial st);
     uri := make_gcp_resource_url resource;
     schema_title := metadata_type;
     schema_version := EmptyString;
     display_name := proto_str (r_display_name resource);
     description := EmptyString;
     metadata := {[ "resourceName" := r_resource_name resource ]};
     state := LIVE;
     create_time := st_clock st |}.

Definition store_after_create (cfg : GlobalConfig)
    (resource : VertexResource) (metadata_type : string) (st : Store)
  : Store :=
  {| st_rows :=
       st_rows st
         ++ [(lr_parent (resolver_request cfg resource metadata_type),
              created_row cfg resource metadata_type st)];
     st_clock := st_clock st;
     st_serial := S (st_serial st) |}.

End Metadata.

(* ================================================================== *)
(** * vertexai/reasoning_engines/_reasoning_engines.py *)
(* ================================================================== *)

Module ReasoningEngines.

(** ** Text

    A [str] read from a file or given as a requirement line is a sequence
    of Unicode code points; paths, names and messages are plain strings. *)
Definition text : Type := list N.

Definition text_of_string (s : string) : text :=
  map N_of_ascii (list_ascii_of_string s).

(** The line boundaries of [str.splitlines]: LF, VT, FF, CR, FS, GS, RS,
    NEL, LINE SEPARATOR, PARAGRAPH SEPARATOR. *)
Definition is_line_boundary (c : N) : bool :=
  existsb (N.eqb c) [10; 11; 12; 13; 28; 29; 30; 133; 8232; 8233]%N.

(** [str.splitlines()], [line] being the line read so far: a boundary
    ends a line (CR LF counts once), and the text after the last boundary
    is a line when it is not empty. *)
Fixpoint splitlines_from (line s : text) : list text :=
  match s with
  | [] => match line with [] => [] | _ :: _ => [line] end
  | c :: rest =>
      if is_line_boundary c then
        line :: match rest with
                | c2 :: rest2 =>
                    if (c =? 13)%N && (c2 =? 10)%N
                    then splitlines_from [] rest2
                    else splitlines_from [] rest
                | [] => []
                end
      else splitlines_from (line ++ [c]) rest
  end.

Definition splitlines (s : text) : list text := splitlines_from [] s.

(** ["\n".join(lines)] *)
Fixpoint join_lines (lines : list text) : text :=
  match lines with
  | [] => []
  | [l] => l
  | l :: rest => l ++ 10%N :: join_lines rest
  end.

(** A text file that holds [lines], each line ended by a newline. *)
Definition unlines (lines : list text) : text :=
  concat (map (fun l => l ++ [10%N]) lines).

(** A line: a text that holds no line boundary. *)
Definition is_line (l : text) : Prop :=
  Forall (fun c => is_line_boundary c = false) l.

(** The text of a file that holds [lines]: every line ended by a newline,
    or the lines joined by newlines with none after the last. *)
Definition file_text (lines : list text) (final_newline : bool) : text :=
  if final_newline then unlines lines else join_lines lines.

(** [s.replace(old, new)], for a non-empty [old]: [skip] counts the
    characters of a match that are still to be dropped. *)
Fixpoint replace_from (old new : string) (skip : nat) (s : string) : string :=
  match s with
  | EmptyString => EmptyString
  | String c rest =>
      match skip with
      | S k => replace_from old new k rest
      | O =>
          if String.prefix old s
          then new +:+ replace_from old new (String.length old - 1) rest
          else String c (replace_from old new 0 rest)
      end
  end.

Definition replace (old new s : string) : string := replace_from old new 0 s.

(** ** Values *)

(** JSON-like values: [_utils.JsonDict] and what it holds. *)
Inductive json : Type :=
| JNull
| JBool (b : bool)
| JNum (z : Z)
| JStr (s : string)
| JList (l : list json)
| JDict (m : gmap string json).

(** What is written to a blob: a [str] (stored in UTF-8) or [bytes]. *)
Inductive data : Type :=
| PyStr (t : text)
| PyBytes (b : string).

(** The [requirements] argument: a path or the lines themselves. *)
Inductive Requirements : Type :=
| ReqPath (path : string)
| ReqList (lines : list text).

(** The object passed as [reasoning_engine], as [create] looks at it:
    its class name, whether [query] is a callable attribute, the error of
    [inspect.signature(query)] if any, what [clone()] gives when the
    object is [Cloneable], and its pickle. *)
Inductive Engine : Type :=
| MkEngine (type_name : string) (has_query : bool)
    (signature_error : option exn) (clone : option (res Engine))
    (pickle : string).

Definition type_name (e : Engine) : string :=
  let 'MkEngine n _ _ _ _ := e in n.
Definition has_query (e : Engine) : bool :=
  let 'MkEngine _ q _ _ _ := e in q.
Definition signature_error (e : Engine) : option exn :=
  let 'MkEngine _ _ g _ _ := e in g.
Definition clone (e : Engine) : option (res Engine) :=
  let 'MkEngine _ _ _ c _ := e in c.
Definition pickle (e : Engine) : string :=
  let 'MkEngine _ _ _ _ b := e in b.

(** [types.ReasoningEngineSpec.PackageSpec]; a URI that is not set reads
    as the empty string. *)
Record PackageSpec : Type := {
  python_version : string;
  pickle_object_gcs_uri : string;
  dependency_files_gcs_uri : string;
  requirements_gcs_uri : string;
}.

(** [types.ReasoningEngineSpec] *)
Record ReasoningEngineSpec : Type := {
  package_spec : PackageSpec;
  class_methods : list json;
}.

(** [types.ReasoningEngine] *)
Record gca_reasoning_engine : Type := {
  name : string;
  display_name : string;
  description : string;
  spec : ReasoningEngineSpec;
}.

(** [types.QueryReasoningEngineRequest] *)
Record QueryReasoningEngineRequest : Type := {
  q_name : string;
  q_input : gmap string json;
}.

(** The local handle. *)
Record ReasoningEngine : Type := {
  _gca_resource : gca_reasoning_engine;
  _operation_schemas : option (list json);
}.

Definition resource_name (self : ReasoningEngine) : string :=
  name (_gca_resource self).

(** A node of the local disk. *)
Inductive fs_node : Type :=
| File (content : text)
| Directory.

(** ** Collaborators *)

(** The object store ([google.cloud.storage]) over a remote state. *)
Record StorageClient (St : Type) : Type := {
  get_bucket : string -> St -> res string * St;
  create_bucket : string -> string -> St -> res string * St;
  blob_open_write : string -> string -> data -> St -> res unit * St;
  upload_from_string : string -> string -> data -> St -> res unit * St;
}.
Arguments get_bucket {St} _ _ _.
Arguments create_bucket {St} _ _ _ _.
Arguments blob_open_write {St} _ _ _ _ _.
Arguments upload_from_string {St} _ _ _ _ _.

(** The reasoning-engine service and its execution service. *)
Record EngineClient (St : Type) : Type := {
  create_reasoning_engine :
    string -> gca_reasoning_engine -> St -> res string * St;
  operation_result : string -> St -> res gca_reasoning_engine * St;
  get_reasoning_engine : string -> St -> res gca_reasoning_engine * St;
  query_reasoning_engine :
    QueryReasoningEngineRequest -> St -> res (gmap string json) * St;
}.
Arguments create_reasoning_engine {St} _ _ _ _.
Arguments operation_result {St} _ _ _.
Arguments get_reasoning_engine {St} _ _ _.
Arguments query_reasoning_engine {St} _ _ _.

(** The process and its configuration: [sys.version_info] (major and
    minor, then micro, release level and serial), the error of
    the inherited initialiser of the handle if it has one (it builds the
    client and calls nothing), what [vertexai.init] set, the local disk,
    which optional packages can be imported, and the helpers of [_utils],
    which are not among the sources and are taken as they come:
    [generate_schema], [to_proto], and the bytes [tarfile] gives for a
    list of paths. *)
Record Runtime : Type := {
  version_info : nat * nat;
  version_release : nat * string * nat;
  init_error : option exn;
  project : string;
  location : string;
  staging_bucket : option string;
  fs : gmap string fs_node;
  has_cloud_exceptions : bool;
  has_cloud_storage : bool;
  has_cloudpickle : bool;
  generate_schema : Engine -> string -> res json;
  to_proto : json -> res json;
  tar_gz : list string -> string;
}.

(** ** Events *)

Inductive log_record : Type :=
| Warning (msg : string)
| Info (msg : string)
| InfoLines (msg : string) (lines : list text).

Inductive event : Type :=
| Log (record : log_record)
| InitResource (resource_name : option string)
| CloneEngine
| OpenFile (path : string)
| PathExists (path : string)
| NewStorageClient (project : string)
| GetBucket (bucket : string)
| CreateBucket (bucket location : string)
| BlobOpenWrite (bucket blob : string) (content : data)
| UploadFromString (bucket blob : string) (content : data)
| RpcCreateReasoningEngine (parent : string)
    (reasoning_engine : gca_reasoning_engine)
| OperationResult (operation : string)
| RpcGetReasoningEngine (name : string)
| NewExecutionClient
| RpcQueryReasoningEngine (request : QueryReasoningEngineRequest).

(** The events that reach the object store or a remote service. *)
Definition is_remote (ev : event) : bool :=
  match ev with
  | GetBucket _ | CreateBucket _ _ | BlobOpenWrite _ _ _
  | UploadFromString _ _ _ | RpcCreateReasoningEngine _ _
  | OperationResult _ | RpcGetReasoningEngine _
  | RpcQueryReasoningEngine _ => true
  | _ => false
  end.

Definition _SUPPORTED_PYTHON_VERSIONS : list string :=
  ["3.8"; "3.9"; "3.10"; "3.11"].
Definition _DEFAULT_GCS_DIR_NAME : string := "reasoning_engine".
Definition _BLOB_FILENAME : string := "reasoning_engine.pkl".
Definition _REQUIREMENTS_FILE : string := "requirements.txt".
Definition _EXTRA_PACKAGES_FILE : string := "dependencies.tar.gz".

(** [f"{sys.version_info.major}.{sys.version_info.minor}"] *)
Definition runtime_version (rt : Runtime) : string :=
  pretty (version_info rt).1 +:+ "." +:+ pretty (version_info rt).2.

(** [repr(sys.version_info)] *)
Definition version_info_repr (rt : Runtime) : string :=
  "sys.version_info(major=" +:+ pretty (version_info rt).1
    +:+ ", minor=" +:+ pretty (version_info rt).2
    +:+ ", micro=" +:+ pretty (version_release rt).1.1
    +:+ ", releaselevel=" +:+ repr (version_release rt).1.2
    +:+ ", serial=" +:+ pretty (version_release rt).2 +:+ ")".

(** ["{}/{}/{}".format(a, b, c)] *)
Definition format3 (a b c : string) : string := a +:+ "/" +:+ b +:+ "/" +:+ c.

(** [ReasoningEngine.query], lines 357-359:
    [if "output" in output: return output.get("output")], else
    [return output]. *)
Definition select_output (output : gmap string json) : json :=
  match output !! "output" with
  | Some value => value
  | None => JDict output
  end.

Section Calls.
Context {St : Type}.
Variable storage : StorageClient St.
Variable api : EngineClient St.
Variable rt : Runtime.

#[local] Abbreviation M := (Py.M St event).

(** A call that reaches a collaborator: the event, then the call. *)
Definition remote {A} (ev : event) (f : St -> res A * St) : M A :=
  emit ev ;;; call f.

(** [ReasoningEngine.create], lines 183-230: the Python version, the
    handle, the staging bucket, the [query] method and the clone.  Gives
    the version, the staging bucket and the object to deploy. *)
Definition check_runtime (reasoning_engine : Engine)
    (reasoning_engine_name sys_version : option string)
  : M (string * string * Engine) :=
  let sys_version :=
    if truthy_opt_str sys_version then default EmptyString sys_version
    else runtime_version rt in
  (if existsb (String.eqb sys_version) _SUPPORTED_PYTHON_VERSIONS then ret tt
   else raise (Exn ValueError
                 ("Unsupported python version: " +:+ sys_version
                    +:+ ". ReasoningEngine only supports "
                    +:+ "('3.8', '3.9', '3.10', '3.11') at the moment.")
                 None)) ;;;
  (if truthy_opt_str reasoning_engine_name then
     emit (Log (Warning
                  ("ReasoningEngine does not support user-defined resource "
                     +:+ "IDs at the moment. Therefore reasoning_engine_name="
                     +:+ repr (default EmptyString reasoning_engine_name)
                     +:+ " would be ignored and a random ID will be "
                     +:+ "generated instead.")))
   else ret tt) ;;;
  (if negb (String.eqb sys_version (runtime_version rt)) then
     emit (Log (Warning
                  ("sys_version=" +:+ repr sys_version
                     +:+ " is inconsistent with sys.version_info="
                     +:+ version_info_repr rt
                     +:+ ". This might result in issues with deployment, "
                     +:+ "and should only be used as a workaround for "
                     +:+ "advanced cases.")))
   else ret tt) ;;;
  emit (InitResource reasoning_engine_name) ;;;
  match init_error rt with Some e => raise e | None => ret tt end ;;;
  let* staging_bucket :=
    if truthy_opt_str (staging_bucket rt)
    then ret (default EmptyString (staging_bucket rt))
    else raise (Exn ValueError
                  "Please provide a `staging_bucket` in `vertexai.init(...)`"
                  None) in
  (if String.prefix "gs://" staging_bucket then ret tt
   else raise (Exn ValueError
                 ("staging_bucket=" +:+ repr staging_bucket
                    +:+ " must start with `gs://`") None)) ;;;
  (if has_query reasoning_engine then ret tt
   else raise (Exn TypeError
                 "reasoning_engine does not have a callable method named `query`"
                 None)) ;;;
  try_except
    match signature_error reasoning_engine with
    | Some err => raise err
    | None => ret tt
    end
    ValueError
    (fun err =>
       raise (Exn ValueError
                ("Invalid query signature. This might be due to a missing "
                   +:+ "`self` argument in the reasoning_engine.query method.")
                (Some err))) ;;;
  let* reasoning_engine :=
    match clone reasoning_engine with
    | Some cloned => emit CloneEngine ;;; lift cloned
    | None => ret reasoning_engine
    end in
  ret (sys_version, staging_bucket, reasoning_engine).

(** [open(path)] followed by [f.read()] *)
Definition read_file (path : string) : M text :=
  emit (OpenFile path) ;;;
  match fs rt !! path with
  | Some (File content) => ret content
  | Some Directory =>
      raise (Exn IOError ("[Errno 21] Is a directory: " +:+ repr path) None)
  | None =>
      raise (Exn FileNotFoundError
               ("[Errno 2] No such file or directory: " +:+ repr path) None)
  end.

(** [ReasoningEngine.create], lines 231-241: the requirements as a list
    of lines. *)
Definition normalize_requirements (requirements : option Requirements)
  : M (list text) :=
  match requirements with
  | Some (ReqPath path) =>
      try_except
        (emit (Log (Info ("Reading requirements from requirements="
                            +:+ repr path))) ;;;
         let* content := read_file path in
         let requirements := splitlines content in
         emit (Log (InfoLines "Read the following lines: " requirements)) ;;;
         ret requirements)
        IOError
        (fun err =>
           raise (Exn IOError
                    ("Failed to read requirements from requirements="
                       +:+ repr path) (Some err)))
  | Some (ReqList lines) => ret lines
  | None => ret []
  end.

(** [os.path.exists(path)] *)
Definition path_exists (path : string) : bool :=
  bool_decide (is_Some (fs rt !! path)).

(** The first extra package that is not on the disk. *)
Definition first_missing (extra_packages : list string) : option string :=
  List.find (fun p => negb (path_exists p)) extra_packages.

(** [ReasoningEngine.create], lines 242-247: every extra package must
    exist. *)
Definition check_extra_packages (extra_packages : list string) : M unit :=
  for_each extra_packages
    (fun extra_package =>
       emit (PathExists extra_package) ;;;
       if path_exists extra_package then ret tt
       else raise (Exn FileNotFoundError
                     ("Extra package specified but not found: extra_package="
                        +:+ repr extra_package) None)).

(** [_prepare] *)
Definition _prepare (reasoning_engine : Engine) (requirements : list text)
    (project location staging_bucket gcs_dir_name : string)
    (extra_packages : list string) : M unit :=
  (if has_cloud_storage rt then ret tt
   else raise (Exn ImportError
                 "Cloud Storage is not installed." None)) ;;;
  (if has_cloudpickle rt then ret tt
   else raise (Exn ImportError "cloudpickle is not installed." None)) ;;;
  emit (NewStorageClient project) ;;;
  let staging_bucket := replace "gs://" EmptyString staging_bucket in
  let lookup : M string :=
    let* gcs_bucket :=
      remote (GetBucket staging_bucket) (get_bucket storage staging_bucket) in
    emit (Log (Info ("Using bucket " +:+ staging_bucket))) ;;;
    ret gcs_bucket in
  let make (_ : exn) : M string :=
    let* gcs_bucket :=
      remote (CreateBucket staging_bucket location)
        (create_bucket storage staging_bucket location) in
    emit (Log (Info ("Creating bucket " +:+ staging_bucket
                       +:+ " in location=" +:+ repr location))) ;;;
    ret gcs_bucket in
  let* gcs_bucket :=
    if has_cloud_exceptions rt then try_except lookup NotFound make
    else try_except_all lookup make in
  let blob := gcs_dir_name +:+ "/" +:+ _BLOB_FILENAME in
  remote (BlobOpenWrite gcs_bucket blob (PyBytes (pickle reasoning_engine)))
    (blob_open_write storage gcs_bucket blob
       (PyBytes (pickle reasoning_engine))) ;;;
  let dir_name := "gs://" +:+ staging_bucket +:+ "/" +:+ gcs_dir_name in
  emit (Log (Info ("Writing to " +:+ dir_name +:+ "/" +:+ _BLOB_FILENAME))) ;;;
  let blob := gcs_dir_name +:+ "/" +:+ _REQUIREMENTS_FILE in
  (if truthy_list requirements then
     remote (UploadFromString gcs_bucket blob
               (PyStr (join_lines requirements)))
       (upload_from_string storage gcs_bucket blob
          (PyStr (join_lines requirements))) ;;;
     emit (Log (Info ("Writing to " +:+ dir_name +:+ "/"
                        +:+ _REQUIREMENTS_FILE)))
   else ret tt) ;;;
  emit (Log (Info "Creating in-memory tarfile of extra_packages")) ;;;
  for_each extra_packages
    (fun file =>
       if path_exists file then ret tt
       else raise (Exn FileNotFoundError
                     ("[Errno 2] No such file or directory: " +:+ repr file)
                     None)) ;;;
  let blob := gcs_dir_name +:+ "/" +:+ _EXTRA_PACKAGES_FILE in
  remote (UploadFromString gcs_bucket blob
            (PyBytes (tar_gz rt extra_packages)))
    (upload_from_string storage gcs_bucket blob
       (PyBytes (tar_gz rt extra_packages))) ;;;
  emit (Log (Info ("Writing to " +:+ dir_name +:+ "/"
                     +:+ _EXTRA_PACKAGES_FILE))).

(** [ReasoningEngine.create], lines 183-260: everything before the
    package specification is built.  Gives the version, the staging
    bucket, the object that was deployed and its requirements. *)
Definition stage (reasoning_engine : Engine)
    (requirements : option Requirements)
    (reasoning_engine_name : option string) (gcs_dir_name : string)
    (sys_version : option string) (extra_packages : option (list string))
  : M (string * string * Engine * list text) :=
  let* checked :=
    check_runtime reasoning_engine reasoning_engine_name sys_version in
  let* requirements := normalize_requirements requirements in
  let extra_packages := default [] extra_packages in
  check_extra_packages extra_packages ;;;
  _prepare checked.2 requirements (project rt) (location rt) checked.1.2
    gcs_dir_name extra_packages ;;;
  ret (checked.1.1, checked.1.2, checked.2, requirements).

(** The package specification of lines 261-279. *)
Definition make_package_spec (sys_version staging_bucket gcs_dir_name : string)
    (requirements : list text) : PackageSpec :=
  {| python_version := sys_version;
     pickle_object_gcs_uri :=
       format3 staging_bucket gcs_dir_name _BLOB_FILENAME;
     dependency_files_gcs_uri :=
       format3 staging_bucket gcs_dir_name _EXTRA_PACKAGES_FILE;
     requirements_gcs_uri :=
       if truthy_list requirements
       then format3 staging_bucket gcs_dir_name _REQUIREMENTS_FILE
       else EmptyString |}.

(** [initializer.global_config.common_location_path(project, location)] *)
Definition common_location_path (project location : string) : string :=
  "projects/" +:+ project +:+ "/locations/" +:+ location.

(** [ReasoningEngine.create], lines 261-328: the specification, the
    schema, the remote creation and the handle. *)
Definition create_remote (staged : string * string * Engine * list text)
    (reasoning_engine_name display_name description : option string)
    (gcs_dir_name : string) : M ReasoningEngine :=
  let '(sys_version, staging_bucket, reasoning_engine, requirements) :=
    staged in
  let package_spec :=
    make_package_spec sys_version staging_bucket gcs_dir_name requirements in
  let reasoning_engine_spec :=
    {| package_spec := package_spec; class_methods := [] |} in
  let* reasoning_engine_spec :=
    try_except_all
      (let* schema_dict :=
         lift (generate_schema rt reasoning_engine
                 (type_name reasoning_engine +:+ "_query")) in
       let* method := lift (to_proto rt schema_dict) in
       ret {| package_spec := package_spec;
              class_methods :=
                class_methods reasoning_engine_spec ++ [method] |})
      (fun e =>
         emit (Log (Warning ("failed to generate schema: " +:+ exn_msg e))) ;;;
         ret reasoning_engine_spec) in
  let parent := common_location_path (project rt) (location rt) in
  let message :=
    {| name := default EmptyString reasoning_engine_name;
       display_name := default EmptyString display_name;
       description := default EmptyString description;
       spec := reasoning_engine_spec |} in
  let* operation_future :=
    remote (RpcCreateReasoningEngine parent message)
      (create_reasoning_engine api parent message) in
  emit (Log (Info ("Creating ReasoningEngine; backing LRO: "
                     +:+ operation_future))) ;;;
  let* created_resource :=
    remote (OperationResult operation_future)
      (operation_result api operation_future) in
  emit (Log (Info ("ReasoningEngine created. Resource name: "
                     +:+ name created_resource))) ;;;
  let* gca_resource :=
    remote (RpcGetReasoningEngine (name created_resource))
      (get_reasoning_engine api (name created_resource)) in
  emit NewExecutionClient ;;;
  ret {| _gca_resource := gca_resource; _operation_schemas := None |}.

(** [ReasoningEngine.create] *)
Definition create (reasoning_engine : Engine)
    (requirements : option Requirements)
    (reasoning_engine_name display_name description : option string)
    (gcs_dir_name : string) (sys_version : option string)
    (extra_packages : option (list string)) : M ReasoningEngine :=
  let* staged :=
    stage reasoning_engine requirements reasoning_engine_name gcs_dir_name
      sys_version extra_packages in
  create_remote staged reasoning_engine_name display_name description
    gcs_dir_name.

(** [ReasoningEngine.query]; the response is the dictionary
    [_utils.to_dict] makes of the message. *)
Definition query (self : ReasoningEngine) (kwargs : gmap string json)
  : M json :=
  let request := {| q_name := resource_name self; q_input := kwargs |} in
  let* response :=
    remote (RpcQueryReasoningEngine request)
      (query_reasoning_engine api request) in
  let output := response in
  ret (select_output output).

End Calls.

(** The class methods [create] attaches to the specification (lines
    283-295): the schema of [query] when its derivation succeeds, none
    when it raises. *)
Definition derived_methods (rt : Runtime) (reasoning_engine : Engine)
  : list json :=
  match generate_schema rt reasoning_engine
          (type_name reasoning_engine +:+ "_query") with
  | Ok schema_dict =>
      match to_proto rt schema_dict with
      | Ok method => [method]
      | Raise _ => []
      end
  | Raise _ => []
  end.

(** [ReasoningEngine.operation_schemas].  [to_dict] is [_utils.to_dict],
    which is not among the sources and is taken as it comes: the
    dictionary it makes of the specification, of which the one key read
    holds a sequence.  Gives the schemas and the handle, whose
    [_operation_schemas] the method sets on first use. *)
Definition operation_schemas
    (to_dict : ReasoningEngineSpec -> gmap string (list json))
    (self : ReasoningEngine) : list json * ReasoningEngine :=
  let spec := to_dict (spec (_gca_resource self)) in
  match _operation_schemas self with
  | None =>
      let schemas := default [] (spec !! "classMethods") in
      (schemas,
       {| _gca_resource := _gca_resource self;
          _operation_schemas := Some schemas |})
  | Some schemas => (schemas, self)
  end.

(** ** The cloud

    Modelled from the spec: the object store and the reasoning-engine
    service are not part of the repository.  A bucket maps blob names to
    what was written; a created engine gets a name under its parent; the
    execution service answers every query with [answer]. *)
Record Cloud : Type := {
  buckets : gmap string (gmap string data);
  engines : list gca_reasoning_engine;
  answer : gmap string json;
}.

Definition cloud_get_bucket (bucket : string) (c : Cloud)
  : res string * Cloud :=
  match buckets c !! bucket with
  | Some _ => (Ok bucket, c)
  | None => (Raise (Exn NotFound ("404 bucket " +:+ bucket) None), c)
  end.

Definition cloud_create_bucket (bucket location : string) (c : Cloud)
  : res string * Cloud :=
  (Ok bucket,
   {| buckets := <[bucket := ∅]> (buckets c);
      engines := engines c; answer := answer c |}).

Definition cloud_write (bucket blob : string) (content : data) (c : Cloud)
  : res unit * Cloud :=
  match buckets c !! bucket with
  | Some blobs =>
      (Ok tt,
       {| buckets := <[bucket := <[blob := content]> blobs]> (buckets c);
          engines := engines c; answer := answer c |})
  | None => (Raise (Exn NotFound ("404 bucket " +:+ bucket) None), c)
  end.

Definition cloud_storage : StorageClient Cloud :=
  {| get_bucket := cloud_get_bucket;
     create_bucket := cloud_create_bucket;
     blob_open_write := cloud_write;
     upload_from_string := cloud_write |}.

Definition operation_suffix : string := "/operations/1".

Definition cloud_create_engine (parent : string)
    (reasoning_engine : gca_reasoning_engine) (c : Cloud)
  : res string * Cloud :=
  let full_name :=
    parent +:+ "/reasoningEngines/" +:+ pretty (length (engines c)) in
  (Ok (full_name +:+ operation_suffix),
   {| buckets := buckets c;
      engines :=
        engines c
          ++ [{| name := full_name;
                 display_name := display_name reasoning_engine;
                 description := description reasoning_engine;
                 spec := spec reasoning_engine |}];
      answer := answer c |}).

Definition cloud_find (matches : gca_reasoning_engine -> bool) (c : Cloud)
  : res gca_reasoning_engine * Cloud :=
  match List.find matches (engines c) with
  | Some found => (Ok found, c)
  | None => (Raise (Exn NotFound "404 reasoning engine" None), c)
  end.

Definition cloud_api : EngineClient Cloud :=
  {| create_reasoning_engine := cloud_create_engine;
     operation_result operation :=
       cloud_find (fun e => String.eqb (name e +:+ operation_suffix) operation);
     get_reasoning_engine full_name :=
       cloud_find (fun e => String.eqb (name e) full_name);
     query_reasoning_engine _ c := (Ok (answer c), c) |}.

End ReasoningEngines.

(* ================================================================== *)
(** * aiplatform_v1beta1/services/model_service/transports/base.py *)
(* ================================================================== *)

Module Transport.

(** [google.auth.credentials.Credentials], as the transport looks at
    them: whether they are service-account credentials, and whether they
    always use a self-signed JWT. *)
Record Credentials : Type := {
  account : string;
  is_service_account : bool;
  always_use_jwt : bool;
}.

(** [google.auth]: loading credentials from a file and looking up the
    default credentials, each given the scopes, the default scopes and
    the quota project; and whether service-account credentials have
    [with_always_use_jwt_access]. *)
Record Auth : Type := {
  load_credentials_from_file :
    string -> option (list string) -> list string -> option string
    -> res Credentials;
  default_credentials :
    option (list string) -> list string -> option string -> res Credentials;
  has_with_always_use_jwt_access : bool;
}.

Inductive event : Type :=
| LoadCredentialsFromFile (filename : string)
| DefaultCredentials.

(** The attributes [__init__] saves. *)
Record ModelServiceTransport : Type := {
  _host : string;
  _scopes : option (list string);
  _credentials : Credentials;
}.

Definition AUTH_SCOPES : list string :=
  ["https://www.googleapis.com/auth/cloud-platform"].

Definition DEFAULT_HOST : string := "aiplatform.googleapis.com".

(** [c in s] for a character [c] *)
Fixpoint contains (c : ascii) (s : string) : bool :=
  match s with
  | EmptyString => false
  | String d rest => Ascii.eqb c d || contains c rest
  end.

Section Init.
Variable auth : Auth.

(** [ModelServiceTransport.__init__] *)
Definition __init__ (host : string) (credentials : option Credentials)
    (credentials_file : option string) (scopes : option (list string))
    (quota_project_id : option string) (always_use_jwt_access : option bool)
  : Py.M unit event ModelServiceTransport :=
  let host := if contains ":" host then host else host +:+ ":443" in
  (if bool_decide (is_Some credentials) && truthy_opt_str credentials_file
   then raise (Exn DuplicateCredentialArgs
                 "'credentials_file' and 'credentials' are mutually exclusive"
                 None)
   else ret tt) ;;;
  let* credentials :=
    match credentials_file, credentials with
    | Some file, _ =>
        emit (LoadCredentialsFromFile file) ;;;
        lift (load_credentials_from_file auth file scopes AUTH_SCOPES
                quota_project_id)
    | None, None =>
        emit DefaultCredentials ;;;
        lift (default_credentials auth scopes AUTH_SCOPES quota_project_id)
    | None, Some given => ret given
    end in
  let credentials :=
    if default false always_use_jwt_access
       && is_service_account credentials
       && has_with_always_use_jwt_access auth
    then {| account := account credentials;
            is_service_account := is_service_account credentials;
            always_use_jwt := true |}
    else credentials in
  ret {| _host := host; _scopes := scopes; _credentials := credentials |}.

End Init.

End Transport.

(* ================================================================== *)
(** * Concrete scenarios *)
(* ================================================================== *)

(** A project with a metadata store that holds two artifacts of one URI,
    the older one listed first, and a model with two artifacts, the newer
    one listed first. *)
Module MetadataScenario.
Import Metadata.

Definition cfg : GlobalConfig := {| gc_project := "p"; gc_location := "l" |}.

Definition parent : string := "projects/p/locations/l/metadataStores/default".

Definition row (id uri : string) (created : Z) : gca_artifact :=
  {| name := parent +:+ "/artifacts/" +:+ id;
     uri := uri;
     schema_title := "google.VertexModel";
     schema_version := EmptyString;
     display_name := EmptyString;
     description := EmptyString;
     metadata := ∅;
     state := LIVE;
     create_time := created |}.

Definition older : gca_artifact := row "1" "gs://bucket/model" 10.
Definition newer : gca_artifact := row "2" "gs://bucket/model" 20.

Definition empty_store : Store :=
  {| st_rows := []; st_clock := 5; st_serial := 0 |}.

Definition store_two : Store :=
  {| st_rows := [(parent, older); (parent, newer)];
     st_clock := 30; st_serial := 3 |}.

Definition model : VertexResource :=
  {| r_type := Model;
     r_resource_name := "projects/p/locations/l/models/7";
     r_project := "p";
     r_location := "l";
     r_credentials := None;
     r_display_name := Some "classifier";
     r_api_endpoint := "l-aiplatform.googleapis.com";
     r_wait := None |}.

Definition model_newer : gca_artifact :=
  row "8" (make_gcp_resource_url model) 40.
Definition model_older : gca_artifact :=
  row "9" (make_gcp_resource_url model) 35.

Definition store_model : Store :=
  {| st_rows := [(parent, older); (parent, model_newer);
                 (parent, model_older)];
     st_clock := 50; st_serial := 10 |}.

End MetadataScenario.

(** A Python 3.10 process with a staging bucket, a requirements file and
    one source file on the disk, and an application whose schema cannot
    be derived; the cloud has no bucket yet and answers queries with an
    output and a usage field. *)
Module EngineScenario.
Import ReasoningEngines.

Definition numpy : text := text_of_string "numpy==1.26.0".
Definition pandas : text := text_of_string "pandas".
Definition lines : list text := [numpy; pandas].

Definition app : Engine :=
  MkEngine "App" true None None "pickled App".

Definition schema_error : exn :=
  Exn TypeError "unsupported annotation" None.

Definition rt : Runtime :=
  {| version_info := (3, 10)%nat;
     version_release := (12, "final", 0)%nat;
     init_error := None;
     project := "p";
     location := "l";
     staging_bucket := Some "gs://staging";
     fs := {[ "requirements.txt" := File (file_text lines true);
              "main.py" := File (text_of_string "print(1)") ]};
     has_cloud_exceptions := true;
     has_cloud_storage := true;
     has_cloudpickle := true;
     generate_schema := fun _ _ => Raise schema_error;
     to_proto := fun schema => Ok schema;
     tar_gz := fun paths => "tar of " +:+ join "," paths |}.

Definition cloud : Cloud :=
  {| buckets := ∅;
     engines := [];
     answer := {[ "output" := JStr "42"; "usage" := JNum 7 ]} |}.

Definition deployed : ReasoningEngine :=
  {| _gca_resource :=
       {| name := "projects/p/locations/l/reasoningEngines/0";
          display_name := EmptyString;
          description := EmptyString;
          spec :=
            {| package_spec :=
                 make_package_spec "3.10" "gs://staging" "reasoning_engine" [];
               class_methods := [] |} |};
     _operation_schemas := None |}.

End EngineScenario.

(** An authentication library with no file of the empty name and with
    default credentials, and credentials given by the caller. *)
Module TransportScenario.
Import Transport.

Definition given : Credentials :=
  {| account := "caller"; is_service_account := false;
     always_use_jwt := false |}.

Definition auth : Auth :=
  {| load_credentials_from_file file _ _ _ :=
       if truthy_str file
       then Ok {| account := file; is_service_account := true;
                  always_use_jwt := false |}
       else Raise (Exn DefaultCredentialsError "File  was not found." None);
     default_credentials _ _ _ :=
       Ok {| account := "default"; is_service_account := false;
             always_use_jwt := false |};
     has_with_always_use_jwt_access := true |}.

End TransportScenario.

(** Further situations: a model with two artifacts of one creation time,
    a model whose pending operation failed, a resource of a type that has
    no artifact type, a process that can derive the schema of the
    application, and a service that loses the operation. *)
Module EdgeScenario.
Import Metadata ReasoningEngines.

Definition tied_first : gca_artifact :=
  MetadataScenario.row "10"
    (make_gcp_resource_url MetadataScenario.model) 40.
Definition tied_last : gca_artifact :=
  MetadataScenario.row "11"
    (make_gcp_resource_url MetadataScenario.model) 40.

Definition store_tied : Store :=
  {| st_rows := [(MetadataScenario.parent, tied_first);
                 (MetadataScenario.parent, MetadataScenario.model_older);
                 (MetadataScenario.parent, tied_last)];
     st_clock := 50; st_serial := 12 |}.

Definition upload_failed : exn :=
  Exn (OtherException "RuntimeError") "model upload failed" None.

Definition pending_model : VertexResource :=
  {| r_type := Model;
     r_resource_name := "projects/p/locations/l/models/8";
     r_project := "p";
     r_location := "l";
     r_credentials := None;
     r_display_name := None;
     r_api_endpoint := "l-aiplatform.googleapis.com";
     r_wait := Some upload_failed |}.

Definition endpoint : VertexResource :=
  {| r_type := OtherType "Endpoint";
     r_resource_name := "projects/p/locations/l/endpoints/3";
     r_project := "p";
     r_location := "l";
     r_credentials := None;
     r_display_name := None;
     r_api_endpoint := "l-aiplatform.googleapis.com";
     r_wait := None |}.

Definition rt_schema : Runtime :=
  {| version_info := version_info EngineScenario.rt;
     version_release := version_release EngineScenario.rt;
     init_error := init_error EngineScenario.rt;
     project := project EngineScenario.rt;
     location := location EngineScenario.rt;
     staging_bucket := staging_bucket EngineScenario.rt;
     fs := fs EngineScenario.rt;
     has_cloud_exceptions := has_cloud_exceptions EngineScenario.rt;
     has_cloud_storage := has_cloud_storage EngineScenario.rt;
     has_cloudpickle := has_cloudpickle EngineScenario.rt;
     generate_schema := fun _ schema_name => Ok (JStr schema_name);
     to_proto := to_proto EngineScenario.rt;
     tar_gz := tar_gz EngineScenario.rt |}.

Definition deadline_exceeded : exn :=
  Exn (OtherException "DeadlineExceeded") "504 Deadline Exceeded" None.

Definition lost_operation_api : EngineClient Cloud :=
  {| create_reasoning_engine := create_reasoning_engine cloud_api;
     operation_result _ c := (Raise deadline_exceeded, c);
     get_reasoning_engine := get_reasoning_engine cloud_api;
     query_reasoning_engine := query_reasoning_engine cloud_api |}.

End EdgeScenario.

(* ================================================================== *)
(** * Properties *)
(* ================================================================== *)

(** ** Strings *)

(** [repr] on a plain path, on a name with a single quote, on one with
    both quotes, and on a backslash, a tab and a control character. *)
Example repr_samples :
  repr "main.py" = "'main.py'"
  /\ repr "it's" = String "034" ("it's" +:+ String "034" EmptyString)
  /\ repr (String "039" (String "034" EmptyString))
     = String "039"
         (String "092"
            (String "039" (String "034" (String "039" EmptyString))))
  /\ repr (String "092" (String "009" (String "001" EmptyString)))
     = String "039"
         (String "092"
            (String "092" (String "092" ("t" +:+ String "092" "x01'")))).
Proof. repeat split. Qed.

Lemma str_app_nil_r (a : string) : a +:+ EmptyString = a.
Proof.
  induction a as [|ch a IH]; [done|].
  change (String ch (a +:+ EmptyString) = String ch a). by rewrite IH.
Qed.

Lemma str_app_assoc (a b c : string) : (a +:+ b) +:+ c = a +:+ b +:+ c.
Proof.
  induction a as [|ch a IH]; [done|].
  change (String ch ((a +:+ b) +:+ c) = String ch (a +:+ b +:+ c)).
  by rewrite IH.
Qed.

Lemma join_occurs sep parts x : In x parts -> occurs_in x (join sep parts).
Proof.
  induction parts as [|p rest IH]; [done|].
  intros [->|Hin].
  - exists EmptyString. destruct rest as [|q rest].
    + exists EmptyString. cbn [join]. by rewrite str_app_nil_r.
    + by exists (sep +:+ join sep (q :: rest)).
  - destruct rest as [|q rest]; [done|].
    destruct (IH Hin) as (pre & post & Heq).
    exists (p +:+ sep +:+ pre), post.
    change (join sep (p :: q :: rest)) with (p +:+ sep +:+ join sep (q :: rest)).
    by rewrite Heq, !str_app_assoc.
Qed.

(** ** The effect monad *)

Section MonadFacts.
Context {St Ev : Type}.
Implicit Types s : St.

Lemma bind_ok {A B} (m : M St Ev A) (k : A -> M St Ev B) s a s1 ev1 r s2 ev2 :
  m s = (Ok a, s1, ev1) -> k a s1 = (r, s2, ev2) ->
  bind m k s = (r, s2, ev1 ++ ev2).
Proof. intros H1 H2. unfold bind. by rewrite H1, H2. Qed.

Lemma bind_raise {A B} (m : M St Ev A) (k : A -> M St Ev B) s e s1 ev1 :
  m s = (Raise e, s1, ev1) -> bind m k s = (Raise e, s1, ev1).
Proof. intros H. unfold bind. by rewrite H. Qed.

Lemma bind_run {A B} (m : M St Ev A) (k : A -> M St Ev B) s :
  bind m k s
  = match m s with
    | (Ok a, s1, ev1) =>
        (result_of (k a s1), state_of (k a s1), ev1 ++ events_of (k a s1))
    | (Raise e, s1, ev1) => (Raise e, s1, ev1)
    end.
Proof.
  unfold bind. destruct (m s) as [[[a|e] s1] ev1]; [|done].
  by destruct (k a s1) as [[? ?] ?].
Qed.

Lemma events_of_bind_ok {A B} (m : M St Ev A) (k : A -> M St Ev B)
    s a s1 ev1 :
  m s = (Ok a, s1, ev1) ->
  events_of (bind m k s) = ev1 ++ events_of (k a s1).
Proof. intros H. by rewrite bind_run, H. Qed.

Lemma bind_ok_inv {A B} (m : M St Ev A) (k : A -> M St Ev B) s b :
  result_of (bind m k s) = Ok b ->
  exists a s1 ev1, m s = (Ok a, s1, ev1) /\ result_of (k a s1) = Ok b.
Proof.
  rewrite bind_run. destruct (m s) as [[[a|e] s1] ev1]; [|done].
  intros H. by exists a, s1, ev1.
Qed.

Lemma events_in_bind_l {A B} (m : M St Ev A) (k : A -> M St Ev B) s ev :
  In ev (events_of (m s)) -> In ev (events_of (bind m k s)).
Proof.
  rewrite bind_run. destruct (m s) as [[[a|e] s1] ev1]; [|done].
  intros H. apply in_or_app. by left.
Qed.

Lemma events_in_bind_r {A B} (m : M St Ev A) (k : A -> M St Ev B)
    s a s1 ev1 ev :
  m s = (Ok a, s1, ev1) ->
  In ev (events_of (k a s1)) -> In ev (events_of (bind m k s)).
Proof.
  intros Hm H. rewrite bind_run, Hm. apply in_or_app. by right.
Qed.

Lemma bind_eq_ok_inv {A B} (m : M St Ev A) (k : A -> M St Ev B)
    s b s2 ev :
  bind m k s = (Ok b, s2, ev) ->
  exists a s1 ev1 ev2,
    m s = (Ok a, s1, ev1) /\ k a s1 = (Ok b, s2, ev2) /\ ev = ev1 ++ ev2.
Proof.
  rewrite bind_run. destruct (m s) as [[[a|e] s1] ev1]; [|done].
  destruct (k a s1) as [[r s3] ev2] eqn:Hk. cbn. intros [= -> -> <-].
  by exists a, s1, ev1, ev2.
Qed.

Section Emits.
Context (Q : Ev -> Prop).

Lemma emits_ret {A} (a : A) : emits Q (ret a : M St Ev A).
Proof. intros s. constructor. Qed.

Lemma emits_raise {A} e : emits Q (raise e : M St Ev A).
Proof. intros s. constructor. Qed.

Lemma emits_lift {A} (r : res A) : emits Q (lift r : M St Ev A).
Proof. intros s. constructor. Qed.

Lemma emits_call {A} (f : St -> res A * St) : emits Q (call f : M St Ev A).
Proof. intros s. unfold call. destruct (f s). constructor. Qed.

Lemma emits_emit ev : Q ev -> emits Q (emit ev : M St Ev unit).
Proof. intros H s. by repeat constructor. Qed.

Lemma emits_bind {A B} (m : M St Ev A) (k : A -> M St Ev B) :
  emits Q m -> (forall a, emits Q (k a)) -> emits Q (bind m k).
Proof.
  intros Hm Hk s. rewrite bind_run. specialize (Hm s).
  destruct (m s) as [[[a|e] s1] ev1]; simpl in *; [|done].
  apply Forall_app. split; [done|]. apply Hk.
Qed.

Lemma emits_try_except {A} (m : M St Ev A) c h :
  emits Q m -> (forall e, emits Q (h e)) -> emits Q (try_except m c h).
Proof.
  intros Hm Hh s. unfold try_except. specialize (Hm s).
  destruct (m s) as [[[a|e] s1] ev1]; simpl in *; [done|].
  destruct (isinstance e c); [|done]. specialize (Hh e s1).
  destruct (h e s1) as [[r s2] ev2]; simpl in *. by apply Forall_app.
Qed.

Lemma emits_try_except_all {A} (m : M St Ev A) h :
  emits Q m -> (forall e, emits Q (h e)) -> emits Q (try_except_all m h).
Proof.
  intros Hm Hh s. unfold try_except_all. specialize (Hm s).
  destruct (m s) as [[[a|e] s1] ev1]; simpl in *; [done|].
  specialize (Hh e s1).
  destruct (h e s1) as [[r s2] ev2]; simpl in *. by apply Forall_app.
Qed.

Lemma emits_for_each {A} (xs : list A) (body : A -> M St Ev unit) :
  (forall x, emits Q (body x)) -> emits Q (for_each xs body).
Proof.
  intros Hbody. induction xs as [|x xs IH]; [apply emits_ret|].
  apply emits_bind; [apply Hbody|]. intros _. apply IH.
Qed.

End Emits.

Lemma silent_emits (P : Ev -> bool) {A} (m : M St Ev A) :
  silent P m -> emits (fun ev => P ev = false) m.
Proof. intros H s. apply H. Qed.

Section Silent.
Context (P : Ev -> bool).

Lemma silent_ret {A} (a : A) : silent P (ret a : M St Ev A).
Proof. intros s. by split; [|constructor]. Qed.

Lemma silent_raise {A} e : silent P (raise e : M St Ev A).
Proof. intros s. by split; [|constructor]. Qed.

Lemma silent_lift {A} (r : res A) : silent P (lift r : M St Ev A).
Proof. intros s. by split; [|constructor]. Qed.

Lemma silent_emit ev : P ev = false -> silent P (emit ev : M St Ev unit).
Proof. intros H s. split; [done|]. by repeat constructor. Qed.

Lemma silent_bind {A B} (m : M St Ev A) (k : A -> M St Ev B) :
  silent P m -> (forall a, silent P (k a)) -> silent P (bind m k).
Proof.
  intros Hm Hk s. rewrite bind_run. destruct (Hm s) as [Hs Hev].
  destruct (m s) as [[[a|e] s1] ev1]; simpl in *; subst s1; [|done].
  destruct (Hk a s) as [Hs2 Hev2]. split; [done|].
  apply Forall_app. done.
Qed.

Lemma silent_try_except {A} (m : M St Ev A) c h :
  silent P m -> (forall e, silent P (h e)) -> silent P (try_except m c h).
Proof.
  intros Hm Hh s. unfold try_except. destruct (Hm s) as [Hs Hev].
  destruct (m s) as [[[a|e] s1] ev1]; simpl in *; subst s1; [done|].
  destruct (isinstance e c); [|done].
  destruct (Hh e s) as [Hs2 Hev2].
  destruct (h e s) as [[r s2] ev2]; simpl in *. split; [done|].
  apply Forall_app. done.
Qed.

Lemma silent_for_each {A} (xs : list A) (body : A -> M St Ev unit) :
  (forall x, silent P (body x)) -> silent P (for_each xs body).
Proof.
  intros Hbody. induction xs as [|x xs IH]; [apply silent_ret|].
  apply silent_bind; [apply Hbody|]. intros _. apply IH.
Qed.

Lemma same_upto_refl {A} (o : res A * St * list Ev) : same_upto P o o.
Proof. done. Qed.

Lemma same_upto_In {A} (o1 o2 : res A * St * list Ev) ev :
  same_upto P o1 o2 -> P ev = true ->
  In ev (events_of o1) <-> In ev (events_of o2).
Proof.
  intros (_ & _ & Hev) Hp.
  assert (H : forall l, In ev l <-> In ev (List.filter P l)).
  { intros l. rewrite List.filter_In. tauto. }
  by rewrite (H (events_of o1)), (H (events_of o2)), Hev.
Qed.

Lemma same_upto_bind {A B} (m1 m2 : M St Ev A) (k1 k2 : A -> M St Ev B) s :
  same_upto P (m1 s) (m2 s) ->
  (forall a s', same_upto P (k1 a s') (k2 a s')) ->
  same_upto P (bind m1 k1 s) (bind m2 k2 s).
Proof.
  intros (Hr & Hs & Hev) Hk. rewrite !bind_run.
  destruct (m1 s) as [[r1 s1] ev1], (m2 s) as [[r2 s2] ev2].
  unfold result_of, state_of, events_of in Hr, Hs, Hev. simpl in Hr, Hs, Hev.
  subst r2 s2. destruct r1 as [a|e]; [|done].
  destruct (Hk a s1) as (Hr2 & Hs2 & Hev2).
  repeat split; [done..|].
  unfold events_of at 1 3. simpl. by rewrite !List.filter_app, Hev, Hev2.
Qed.

End Silent.

End MonadFacts.

(** ** [list.sort(key=...)] *)

Section SortFacts.
Context {A : Type} (key : A -> Z).
#[local] Abbreviation key_le := (Metadata.key_le key).

Lemma insert_by_perm x l : Permutation (x :: l) (Metadata.insert_by key x l).
Proof.
  induction l as [|y l IH]; simpl; [done|].
  destruct (key x <=? key y)%Z; [done|].
  rewrite perm_swap. by constructor.
Qed.

Lemma sort_by_perm l : Permutation l (Metadata.sort_by key l).
Proof.
  induction l as [|x l IH]; simpl; [done|].
  rewrite <- insert_by_perm. by constructor.
Qed.

Lemma insert_by_hdrel a x l :
  key_le a x -> HdRel key_le a l -> HdRel key_le a (Metadata.insert_by key x l).
Proof.
  intros Hax Hl. destruct l as [|y l]; simpl; [by constructor|].
  destruct (key x <=? key y)%Z; constructor; [done|].
  by inversion Hl.
Qed.

Lemma insert_by_sorted x l :
  Sorted key_le l -> Sorted key_le (Metadata.insert_by key x l).
Proof.
  induction 1 as [|y l Hs IH Hhd]; simpl; [by repeat constructor|].
  destruct (key x <=? key y)%Z eqn:E.
  - constructor; [by constructor|]. constructor. unfold Metadata.key_le. lia.
  - constructor; [done|]. apply insert_by_hdrel; [|done]. unfold Metadata.key_le. lia.
Qed.

Lemma sort_by_sorted l : Sorted key_le (Metadata.sort_by key l).
Proof.
  induction l as [|x l IH]; simpl; [constructor|]. by apply insert_by_sorted.
Qed.

Lemma sorted_last_max l a :
  Sorted key_le l -> last l = Some a -> forall b, In b l -> key_le b a.
Proof.
  intros Hs. apply Sorted_StronglySorted in Hs;
    [|intros x y z; unfold Metadata.key_le; lia].
  induction Hs as [|y l Hs IH Hall]; [done|].
  intros Hlast b Hb. destruct l as [|z l].
  - simpl in *. destruct Hb as [->|[]]. injection Hlast as ->.
    unfold Metadata.key_le; lia.
  - change (last (z :: l) = Some a) in Hlast.
    destruct Hb as [->|Hb]; [|by apply IH].
    rewrite Forall_forall in Hall. eapply Hall, last_Some_elem_of. done.
Qed.

Lemma sort_by_nil_iff l : Metadata.sort_by key l = [] <-> l = [].
Proof.
  split; [|by intros ->]. intros H.
  apply Permutation_nil. rewrite <- H. symmetry. apply sort_by_perm.
Qed.

Lemma sort_by_last_max l a :
  last (Metadata.sort_by key l) = Some a ->
  In a l /\ forall b, In b l -> key_le b a.
Proof.
  intros H. split.
  - eapply Permutation_in; [symmetry; apply sort_by_perm|].
    rewrite <- list_elem_of_In. by eapply last_Some_elem_of.
  - intros b Hb. eapply sorted_last_max; [apply sort_by_sorted|done|].
    eapply Permutation_in; [apply sort_by_perm|done].
Qed.

(** The sort is stable: the elements of one key keep their order. *)
Lemma insert_by_stable k x l :
  List.filter (fun a => (key a =? k)%Z) (Metadata.insert_by key x l)
  = List.filter (fun a => (key a =? k)%Z) (x :: l).
Proof.
  induction l as [|y l IH]; [done|]. cbn [Metadata.insert_by].
  destruct (key x <=? key y)%Z eqn:E; [done|].
  cbn [List.filter] in *. rewrite IH.
  destruct (key x =? k)%Z eqn:Ex, (key y =? k)%Z eqn:Ey; try done. lia.
Qed.

Lemma sort_by_stable k l :
  List.filter (fun a => (key a =? k)%Z) (Metadata.sort_by key l)
  = List.filter (fun a => (key a =? k)%Z) l.
Proof.
  induction l as [|x l IH]; [done|]. cbn [Metadata.sort_by].
  rewrite insert_by_stable. cbn [List.filter]. by rewrite IH.
Qed.

End SortFacts.

(** ** Metadata artifacts *)

Section MetadataFacts.
Import Metadata.
Context {St : Type} (client : MetadataClient St) (cfg : GlobalConfig).
Implicit Types (s : St) (rs : list gca_artifact).

Lemma construct_all_run rs p l c s :
  construct_all rs p l c s
  = (Ok (map (fun r => Build_Artifact r p l c) rs), s,
     map (fun r => ConstructArtifact (name r)) rs).
Proof.
  induction rs as [|r rs IH]; [done|].
  cbn [construct_all]. unfold bind, construct, emit, ret. cbn.
  rewrite IH. cbn. by rewrite app_nil_r.
Qed.

Lemma Artifact_list_run filter sid p l c s :
  Artifact_list client cfg filter sid p l c s
  = let request :=
      {| lr_parent := metadata_store_path cfg sid p l;
         lr_filter := filter |} in
    match list_artifacts client request s with
    | (Ok rs, s1) =>
        (Ok (map (fun r => Build_Artifact r p l c) rs), s1,
         [InstantiateClient l c; RpcListArtifacts request]
           ++ map (fun r => ConstructArtifact (name r)) rs)
    | (Raise e, s1) =>
        (Raise e, s1, [InstantiateClient l c; RpcListArtifacts request])
    end.
Proof.
  unfold Artifact_list, _instantiate_client, _list_resources.
  cbn zeta.
  destruct (list_artifacts client _ s) as [[rs|e] s1] eqn:E.
  - eapply bind_ok with (ev1 := [_]); [done|].
    eapply bind_ok with (ev1 := [_]);
      [unfold bind, emit, call; rewrite E; reflexivity|].
    apply construct_all_run.
  - eapply bind_ok with (ev1 := [_]) (ev2 := [_]); [done|].
    apply bind_raise. unfold bind, emit, call. by rewrite E.
Qed.

(** C1 (as amended): when the list call returns N > 1 matches,
    [get_with_uri] returns the first element of the list in the order the
    service returned it, whatever the creation times, and logs one message
    that holds the resource names of all N matches, then the name of the
    one it returns. *)
Theorem get_with_uri_many_returns_first uri sid p l c s rs s1 :
  list_artifacts client
    {| lr_parent := metadata_store_path cfg sid p l;
       lr_filter := Some (uri_filter uri) |} s = (Ok rs, s1) ->
  (1 < length rs)%nat ->
  exists first message,
    head rs = Some first
    /\ message = "Mutiple artifacts with uri " +:+ uri +:+ " were found: "
                   +:+ join nl (map name rs)
    /\ get_with_uri client cfg uri sid p l c s
       = (Ok (Build_Artifact first p l c), s1,
          [InstantiateClient l c;
           RpcListArtifacts
             {| lr_parent := metadata_store_path cfg sid p l;
                lr_filter := Some (uri_filter uri) |}]
            ++ map (fun r => ConstructArtifact (name r)) rs
            ++ [LogInfo message; LogInfo ("Returning " +:+ name first)])
    /\ forall r, In r rs -> occurs_in (name r) message.
Proof.
  intros Hlist Hlen. destruct rs as [|first others]; [simpl in Hlen; lia|].
  eexists first, _. split; [done|]. split; [reflexivity|]. split.
  - unfold get_with_uri.
    unfold bind at 1. rewrite Artifact_list_run. cbn zeta. rewrite Hlist.
    destruct others as [|second others]; [simpl in Hlen; lia|].
    unfold bind, emit, ret. cbn -[join].
    rewrite ?map_map. reflexivity.
  - intros r Hr. unfold occurs_in.
    destruct (join_occurs nl (map name (first :: others)) (name r))
      as (pre & post & Heq); [by apply in_map|].
    exists ("Mutiple artifacts with uri " +:+ uri +:+ " were found: " +:+ pre),
      post.
    by rewrite Heq, !str_app_assoc.
Qed.

(** C1, the claim as stated fails: the store lists two artifacts of the
    URI, the older one first; [get_with_uri] returns the older one, which
    does not have the maximum creation time. *)
Lemma get_with_uri_returns_first_not_latest :
  let request :=
    {| lr_parent := metadata_store_path MetadataScenario.cfg
                      (Some "default") None None;
       lr_filter := Some (uri_filter "gs://bucket/model") |} in
  (list_artifacts store_client request MetadataScenario.store_two).1
  = Ok [MetadataScenario.older; MetadataScenario.newer]
  /\ result_of (get_with_uri store_client MetadataScenario.cfg
                  "gs://bucket/model" (Some "default") None None None
                  MetadataScenario.store_two)
     = Ok (Build_Artifact MetadataScenario.older None None None)
  /\ (create_time MetadataScenario.older
      < create_time MetadataScenario.newer)%Z.
Proof. by vm_compute. Qed.

(** C2 (as amended): with zero matches [get_with_uri] fails with a
    [ValueError] that names the URI and the metadata store (and no
    [NotFound]); with exactly one match it returns that match and logs
    nothing. *)
Theorem get_with_uri_none_or_one uri sid p l c s s1 :
  let request :=
    {| lr_parent := metadata_store_path cfg sid p l;
       lr_filter := Some (uri_filter uri) |} in
  (list_artifacts client request s = (Ok [], s1) ->
   get_with_uri client cfg uri sid p l c s
   = (Raise (Exn ValueError
               ("No artifact with uri " +:+ uri +:+ " is in the `"
                  +:+ fmt_opt sid +:+ "` MetadataStore.") None),
      s1, [InstantiateClient l c; RpcListArtifacts request]))
  /\ (forall r,
        list_artifacts client request s = (Ok [r], s1) ->
        get_with_uri client cfg uri sid p l c s
        = (Ok (Build_Artifact r p l c), s1,
           [InstantiateClient l c; RpcListArtifacts request;
            ConstructArtifact (name r)])).
Proof.
  cbn zeta. split; [intros Hlist|intros r Hlist];
    unfold get_with_uri; unfold bind at 1;
    rewrite Artifact_list_run; cbn zeta; rewrite Hlist; reflexivity.
Qed.

(** C2, the claim as stated fails: on a store with no artifact of the URI
    the error is a [ValueError], which is not an instance of [NotFound]. *)
Lemma get_with_uri_zero_matches_value_error :
  exists e,
    result_of (get_with_uri store_client MetadataScenario.cfg
                 "gs://bucket/model" (Some "default") None None None
                 MetadataScenario.empty_store) = Raise e
    /\ exn_cls e = ValueError
    /\ isinstance e NotFound = false.
Proof. eexists. by vm_compute. Qed.

(** C3: when the remote create call fails with [AlreadyExists], [_create]
    raises that very exception, in the state the call left; it logs
    nothing and constructs no handle: the only events are the client
    instantiation and the call itself. *)
Theorem _create_already_exists_reraised
    resource_id schema_title uri display_name schema_version description
    metadata metadata_store_id project location credentials s e s1 :
  let parent := metadata_store_path cfg metadata_store_id project location in
  let gapic_artifact :=
    new_gapic_artifact schema_title uri display_name schema_version
      description metadata in
  create_artifact client parent gapic_artifact resource_id s = (Raise e, s1) ->
  isinstance e AlreadyExists = true ->
  _create client cfg resource_id schema_title uri display_name schema_version
    description metadata metadata_store_id project location credentials s
  = (Raise e, s1,
     [InstantiateClient location credentials;
      RpcCreateArtifact parent gapic_artifact resource_id]).
Proof.
  cbn zeta. intros Hcreate Hcls.
  unfold _create, _instantiate_client, _create_resource, try_except.
  unfold bind, emit, ret, call, raise. cbn. rewrite Hcreate, Hcls. reflexivity.
Qed.

Lemma resolve_vertex_resource_run resource metadata_type s :
  _resource_to_artifact_type (r_type resource) = Some metadata_type ->
  r_wait resource = None ->
  resolve_vertex_resource client cfg resource s
  = match list_artifacts client (resolver_request cfg resource metadata_type) s with
    | (Ok rs, s1) =>
        (Ok (last (sort_by artifact_create_time
                     (map (resolver_handle resource) rs))), s1,
         [WaitResource (r_resource_name resource);
          InstantiateClient (Some (r_location resource))
            (r_credentials resource);
          RpcListArtifacts (resolver_request cfg resource metadata_type)]
           ++ map (fun r => ConstructArtifact (name r)) rs)
    | (Raise e, s1) =>
        (Raise e, s1,
         [WaitResource (r_resource_name resource);
          InstantiateClient (Some (r_location resource))
            (r_credentials resource);
          RpcListArtifacts (resolver_request cfg resource metadata_type)])
    end.
Proof.
  intros Htype Hwait.
  unfold resolve_vertex_resource, wait, lookup_artifact_type.
  rewrite Htype, Hwait.
  unfold bind at 1. unfold bind at 1. unfold emit at 1. cbn.
  unfold bind at 1. rewrite Artifact_list_run. cbn zeta.
  fold (resolver_request cfg resource metadata_type).
  destruct (list_artifacts client _ s) as [[rs|e] s1]; [|done].
  unfold ret. cbn. by rewrite app_nil_r.
Qed.

(** C4: for a supported resource in a stable state, once the list call
    has returned the matching artifacts, [resolve_vertex_resource] returns
    the last element of those artifacts sorted in ascending order of
    creation time: nothing when there is none, and otherwise one of them
    whose creation time no other exceeds. *)
Theorem resolve_vertex_resource_most_recent resource metadata_type s rs s1 :
  _resource_to_artifact_type (r_type resource) = Some metadata_type ->
  r_wait resource = None ->
  list_artifacts client (resolver_request cfg resource metadata_type) s
  = (Ok rs, s1) ->
  let artifacts := map (resolver_handle resource) rs in
  let sorted := sort_by artifact_create_time artifacts in
  Sorted (key_le artifact_create_time) sorted
  /\ Permutation artifacts sorted
  /\ result_of (resolve_vertex_resource client cfg resource s) = Ok (last sorted)
  /\ (rs = [] <-> last sorted = None)
  /\ (forall a, last sorted = Some a ->
        In a artifacts
        /\ forall b, In b artifacts ->
             (artifact_create_time b <= artifact_create_time a)%Z).
Proof.
  intros Htype Hwait Hlist artifacts sorted.
  split; [apply sort_by_sorted|]. split; [apply sort_by_perm|].
  split; [by rewrite (resolve_vertex_resource_run _ _ _ Htype Hwait), Hlist|].
  split.
  - rewrite last_None. unfold sorted. rewrite sort_by_nil_iff.
    unfold artifacts. split; [by intros ->|]. by intros ?%map_eq_nil.
  - intros a Ha. by apply sort_by_last_max.
Qed.

End MetadataFacts.

Lemma get_with_uri_many_returns_first_witness :
  exists first message,
    head [MetadataScenario.older; MetadataScenario.newer] = Some first
    /\ message = "Mutiple artifacts with uri " +:+ "gs://bucket/model"
                   +:+ " were found: "
                   +:+ join Metadata.nl
                         (map Metadata.name
                            [MetadataScenario.older; MetadataScenario.newer])
    /\ Metadata.get_with_uri Metadata.store_client MetadataScenario.cfg
         "gs://bucket/model" (Some "default") None None None
         MetadataScenario.store_two
       = (Ok (Metadata.Build_Artifact first None None None),
          MetadataScenario.store_two,
          [Metadata.InstantiateClient None None;
           Metadata.RpcListArtifacts
             {| Metadata.lr_parent :=
                  Metadata.metadata_store_path MetadataScenario.cfg
                    (Some "default") None None;
                Metadata.lr_filter :=
                  Some (Metadata.uri_filter "gs://bucket/model") |}]
            ++ map (fun r => Metadata.ConstructArtifact (Metadata.name r))
                 [MetadataScenario.older; MetadataScenario.newer]
            ++ [Metadata.LogInfo message;
                Metadata.LogInfo ("Returning " +:+ Metadata.name first)])
    /\ forall r, In r [MetadataScenario.older; MetadataScenario.newer] ->
                 occurs_in (Metadata.name r) message.
Proof.
  apply (get_with_uri_many_returns_first Metadata.store_client
           MetadataScenario.cfg "gs://bucket/model" (Some "default")
           None None None MetadataScenario.store_two
           [MetadataScenario.older; MetadataScenario.newer]
           MetadataScenario.store_two).
  - reflexivity.
  - simpl. lia.
Defined.

(** ** The scenarios *)

Lemma get_with_uri_none_or_one_witness :
  Metadata.get_with_uri Metadata.store_client MetadataScenario.cfg
    "gs://bucket/model" (Some "default") None None None
    MetadataScenario.empty_store
  = (Raise (Exn ValueError
              ("No artifact with uri " +:+ "gs://bucket/model"
                 +:+ " is in the `" +:+ "default" +:+ "` MetadataStore.")
              None),
     MetadataScenario.empty_store,
     [Metadata.InstantiateClient None None;
      Metadata.RpcListArtifacts
        {| Metadata.lr_parent := MetadataScenario.parent;
           Metadata.lr_filter :=
             Some (Metadata.uri_filter "gs://bucket/model") |}])
  /\ Metadata.get_with_uri Metadata.store_client MetadataScenario.cfg
       "gs://bucket/model" (Some "default") None None None
       MetadataScenario.store_model
     = (Ok (Metadata.Build_Artifact MetadataScenario.older None None None),
        MetadataScenario.store_model,
        [Metadata.InstantiateClient None None;
         Metadata.RpcListArtifacts
           {| Metadata.lr_parent := MetadataScenario.parent;
              Metadata.lr_filter :=
                Some (Metadata.uri_filter "gs://bucket/model") |};
         Metadata.ConstructArtifact
           (Metadata.name MetadataScenario.older)]).
Proof.
  split.
  - apply (proj1 (get_with_uri_none_or_one Metadata.store_client
                    MetadataScenario.cfg "gs://bucket/model" (Some "default")
                    None None None MetadataScenario.empty_store
                    MetadataScenario.empty_store)).
    reflexivity.
  - apply (proj2 (get_with_uri_none_or_one Metadata.store_client
                    MetadataScenario.cfg "gs://bucket/model" (Some "default")
                    None None None MetadataScenario.store_model
                    MetadataScenario.store_model) MetadataScenario.older).
    reflexivity.
Defined.

Lemma _create_already_exists_reraised_witness :
  exists e,
    isinstance e AlreadyExists = true
    /\ result_of
         (Metadata._create Metadata.store_client MetadataScenario.cfg
            (Some "1") "google.VertexModel" (Some "gs://bucket/model")
            None None None None (Some "default") None None None
            MetadataScenario.store_two) = Raise e
    /\ events_of
         (Metadata._create Metadata.store_client MetadataScenario.cfg
            (Some "1") "google.VertexModel" (Some "gs://bucket/model")
            None None None None (Some "default") None None None
            MetadataScenario.store_two)
       = [Metadata.InstantiateClient None None;
          Metadata.RpcCreateArtifact MetadataScenario.parent
            (Metadata.new_gapic_artifact "google.VertexModel"
               (Some "gs://bucket/model") None None None None)
            (Some "1")].
Proof.
  exists (Exn AlreadyExists (MetadataScenario.parent +:+ "/artifacts/1") None).
  split; [reflexivity|].
  rewrite (_create_already_exists_reraised Metadata.store_client
             MetadataScenario.cfg (Some "1") "google.VertexModel"
             (Some "gs://bucket/model") None None None None (Some "default")
             None None None MetadataScenario.store_two
             (Exn AlreadyExists (MetadataScenario.parent +:+ "/artifacts/1")
                None)
             MetadataScenario.store_two eq_refl eq_refl).
  split; reflexivity.
Defined.

Lemma resolve_vertex_resource_most_recent_witness :
  (Metadata.list_artifacts Metadata.store_client
     (Metadata.resolver_request MetadataScenario.cfg MetadataScenario.model
        "google.VertexModel") MetadataScenario.store_model).1
  = Ok [MetadataScenario.model_newer; MetadataScenario.model_older]
  /\ result_of (Metadata.resolve_vertex_resource Metadata.store_client
                  MetadataScenario.cfg MetadataScenario.model
                  MetadataScenario.store_model)
     = Ok (Some (Metadata.resolver_handle MetadataScenario.model
                   MetadataScenario.model_newer)).
Proof.
  split; [reflexivity|].
  destruct (resolve_vertex_resource_most_recent Metadata.store_client
              MetadataScenario.cfg MetadataScenario.model
              "google.VertexModel" MetadataScenario.store_model
              [MetadataScenario.model_newer; MetadataScenario.model_older]
              MetadataScenario.store_model eq_refl eq_refl eq_refl)
    as (_ & _ & Hresult & _).
  rewrite Hresult. reflexivity.
Defined.

(** ** Requirement lines *)

Section LineFacts.
Import ReasoningEngines.

Lemma splitlines_from_line line l rest :
  is_line l ->
  splitlines_from line (l ++ 10%N :: rest)
  = (line ++ l) :: splitlines_from [] rest.
Proof.
  intros Hl. revert line.
  induction Hl as [|c l Hc Hl IH]; intros line.
  - rewrite app_nil_r. cbn [app splitlines_from].
    change (is_line_boundary 10) with true. cbn match.
    by destruct rest as [|c2 rest].
  - cbn [app splitlines_from]. rewrite Hc, IH. by rewrite <- app_assoc.
Qed.

Lemma splitlines_from_end line l :
  is_line l ->
  splitlines_from line l
  = match line ++ l with [] => [] | _ :: _ => [line ++ l] end.
Proof.
  intros Hl. revert line.
  induction Hl as [|c l Hc Hl IH]; intros line.
  - by rewrite app_nil_r.
  - cbn [splitlines_from]. rewrite Hc, IH. by rewrite <- app_assoc.
Qed.

Lemma splitlines_unlines lines :
  Forall is_line lines -> splitlines (unlines lines) = lines.
Proof.
  unfold splitlines, unlines.
  induction 1 as [|l lines Hl Hlines IH]; [done|].
  cbn [map concat]. rewrite <- app_assoc. cbn [app].
  by rewrite splitlines_from_line, IH.
Qed.

Lemma splitlines_join_lines lines :
  Forall is_line lines -> last lines <> Some [] ->
  splitlines (join_lines lines) = lines.
Proof.
  unfold splitlines.
  induction 1 as [|l lines Hl Hlines IH]; [done|]. intros Hlast.
  destruct lines as [|l2 lines].
  - cbn [join_lines]. rewrite splitlines_from_end by done.
    cbn [app]. destruct l; [by destruct Hlast|done].
  - change (join_lines (l :: l2 :: lines))
      with (l ++ 10%N :: join_lines (l2 :: lines)).
    rewrite splitlines_from_line by done. cbn [app]. by rewrite IH.
Qed.

Lemma splitlines_file_text lines final_newline :
  Forall is_line lines ->
  (final_newline = false -> last lines <> Some []) ->
  splitlines (file_text lines final_newline) = lines.
Proof.
  intros Hlines Hlast. destruct final_newline.
  - by apply splitlines_unlines.
  - by apply splitlines_join_lines, Hlast.
Qed.

End LineFacts.

(** ** Reasoning engines: what precedes the uploads *)

Section StagingFacts.
Import ReasoningEngines.
Context {St : Type}.
Variable storage : StorageClient St.
Variable api : EngineClient St.
Variable rt : Runtime.
Implicit Types s : St.

Ltac silent_step :=
  first
    [ apply silent_bind; [|intros ?]
    | apply silent_try_except; [|intros ?]
    | apply silent_emit; reflexivity
    | apply silent_ret
    | apply silent_raise
    | apply silent_lift
    | match goal with
      | |- silent _ (if ?b then _ else _) => destruct b
      | |- silent _ (match ?o with Some _ => _ | None => _ end) => destruct o
      | |- silent _ (match ?o with File _ => _ | Directory => _ end) =>
          destruct o
      end ].

Lemma check_runtime_silent reasoning_engine reasoning_engine_name sys_version :
  silent is_remote
    (check_runtime (St := St) rt reasoning_engine reasoning_engine_name
       sys_version).
Proof. unfold check_runtime. repeat silent_step. Qed.

Lemma normalize_requirements_silent requirements :
  silent is_remote (normalize_requirements (St := St) rt requirements).
Proof.
  unfold normalize_requirements, read_file.
  destruct requirements as [[path|lines]|]; repeat silent_step.
Qed.

Lemma check_extra_packages_silent extra_packages :
  silent is_remote (check_extra_packages (St := St) rt extra_packages).
Proof.
  unfold check_extra_packages. apply silent_for_each. intros p.
  repeat silent_step.
Qed.

Lemma first_missing_some extra_packages p :
  In p extra_packages -> path_exists rt p = false ->
  exists q, first_missing rt extra_packages = Some q.
Proof.
  intros Hin Hp. unfold first_missing.
  destruct (List.find _ extra_packages) as [q|] eqn:E; [by exists q|].
  eapply List.find_none in E; [|exact Hin]. by rewrite Hp in E.
Qed.

Lemma check_extra_packages_missing extra_packages p s :
  first_missing rt extra_packages = Some p ->
  result_of (check_extra_packages rt extra_packages s)
  = Raise (Exn FileNotFoundError
             ("Extra package specified but not found: extra_package="
                +:+ repr p) None).
Proof.
  unfold first_missing, check_extra_packages.
  induction extra_packages as [|q rest IH]; [done|].
  cbn [List.find for_each]. rewrite !bind_run. cbn.
  destruct (path_exists rt q) eqn:Hq; cbn.
  - intros H. specialize (IH H). unfold result_of in *.
    by destruct (for_each rest _ s) as [[? ?] ?].
  - by intros [= ->].
Qed.

(** C6 (as amended): if an entry of [extra_packages] names a path that is
    not on the disk, [create] raises, having left the remote state as it
    was and having reached neither the object store nor a remote service.
    When the checks that stand before the loop pass (Python version,
    handle, staging bucket, [query] method, clone, requirements file), the
    exception is the [FileNotFoundError] of the first such entry;
    otherwise it is the exception of the first of those checks that
    fails. *)
Theorem create_missing_extra_package_no_upload
    reasoning_engine requirements reasoning_engine_name display_name
    description gcs_dir_name sys_version extra_packages s p :
  In p (default [] extra_packages) ->
  path_exists rt p = false ->
  let out :=
    create storage api rt reasoning_engine requirements reasoning_engine_name
      display_name description gcs_dir_name sys_version extra_packages s in
  (exists e, result_of out = Raise e)
  /\ state_of out = s
  /\ Forall (fun ev => is_remote ev = false) (events_of out)
  /\ (is_ok (result_of (check_runtime rt reasoning_engine
                          reasoning_engine_name sys_version s)) = true ->
      is_ok (result_of (normalize_requirements rt requirements s)) = true ->
      exists q,
        first_missing rt (default [] extra_packages) = Some q
        /\ result_of out
           = Raise (Exn FileNotFoundError
                      ("Extra package specified but not found: extra_package="
                         +:+ repr q) None))
  /\ (forall e,
        result_of (check_runtime rt reasoning_engine reasoning_engine_name
                     sys_version s) = Raise e ->
        result_of out = Raise e)
  /\ (is_ok (result_of (check_runtime rt reasoning_engine
                          reasoning_engine_name sys_version s)) = true ->
      forall e,
        result_of (normalize_requirements rt requirements s) = Raise e ->
        result_of out = Raise e).
Proof.
  intros Hin Hp.
  destruct (first_missing_some _ _ Hin Hp) as [q Hq].
  pose proof (check_extra_packages_missing _ _ s Hq) as Hmiss.
  destruct (check_runtime_silent reasoning_engine reasoning_engine_name
              sys_version s) as [Hs0 Hev0].
  destruct (normalize_requirements_silent requirements s) as [Hs1 Hev1].
  destruct (check_extra_packages_silent (default [] extra_packages) s)
    as [Hs2 Hev2].
  unfold create, stage. cbn zeta. rewrite !bind_run.
  destruct (check_runtime rt _ _ _ s) as [[[checked|e0] s0] ev0];
    cbn in Hs0, Hev0 |- *; subst s0.
  2: { repeat split; eauto; try (intros [=]). by intros e [= ->]. }
  rewrite !bind_run.
  destruct (normalize_requirements rt requirements s) as [[[reqs|e1] s1] ev1];
    cbn in Hs1, Hev1 |- *; subst s1.
  2: { repeat split; eauto using Forall_app_2; try (intros _ [=]);
         try (intros ? [=]). by intros _ e [= ->]. }
  rewrite !bind_run.
  destruct (check_extra_packages rt _ s) as [[[[]|e2] s2] ev2];
    cbn in Hs2, Hev2, Hmiss |- *; subst s2; [discriminate|].
  injection Hmiss as ->.
  repeat split; eauto using Forall_app_2; try (intros ? [=]);
    try (intros _ ? [=]).
Qed.

Lemma remote_bind_events {A B} (ev : event) (f : St -> res A * St)
    (k : A -> Py.M St event B) s :
  exists after, events_of (bind (remote ev f) k s) = ev :: after.
Proof.
  rewrite bind_run. unfold remote. rewrite bind_run. cbn.
  unfold call. destruct (f s) as [[a|e] s1]; cbn; eauto.
Qed.

(** When [_prepare] returns and there are requirements, it has uploaded
    them, joined by newlines, to [requirements.txt]. *)
Lemma _prepare_uploads_requirements
    reasoning_engine requirements project location staging_bucket
    gcs_dir_name extra_packages s :
  result_of (_prepare storage rt reasoning_engine requirements project
               location staging_bucket gcs_dir_name extra_packages s)
  = Ok tt ->
  requirements <> [] ->
  exists bucket,
    In (UploadFromString bucket (gcs_dir_name +:+ "/" +:+ _REQUIREMENTS_FILE)
          (PyStr (join_lines requirements)))
      (events_of (_prepare storage rt reasoning_engine requirements project
                    location staging_bucket gcs_dir_name extra_packages s)).
Proof.
  intros H Hreqs. unfold _prepare in *. cbv zeta in *.
  apply bind_ok_inv in H as (? & s1 & ev1 & Hm1 & H).
  apply bind_ok_inv in H as (? & s2 & ev2 & Hm2 & H).
  apply bind_ok_inv in H as (? & s3 & ev3 & Hm3 & H).
  apply bind_ok_inv in H as (bucket & s4 & ev4 & Hm4 & H).
  apply bind_ok_inv in H as (? & s5 & ev5 & Hm5 & H).
  apply bind_ok_inv in H as (? & s6 & ev6 & Hm6 & H).
  exists bucket.
  apply (events_in_bind_r _ _ _ _ _ _ _ Hm1).
  apply (events_in_bind_r _ _ _ _ _ _ _ Hm2).
  apply (events_in_bind_r _ _ _ _ _ _ _ Hm3).
  apply (events_in_bind_r _ _ _ _ _ _ _ Hm4).
  apply (events_in_bind_r _ _ _ _ _ _ _ Hm5).
  apply (events_in_bind_r _ _ _ _ _ _ _ Hm6).
  apply events_in_bind_l.
  destruct requirements as [|line rest]; [done|]. cbn [truthy_list].
  match goal with
  | |- In _ (events_of (bind (remote ?ev ?f) ?k ?s0)) =>
      destruct (remote_bind_events ev f k s0) as [after ->]
  end.
  by left.
Qed.

Lemma normalize_requirements_path path content s :
  fs rt !! path = Some (File content) ->
  normalize_requirements rt (Some (ReqPath path)) s
  = (Ok (splitlines content), s,
     [Log (Info ("Reading requirements from requirements=" +:+ repr path));
      OpenFile path;
      Log (InfoLines "Read the following lines: " (splitlines content))]).
Proof.
  intros Hfile. unfold normalize_requirements, try_except, read_file.
  rewrite !bind_run. cbn. rewrite !bind_run. cbn. rewrite Hfile. reflexivity.
Qed.

Lemma create_list_uploads_requirements
    reasoning_engine lines reasoning_engine_name display_name description
    gcs_dir_name sys_version extra_packages s :
  is_ok (result_of
           (create storage api rt reasoning_engine (Some (ReqList lines))
              reasoning_engine_name display_name description gcs_dir_name
              sys_version extra_packages s)) = true ->
  lines <> [] ->
  exists bucket,
    In (UploadFromString bucket (gcs_dir_name +:+ "/" +:+ _REQUIREMENTS_FILE)
          (PyStr (join_lines lines)))
      (events_of
         (create storage api rt reasoning_engine (Some (ReqList lines))
            reasoning_engine_name display_name description gcs_dir_name
            sys_version extra_packages s)).
Proof.
  intros Hok Hlines.
  destruct (result_of (create _ _ _ _ _ _ _ _ _ _ _ _)) as [made|] eqn:H;
    [clear Hok|done].
  unfold create in *.
  apply bind_ok_inv in H as (staged & s1 & ev1 & Hstage & _).
  assert (Hstaged : result_of
                      (stage storage rt reasoning_engine
                         (Some (ReqList lines)) reasoning_engine_name
                         gcs_dir_name sys_version extra_packages s)
                    = Ok staged) by (by rewrite Hstage).
  clear Hstage. unfold stage in *. cbv zeta in *.
  apply bind_ok_inv in Hstaged as (checked & s2 & ev2 & Hm1 & H).
  apply bind_ok_inv in H as (reqs & s3 & ev3 & Hm2 & H).
  apply bind_ok_inv in H as (? & s4 & ev4 & Hm3 & H).
  apply bind_ok_inv in H as ([] & s5 & ev5 & Hm4 & _).
  injection Hm2 as <- <- <-.
  destruct (_prepare_uploads_requirements checked.2 lines (project rt)
              (location rt) checked.1.2 gcs_dir_name
              (default [] extra_packages) s4) as [bucket Hin];
    [by rewrite Hm4|done|].
  exists bucket. apply events_in_bind_l.
  apply (events_in_bind_r _ _ _ _ _ _ _ Hm1).
  eapply events_in_bind_r; [reflexivity|].
  apply (events_in_bind_r _ _ _ _ _ _ _ Hm3).
  by apply events_in_bind_l.
Qed.

Lemma create_path_same_upto
    reasoning_engine path lines final_newline reasoning_engine_name
    display_name description gcs_dir_name sys_version extra_packages s :
  Forall is_line lines ->
  (final_newline = false -> last lines <> Some []) ->
  fs rt !! path = Some (File (file_text lines final_newline)) ->
  same_upto is_remote
    (create storage api rt reasoning_engine (Some (ReqPath path))
       reasoning_engine_name display_name description gcs_dir_name
       sys_version extra_packages s)
    (create storage api rt reasoning_engine (Some (ReqList lines))
       reasoning_engine_name display_name description gcs_dir_name
       sys_version extra_packages s).
Proof.
  intros Hlines Hlast Hfile.
  unfold create. apply same_upto_bind; [|intros; apply same_upto_refl].
  unfold stage. apply same_upto_bind; [apply same_upto_refl|].
  intros checked s0. cbn zeta.
  apply same_upto_bind; [|intros; apply same_upto_refl].
  rewrite (normalize_requirements_path _ _ _ Hfile).
  rewrite (splitlines_file_text _ _ Hlines Hlast). done.
Qed.

(** C7: for every list of requirement lines and every file that holds
    those lines (each ended by a newline, or joined by newlines when the
    last line is not empty), [create] with the path of the file and
    [create] with the list end alike: same result, same remote state, and
    the same calls to the object store and the services in the same
    order, so the same uploads with the same content; and when the
    calls return and there are lines, both have uploaded to
    [requirements.txt] the lines joined by newlines. *)
Theorem create_requirements_path_same_as_list
    reasoning_engine path lines final_newline reasoning_engine_name
    display_name description gcs_dir_name sys_version extra_packages s :
  Forall is_line lines ->
  (final_newline = false -> last lines <> Some []) ->
  fs rt !! path = Some (File (file_text lines final_newline)) ->
  let by_path :=
    create storage api rt reasoning_engine (Some (ReqPath path))
      reasoning_engine_name display_name description gcs_dir_name sys_version
      extra_packages s in
  let by_list :=
    create storage api rt reasoning_engine (Some (ReqList lines))
      reasoning_engine_name display_name description gcs_dir_name sys_version
      extra_packages s in
  result_of by_path = result_of by_list
  /\ state_of by_path = state_of by_list
  /\ List.filter is_remote (events_of by_path)
     = List.filter is_remote (events_of by_list)
  /\ (forall bucket blob content,
        In (UploadFromString bucket blob content) (events_of by_path)
        <-> In (UploadFromString bucket blob content) (events_of by_list))
  /\ (is_ok (result_of by_list) = true -> lines <> [] ->
      exists bucket,
        let upload :=
          UploadFromString bucket
            (gcs_dir_name +:+ "/" +:+ _REQUIREMENTS_FILE)
            (PyStr (join_lines lines)) in
        In upload (events_of by_path) /\ In upload (events_of by_list)).
Proof.
  intros Hlines Hlast Hfile. cbn zeta.
  pose proof (create_path_same_upto reasoning_engine path lines final_newline
                reasoning_engine_name display_name description gcs_dir_name
                sys_version extra_packages s Hlines Hlast Hfile) as Hsame.
  assert (Hiff : forall bucket blob content,
    In (UploadFromString bucket blob content)
      (events_of
         (create storage api rt reasoning_engine (Some (ReqPath path))
            reasoning_engine_name display_name description gcs_dir_name
            sys_version extra_packages s))
    <-> In (UploadFromString bucket blob content)
          (events_of
             (create storage api rt reasoning_engine (Some (ReqList lines))
                reasoning_engine_name display_name description gcs_dir_name
                sys_version extra_packages s))).
  { intros bucket blob content. by apply (same_upto_In is_remote). }
  destruct Hsame as (Hresult & Hstate & Hevents).
  split; [exact Hresult|]. split; [exact Hstate|]. split; [exact Hevents|].
  split; [exact Hiff|].
  intros Hok Hne.
  destruct (create_list_uploads_requirements _ _ _ _ _ _ _ _ _ Hok Hne)
    as [bucket Hin].
  exists bucket. split; [by apply Hiff|exact Hin].
Qed.

(** C8: once [create] has staged the package, if the derivation of the
    schema raises (in [generate_schema], or in the conversion of what it
    gave), [create] logs the warning and goes on: the next thing it does
    is the remote create call, for an engine whose specification has no
    class method. *)
Theorem create_schema_failure_swallowed
    reasoning_engine requirements reasoning_engine_name display_name
    description gcs_dir_name sys_version extra_packages s
    version bucket deployed lines s1 ev1 e :
  stage storage rt reasoning_engine requirements reasoning_engine_name
    gcs_dir_name sys_version extra_packages s
  = (Ok (version, bucket, deployed, lines), s1, ev1) ->
  (generate_schema rt deployed (type_name deployed +:+ "_query") = Raise e
   \/ exists schema_dict,
        generate_schema rt deployed (type_name deployed +:+ "_query")
        = Ok schema_dict
        /\ to_proto rt schema_dict = Raise e) ->
  exists after,
    events_of
      (create storage api rt reasoning_engine requirements
         reasoning_engine_name display_name description gcs_dir_name
         sys_version extra_packages s)
    = ev1
        ++ [Log (Warning ("failed to generate schema: " +:+ exn_msg e));
            RpcCreateReasoningEngine
              (common_location_path (project rt) (location rt))
              {| name := default EmptyString reasoning_engine_name;
                 display_name := default EmptyString display_name;
                 description := default EmptyString description;
                 spec :=
                   {| package_spec :=
                        make_package_spec version bucket gcs_dir_name lines;
                      class_methods := [] |} |}]
        ++ after.
Proof.
  intros Hstage Hschema.
  unfold create. rewrite (events_of_bind_ok _ _ _ _ _ _ Hstage).
  unfold create_remote.
  assert (Htry : forall m,
    try_except_all
      (let* schema_dict :=
         lift (generate_schema rt deployed (type_name deployed +:+ "_query")) in
       let* method := lift (to_proto rt schema_dict) in
       ret (m method))
      (fun e0 =>
         emit (Log (Warning ("failed to generate schema: " +:+ exn_msg e0))) ;;;
         ret {| package_spec :=
                  make_package_spec version bucket gcs_dir_name lines;
                class_methods := [] |}) s1
    = (Ok {| package_spec :=
               make_package_spec version bucket gcs_dir_name lines;
             class_methods := [] |}, s1,
       [Log (Warning ("failed to generate schema: " +:+ exn_msg e))])).
  { intros m. unfold try_except_all, bind, lift.
    destruct Hschema as [->|(d & -> & Hproto)]; [done|].
    by rewrite Hproto. }
  erewrite events_of_bind_ok by apply Htry.
  match goal with
  | |- context [events_of (bind (remote ?ev ?f) ?k ?s0)] =>
      destruct (remote_bind_events ev f k s0) as [after Hafter]
  end.
  rewrite Hafter. exists after. reflexivity.
Qed.

End StagingFacts.

(** ** Reasoning engines: queries *)

Section QueryFacts.
Import ReasoningEngines.
Context {St : Type}.
Implicit Types (api : EngineClient St) (s : St).

Lemma query_run api self kwargs s :
  query api self kwargs s
  = let request := {| q_name := resource_name self; q_input := kwargs |} in
    match query_reasoning_engine api request s with
    | (Ok response, s1) =>
        (Ok (select_output response), s1, [RpcQueryReasoningEngine request])
    | (Raise e, s1) => (Raise e, s1, [RpcQueryReasoningEngine request])
    end.
Proof.
  unfold query, remote. cbn zeta. rewrite !bind_run. unfold call. cbn.
  by destruct (query_reasoning_engine api _ s) as [[response|e] s1].
Qed.

(** C9: [query] turns the response into a dictionary; when the dictionary
    has the key [output] the caller gets the value under that key and
    nothing else, and otherwise the whole dictionary.  So a response that
    differs from another one only in a top-level field other than
    [output] gives the caller the very same value. *)
Theorem query_returns_output_only api self kwargs s response s1 :
  query_reasoning_engine api
    {| q_name := resource_name self; q_input := kwargs |} s
  = (Ok response, s1) ->
  (forall value,
     response !! "output" = Some value ->
     result_of (query api self kwargs s) = Ok value)
  /\ (response !! "output" = None ->
      result_of (query api self kwargs s) = Ok (JDict response))
  /\ (forall api' key extra,
        key <> "output" ->
        is_Some (response !! "output") ->
        query_reasoning_engine api'
          {| q_name := resource_name self; q_input := kwargs |} s
        = (Ok (<[key := extra]> response), s1) ->
        result_of (query api' self kwargs s)
        = result_of (query api self kwargs s)).
Proof.
  intros Hquery. rewrite query_run. cbn zeta. rewrite Hquery.
  unfold result_of, select_output. cbn [fst].
  split; [by intros value ->|]. split; [by intros ->|].
  intros api' key extra Hkey [value Hvalue] Hquery'.
  rewrite query_run. cbn zeta. rewrite Hquery'.
  unfold select_output. cbn [fst].
  by rewrite lookup_insert_ne, Hvalue.
Qed.

End QueryFacts.

(** ** Transport credentials *)

Section TransportFacts.
Import Transport.
Variable auth : Auth.

(** X22: whenever a credentials object and a credentials file of a
    non-empty name are both given, [__init__] raises
    [DuplicateCredentialArgs], and it has neither loaded credentials from
    the file nor looked up the default ones: it has done nothing yet. *)
Theorem init_duplicate_credentials
    host given file scopes quota_project_id always_use_jwt_access s :
  truthy_str file = true ->
  __init__ auth host (Some given) (Some file) scopes quota_project_id
    always_use_jwt_access s
  = (Raise (Exn DuplicateCredentialArgs
              "'credentials_file' and 'credentials' are mutually exclusive"
              None), s, []).
Proof.
  intros Hfile. unfold __init__. cbn zeta. rewrite bind_run.
  cbn [truthy_opt_str]. rewrite Hfile. reflexivity.
Qed.

End TransportFacts.

(** C10, the code at the failing input: with a credentials object and
    the empty string as the credentials file, both are supplied, yet
    [__init__] raises no [DuplicateCredentialArgs].  The guard tests the
    truth of the file name, the branch after it tests that the file is
    not [None]: the call gets through the guard, drops the credentials it
    was given and loads credentials from the file, and the error that
    comes out is the one of the load. *)
Lemma init_empty_credentials_file_loads :
  Transport.__init__ TransportScenario.auth Transport.DEFAULT_HOST
    (Some TransportScenario.given) (Some EmptyString) None None None tt
  = (Raise (Exn DefaultCredentialsError "File  was not found." None), tt,
     [Transport.LoadCredentialsFromFile EmptyString])
  /\ isinstance (Exn DefaultCredentialsError "File  was not found." None)
       DuplicateCredentialArgs = false.
Proof. by vm_compute. Qed.

Lemma init_duplicate_credentials_witness :
  truthy_str "credentials.json" = true
  /\ Transport.__init__ TransportScenario.auth Transport.DEFAULT_HOST
       (Some TransportScenario.given) (Some "credentials.json") None None
       None tt
     = (Raise (Exn DuplicateCredentialArgs
                 "'credentials_file' and 'credentials' are mutually exclusive"
                 None), tt, []).
Proof.
  split; [reflexivity|].
  apply (init_duplicate_credentials TransportScenario.auth
           Transport.DEFAULT_HOST TransportScenario.given "credentials.json"
           None None None tt).
  reflexivity.
Defined.

(** ** The deployment scenario *)

Lemma create_missing_extra_package_no_upload_witness :
  In "missing.py" ["main.py"; "missing.py"]
  /\ ReasoningEngines.path_exists EngineScenario.rt "missing.py" = false
  /\ result_of
       (ReasoningEngines.create ReasoningEngines.cloud_storage
          ReasoningEngines.cloud_api EngineScenario.rt EngineScenario.app
          (Some (ReasoningEngines.ReqPath "requirements.txt")) None None None
          "reasoning_engine" None (Some ["main.py"; "missing.py"])
          EngineScenario.cloud)
     = Raise (Exn FileNotFoundError
                ("Extra package specified but not found: extra_package="
                   +:+ repr "missing.py") None)
  /\ state_of
       (ReasoningEngines.create ReasoningEngines.cloud_storage
          ReasoningEngines.cloud_api EngineScenario.rt EngineScenario.app
          (Some (ReasoningEngines.ReqPath "requirements.txt")) None None None
          "reasoning_engine" None (Some ["main.py"; "missing.py"])
          EngineScenario.cloud)
     = EngineScenario.cloud
  /\ Forall (fun ev => ReasoningEngines.is_remote ev = false)
       (events_of
          (ReasoningEngines.create ReasoningEngines.cloud_storage
             ReasoningEngines.cloud_api EngineScenario.rt EngineScenario.app
             (Some (ReasoningEngines.ReqPath "requirements.txt")) None None
             None "reasoning_engine" None (Some ["main.py"; "missing.py"])
             EngineScenario.cloud)).
Proof.
  assert (Hin : In "missing.py" (default [] (Some ["main.py"; "missing.py"])))
    by (right; left; reflexivity).
  assert (Hpath : ReasoningEngines.path_exists EngineScenario.rt "missing.py"
                  = false) by reflexivity.
  destruct (create_missing_extra_package_no_upload
              ReasoningEngines.cloud_storage ReasoningEngines.cloud_api
              EngineScenario.rt EngineScenario.app
              (Some (ReasoningEngines.ReqPath "requirements.txt")) None None
              None "reasoning_engine" None (Some ["main.py"; "missing.py"])
              EngineScenario.cloud "missing.py" Hin Hpath)
    as (_ & Hstate & Hevents & Hclass & _).
  destruct (Hclass eq_refl eq_refl) as (q & Hq & Hresult).
  injection Hq as <-.
  split; [exact Hin|]. split; [exact Hpath|]. split; [exact Hresult|].
  split; [exact Hstate|exact Hevents].
Defined.

(** C6, the claim as stated fails: with a missing extra package and a
    Python version that is not supported, [create] does fail before any
    upload or remote call, but with the [ValueError] of the version
    check, which stands before the loop over the extra packages, and not
    with a file-not-found error. *)
Lemma create_missing_extra_package_version_error :
  In "missing.py" ["main.py"; "missing.py"]
  /\ ReasoningEngines.path_exists EngineScenario.rt "missing.py" = false
  /\ ReasoningEngines.create ReasoningEngines.cloud_storage
       ReasoningEngines.cloud_api EngineScenario.rt EngineScenario.app
       None None None None "reasoning_engine" (Some "2.7")
       (Some ["main.py"; "missing.py"]) EngineScenario.cloud
     = (Raise (Exn ValueError
                 ("Unsupported python version: 2.7. ReasoningEngine only "
                    +:+ "supports ('3.8', '3.9', '3.10', '3.11') at the "
                    +:+ "moment.") None),
        EngineScenario.cloud, [])
  /\ forall msg cause,
       isinstance (Exn ValueError msg cause) FileNotFoundError = false.
Proof.
  split; [right; left; reflexivity|]. split; [reflexivity|].
  split; [by vm_compute|]. reflexivity.
Qed.

Lemma create_requirements_path_same_as_list_witness :
  let by_path :=
    ReasoningEngines.create ReasoningEngines.cloud_storage
      ReasoningEngines.cloud_api EngineScenario.rt EngineScenario.app
      (Some (ReasoningEngines.ReqPath "requirements.txt")) None None None
      "reasoning_engine" None (Some ["main.py"]) EngineScenario.cloud in
  let by_list :=
    ReasoningEngines.create ReasoningEngines.cloud_storage
      ReasoningEngines.cloud_api EngineScenario.rt EngineScenario.app
      (Some (ReasoningEngines.ReqList EngineScenario.lines)) None None None
      "reasoning_engine" None (Some ["main.py"]) EngineScenario.cloud in
  result_of by_path = result_of by_list
  /\ state_of by_path = state_of by_list
  /\ List.filter ReasoningEngines.is_remote (events_of by_path)
     = List.filter ReasoningEngines.is_remote (events_of by_list)
  /\ (forall bucket blob content,
        In (ReasoningEngines.UploadFromString bucket blob content)
          (events_of by_path)
        <-> In (ReasoningEngines.UploadFromString bucket blob content)
              (events_of by_list))
  /\ (is_ok (result_of by_list) = true -> EngineScenario.lines <> [] ->
      exists bucket,
        let upload :=
          ReasoningEngines.UploadFromString bucket
            ("reasoning_engine" +:+ "/"
               +:+ ReasoningEngines._REQUIREMENTS_FILE)
            (ReasoningEngines.PyStr
               (ReasoningEngines.join_lines EngineScenario.lines)) in
        In upload (events_of by_path) /\ In upload (events_of by_list)).
Proof.
  apply (create_requirements_path_same_as_list
           ReasoningEngines.cloud_storage ReasoningEngines.cloud_api
           EngineScenario.rt EngineScenario.app "requirements.txt"
           EngineScenario.lines true None None None "reasoning_engine" None
           (Some ["main.py"]) EngineScenario.cloud).
  - repeat constructor.
  - discriminate.
  - reflexivity.
Defined.

(** In the scenario both forms leave the same blob [requirements.txt] in
    the staging bucket: the lines joined by newlines. *)
Lemma requirements_blob_in_scenario :
  let blob_of (c : ReasoningEngines.Cloud) :=
    ReasoningEngines.buckets c !! "staging"
      ≫= fun blobs => blobs !! "reasoning_engine/requirements.txt" in
  blob_of
    (state_of
       (ReasoningEngines.create ReasoningEngines.cloud_storage
          ReasoningEngines.cloud_api EngineScenario.rt EngineScenario.app
          (Some (ReasoningEngines.ReqPath "requirements.txt")) None None None
          "reasoning_engine" None (Some ["main.py"]) EngineScenario.cloud))
  = Some (ReasoningEngines.PyStr
            (ReasoningEngines.join_lines EngineScenario.lines))
  /\ blob_of
       (state_of
          (ReasoningEngines.create ReasoningEngines.cloud_storage
             ReasoningEngines.cloud_api EngineScenario.rt EngineScenario.app
             (Some (ReasoningEngines.ReqList EngineScenario.lines)) None None
             None "reasoning_engine" None (Some ["main.py"])
             EngineScenario.cloud))
     = Some (ReasoningEngines.PyStr
               (ReasoningEngines.join_lines EngineScenario.lines)).
Proof. by vm_compute. Qed.

Lemma create_schema_failure_swallowed_witness :
  exists after,
    events_of
      (ReasoningEngines.create ReasoningEngines.cloud_storage
         ReasoningEngines.cloud_api EngineScenario.rt EngineScenario.app
         None None None None "reasoning_engine" None None
         EngineScenario.cloud)
    = events_of
        (ReasoningEngines.stage ReasoningEngines.cloud_storage
           EngineScenario.rt EngineScenario.app None None "reasoning_engine"
           None None EngineScenario.cloud)
        ++ [ReasoningEngines.Log
              (ReasoningEngines.Warning
                 ("failed to generate schema: "
                    +:+ exn_msg EngineScenario.schema_error));
            ReasoningEngines.RpcCreateReasoningEngine
              (ReasoningEngines.common_location_path
                 (ReasoningEngines.project EngineScenario.rt)
                 (ReasoningEngines.location EngineScenario.rt))
              {| ReasoningEngines.name := default EmptyString None;
                 ReasoningEngines.display_name := default EmptyString None;
                 ReasoningEngines.description := default EmptyString None;
                 ReasoningEngines.spec :=
                   {| ReasoningEngines.package_spec :=
                        ReasoningEngines.make_package_spec "3.10"
                          "gs://staging" "reasoning_engine" [];
                      ReasoningEngines.class_methods := [] |} |}]
        ++ after.
Proof.
  apply (create_schema_failure_swallowed ReasoningEngines.cloud_storage
           ReasoningEngines.cloud_api EngineScenario.rt EngineScenario.app
           None None None None "reasoning_engine" None None
           EngineScenario.cloud "3.10" "gs://staging" EngineScenario.app []
           (state_of
              (ReasoningEngines.stage ReasoningEngines.cloud_storage
                 EngineScenario.rt EngineScenario.app None None
                 "reasoning_engine" None None EngineScenario.cloud))).
  - vm_compute. reflexivity.
  - left. reflexivity.
Defined.

Lemma query_returns_output_only_witness :
  ReasoningEngines.answer EngineScenario.cloud !! "usage"
  = Some (ReasoningEngines.JNum 7)
  /\ result_of
       (ReasoningEngines.query ReasoningEngines.cloud_api
          EngineScenario.deployed ∅ EngineScenario.cloud)
     = Ok (ReasoningEngines.JStr "42").
Proof.
  split; [reflexivity|].
  apply (proj1 (query_returns_output_only ReasoningEngines.cloud_api
                  EngineScenario.deployed ∅ EngineScenario.cloud
                  (ReasoningEngines.answer EngineScenario.cloud)
                  EngineScenario.cloud eq_refl)).
  reflexivity.
Defined.

(* ================================================================== *)
(** * Further properties of the transport *)
(* ================================================================== *)

Section TransportMore.
Import Transport.
Variable auth : Auth.

Lemma contains_app c a b :
  contains c (a +:+ b) = contains c a || contains c b.
Proof.
  induction a as [|d a IH]; [done|].
  change (contains c (String d (a +:+ b)) = contains c (String d a) || contains c b).
  cbn [contains]. by rewrite IH, orb_assoc.
Qed.

(** X1: the host [__init__] saves always names a port: a host that holds
    a colon is saved as given, and any other host is saved with [:443]
    appended. *)
Theorem init_host_has_port
    host credentials credentials_file scopes quota_project_id
    always_use_jwt_access s transport s1 ev :
  __init__ auth host credentials credentials_file scopes quota_project_id
    always_use_jwt_access s = (Ok transport, s1, ev) ->
  contains ":" (_host transport) = true
  /\ (contains ":" host = true -> _host transport = host)
  /\ (contains ":" host = false -> _host transport = host +:+ ":443").
Proof.
  intros Hinit.
  assert (H : result_of (__init__ auth host credentials credentials_file
                           scopes quota_project_id always_use_jwt_access s)
              = Ok transport) by (by rewrite Hinit).
  clear Hinit. unfold __init__ in H. cbv zeta in H.
  apply bind_ok_inv in H as (? & s2 & ev2 & _ & H).
  apply bind_ok_inv in H as (loaded & s3 & ev3 & _ & H).
  injection H as <-. cbn [_host].
  destruct (contains ":" host) eqn:Hhost.
  - by repeat split.
  - repeat split; [|done]. by rewrite contains_app, orb_true_r.
Qed.

Lemma init_events
    host credentials credentials_file scopes quota_project_id
    always_use_jwt_access s :
  events_of (__init__ auth host credentials credentials_file scopes
               quota_project_id always_use_jwt_access s)
  = match credentials_file, credentials with
    | Some file, Some _ =>
        if truthy_str file then [] else [LoadCredentialsFromFile file]
    | Some file, None => [LoadCredentialsFromFile file]
    | None, None => [DefaultCredentials]
    | None, Some _ => []
    end.
Proof.
  unfold __init__. cbv zeta. rewrite !bind_run.
  destruct credentials as [given|], credentials_file as [file|];
    cbn [truthy_opt_str bool_decide decide_rel andb];
    try destruct (truthy_str file) eqn:Hfile;
    rewrite ?bind_run; unfold lift, emit, ret, raise; cbn -[truthy_str];
    try destruct (load_credentials_from_file auth _ _ _ _);
    try destruct (default_credentials auth _ _ _);
    reflexivity.
Qed.

(** X2: [__init__] consults at most one source of credentials.  It looks
    up the default credentials exactly when neither credentials nor a
    credentials file is given, and it loads from a file exactly when a
    file is given and the duplicate check lets it through (no credentials
    given, or the file name empty). *)
Theorem init_credential_sources
    host credentials credentials_file scopes quota_project_id
    always_use_jwt_access s :
  let ev :=
    events_of (__init__ auth host credentials credentials_file scopes
                 quota_project_id always_use_jwt_access s) in
  (length ev <= 1)%nat
  /\ (In DefaultCredentials ev <-> credentials = None /\ credentials_file = None)
  /\ (forall file,
        In (LoadCredentialsFromFile file) ev
        <-> credentials_file = Some file
            /\ (credentials = None \/ truthy_str file = false)).
Proof.
  cbn zeta. rewrite init_events.
  destruct credentials as [given|], credentials_file as [file|];
    try destruct (truthy_str file) eqn:Hfile.
  - split; [simpl; lia|]. split.
    + split; [intros []|intros [[=] _]].
    + intros file'. split; [intros []|].
      intros [[= <-] [[=]|Hempty]]. congruence.
  - split; [simpl; lia|]. split.
    + split; [intros [[=]|[]]|intros [[=] _]].
    + intros file'. split.
      * intros [[= <-]|[]]. split; [done|]. by right.
      * intros [[= <-] _]. by left.
  - split; [simpl; lia|]. split.
    + split; [intros []|intros [[=] _]].
    + intros file'. split; [intros []|intros [[=] _]].
  - split; [simpl; lia|]. split.
    + split; [intros [[=]|[]]|intros [_ [=]]].
    + intros file'. split.
      * intros [[= <-]|[]]. split; [done|]. by left.
      * intros [[= <-] _]. by left.
  - split; [simpl; lia|]. split.
    + split; [intros [[=]|[]]|intros [_ [=]]].
    + intros file'. split.
      * intros [[= <-]|[]]. split; [done|]. by left.
      * intros [[= <-] _]. by left.
  - split; [simpl; lia|]. split.
    + split; [done|]. intros _. by left.
    + intros file'. split; [intros [[=]|[]]|intros [[=] _]].
Qed.

(** X3: credentials given without a credentials file are saved as they
    are, no source of credentials being consulted and the call never
    failing; only the self-signed JWT flag can change, and it is set only
    for service-account credentials, when it is asked for and the library
    offers it. *)
Theorem init_explicit_credentials_saved
    host given scopes quota_project_id always_use_jwt_access s :
  exists transport,
    __init__ auth host (Some given) None scopes quota_project_id
      always_use_jwt_access s = (Ok transport, s, [])
    /\ _scopes transport = scopes
    /\ account (_credentials transport) = account given
    /\ is_service_account (_credentials transport) = is_service_account given
    /\ always_use_jwt (_credentials transport)
       = always_use_jwt given
         || (default false always_use_jwt_access
             && is_service_account given
             && has_with_always_use_jwt_access auth).
Proof.
  eexists. split; [reflexivity|]. cbn.
  destruct (default false always_use_jwt_access && is_service_account given
            && has_with_always_use_jwt_access auth); cbn;
    by rewrite ?orb_true_r, ?orb_false_r.
Qed.

(** X4: a failure of the source of credentials is the failure of
    [__init__]: when loading the file raises, or when the lookup of the
    default credentials raises, the same exception comes out, after that
    one attempt and no other. *)
Theorem init_source_failure_propagates
    host scopes quota_project_id always_use_jwt_access s e :
  (forall file,
     load_credentials_from_file auth file scopes AUTH_SCOPES quota_project_id
     = Raise e ->
     __init__ auth host None (Some file) scopes quota_project_id
       always_use_jwt_access s
     = (Raise e, s, [LoadCredentialsFromFile file]))
  /\ (default_credentials auth scopes AUTH_SCOPES quota_project_id = Raise e ->
      __init__ auth host None None scopes quota_project_id
        always_use_jwt_access s
      = (Raise e, s, [DefaultCredentials])).
Proof.
  split; [intros file Hload|intros Hdefault];
    unfold __init__; cbv zeta; rewrite !bind_run; cbn;
    rewrite ?bind_run; unfold lift; cbn; by rewrite ?Hload, ?Hdefault.
Qed.

End TransportMore.

(* ================================================================== *)
(** * Further properties of the metadata artifacts *)
(* ================================================================== *)

Lemma last_filter_keeps {A} (P : A -> bool) (l : list A) (a : A) :
  last l = Some a -> P a = true -> last (List.filter P l) = Some a.
Proof.
  intros Hlast Hp. apply last_Some in Hlast as [l' ->].
  rewrite List.filter_app. cbn [List.filter]. rewrite Hp. apply last_snoc.
Qed.

Lemma str_length_app (a b : string) :
  String.length (a +:+ b) = (String.length a + String.length b)%nat.
Proof.
  induction a as [|ch a IH]; [done|].
  change (S (String.length (a +:+ b))
          = S (String.length a + String.length b)). by rewrite IH.
Qed.

Lemma str_app_inj_r (a b c : string) : a +:+ c = b +:+ c -> a = b.
Proof.
  revert b. induction a as [|x a IH]; intros [|y b] H.
  - done.
  - change (c = String y (b +:+ c)) in H.
    apply (f_equal String.length) in H.
    cbn [String.length] in H. rewrite str_length_app in H. lia.
  - change (String x (a +:+ c) = c) in H.
    apply (f_equal String.length) in H.
    cbn [String.length] in H. rewrite str_length_app in H. lia.
  - change (String x (a +:+ c) = String y (b +:+ c)) in H.
    injection H as -> H. by rewrite (IH _ H).
Qed.

Section MetadataMore.
Import Metadata.
Context {St : Type} (client : MetadataClient St) (cfg : GlobalConfig).
Implicit Types (s : St) (rs : list gca_artifact).

(** X5: among the listed artifacts that share the latest creation time,
    [resolve_vertex_resource] returns the one the service listed last:
    the sort is stable and the last element is taken. *)
Theorem resolve_latest_tie_last_listed
    resource metadata_type s rs s1 found :
  _resource_to_artifact_type (r_type resource) = Some metadata_type ->
  r_wait resource = None ->
  list_artifacts client (resolver_request cfg resource metadata_type) s
  = (Ok rs, s1) ->
  result_of (resolve_vertex_resource client cfg resource s)
  = Ok (Some found) ->
  last (List.filter
          (fun a => (artifact_create_time a
                     =? artifact_create_time found)%Z)
          (map (resolver_handle resource) rs)) = Some found
  /\ forall a, In a (map (resolver_handle resource) rs) ->
       (artifact_create_time a <= artifact_create_time found)%Z.
Proof.
  intros Htype Hwait Hlist Hresult.
  rewrite (resolve_vertex_resource_run _ _ _ _ _ Htype Hwait), Hlist
    in Hresult.
  injection Hresult as Hlast. split.
  - rewrite <- (sort_by_stable artifact_create_time).
    apply last_filter_keeps; [done|]. apply Z.eqb_refl.
  - by apply sort_by_last_max.
Qed.

(** X6: the resolver fails before it calls the service.  When
    [resource.wait()] raises, its three entry points raise the same
    exception; when the resource is stable but its type is not in
    [_resource_to_artifact_type] (so [supports_metadata] is false), they
    raise a [KeyError].  In both cases nothing but the wait has
    happened. *)
Theorem resolver_fails_before_any_call resource s :
  (forall e,
     r_wait resource = Some e ->
     resolve_vertex_resource client cfg resource s
     = (Raise e, s, [WaitResource (r_resource_name resource)])
     /\ create_vertex_resource_artifact client cfg resource s
        = (Raise e, s, [WaitResource (r_resource_name resource)])
     /\ resolve_or_create_resource_artifact client cfg resource s
        = (Raise e, s, [WaitResource (r_resource_name resource)]))
  /\ (r_wait resource = None ->
      supports_metadata resource = false ->
      exists e,
        exn_cls e = KeyError
        /\ resolve_vertex_resource client cfg resource s
           = (Raise e, s, [WaitResource (r_resource_name resource)])
        /\ create_vertex_resource_artifact client cfg resource s
           = (Raise e, s, [WaitResource (r_resource_name resource)])
        /\ resolve_or_create_resource_artifact client cfg resource s
           = (Raise e, s, [WaitResource (r_resource_name resource)])).
Proof.
  split.
  - intros e Hwait.
    unfold resolve_or_create_resource_artifact, resolve_vertex_resource,
      create_vertex_resource_artifact, wait.
    rewrite Hwait. by rewrite !bind_run.
  - intros Hwait Hsup. unfold supports_metadata in Hsup.
    apply bool_decide_eq_false in Hsup.
    destruct (_resource_to_artifact_type (r_type resource)) eqn:Htype;
      [by destruct Hsup|].
    eexists. split; [|
      unfold resolve_or_create_resource_artifact, resolve_vertex_resource,
        create_vertex_resource_artifact, wait, lookup_artifact_type;
      rewrite Hwait, Htype; rewrite !bind_run; cbn; by rewrite ?bind_run].
    reflexivity.
Qed.

Lemma _create_run resource_id schema_title uri display_name schema_version
    description metadata metadata_store_id project location credentials s :
  let parent := metadata_store_path cfg metadata_store_id project location in
  let gapic_artifact :=
    new_gapic_artifact schema_title uri display_name schema_version
      description metadata in
  _create client cfg resource_id schema_title uri display_name schema_version
    description metadata metadata_store_id project location credentials s
  = match create_artifact client parent gapic_artifact resource_id s with
    | (Ok resource, s1) =>
        (Ok (Build_Artifact resource project location credentials), s1,
         [InstantiateClient location credentials;
          RpcCreateArtifact parent gapic_artifact resource_id;
          ConstructArtifact (name resource)])
    | (Raise e, s1) =>
        (Raise e, s1,
         [InstantiateClient location credentials;
          RpcCreateArtifact parent gapic_artifact resource_id])
    end.
Proof.
  cbn zeta. unfold _create, _instantiate_client, _create_resource, construct,
    try_except, bind, emit, ret, call, raise. cbn.
  destruct (create_artifact client _ _ resource_id s) as [[resource|e] s1];
    [done|]. cbn. by destruct (isinstance e AlreadyExists).
Qed.

(** X10: [Artifact.create] makes one create call and passes its outcome
    on: a failure of any class comes out unchanged, with no handle
    constructed, and a success gives a handle on the message the service
    returned.  The artifact it sends is always [LIVE], and has an empty
    metadata map when no metadata is given. *)
Theorem artifact_create_passes_outcome
    schema_title resource_id uri display_name schema_version description
    metadata metadata_store_id project location credentials s :
  let parent := metadata_store_path cfg metadata_store_id project location in
  let gapic_artifact :=
    new_gapic_artifact schema_title uri display_name schema_version
      description metadata in
  let out :=
    create client cfg schema_title resource_id uri display_name
      schema_version description metadata metadata_store_id project location
      credentials s in
  state gapic_artifact = LIVE
  /\ (metadata = None -> Metadata.metadata gapic_artifact = ∅)
  /\ (forall e s1,
        create_artifact client parent gapic_artifact resource_id s
        = (Raise e, s1) ->
        out = (Raise e, s1,
               [InstantiateClient location credentials;
                RpcCreateArtifact parent gapic_artifact resource_id]))
  /\ (forall resource s1,
        create_artifact client parent gapic_artifact resource_id s
        = (Ok resource, s1) ->
        out = (Ok (Build_Artifact resource project location credentials), s1,
               [InstantiateClient location credentials;
                RpcCreateArtifact parent gapic_artifact resource_id;
                ConstructArtifact (name resource)])).
Proof.
  cbn zeta. split; [done|]. split; [by intros ->|].
  unfold create. rewrite _create_run. cbn zeta.
  split; intros ? s1 Hcall; by rewrite Hcall.
Qed.

Lemma create_vertex_resource_artifact_any resource metadata_type s :
  _resource_to_artifact_type (r_type resource) = Some metadata_type ->
  r_wait resource = None ->
  let parent := lr_parent (resolver_request cfg resource metadata_type) in
  let gapic_artifact :=
    new_gapic_artifact metadata_type (Some (make_gcp_resource_url resource))
      (r_display_name resource) None None
      (Some {[ "resourceName" := r_resource_name resource ]}) in
  create_vertex_resource_artifact client cfg resource s
  = match create_artifact client parent gapic_artifact None s with
    | (Ok made, s1) =>
        (Ok (resolver_handle resource made), s1,
         [WaitResource (r_resource_name resource);
          InstantiateClient (Some (r_location resource))
            (r_credentials resource);
          RpcCreateArtifact parent gapic_artifact None;
          ConstructArtifact (name made)])
    | (Raise e, s1) =>
        (Raise e, s1,
         [WaitResource (r_resource_name resource);
          InstantiateClient (Some (r_location resource))
            (r_credentials resource);
          RpcCreateArtifact parent gapic_artifact None])
    end.
Proof.
  intros Htype Hwait. cbn zeta.
  unfold create_vertex_resource_artifact, wait, lookup_artifact_type, create.
  rewrite Htype, Hwait. rewrite !bind_run. cbn -[_create].
  rewrite ?bind_run. cbn -[_create]. rewrite _create_run. cbn zeta.
  by destruct (create_artifact client _ _ None s) as [[made|e] s1].
Qed.

(** X8: [create_vertex_resource_artifact] does not look for an artifact
    that is already there: for a supported, stable resource it never
    lists, and makes exactly one create call, for an artifact with the
    registered schema title, the URL of the resource as URI, and the
    resource name in its metadata, the ID being left to the service. *)
Theorem create_vertex_resource_artifact_no_lookup
    resource metadata_type s :
  _resource_to_artifact_type (r_type resource) = Some metadata_type ->
  r_wait resource = None ->
  let ev := events_of (create_vertex_resource_artifact client cfg resource s) in
  (forall request, ~ In (RpcListArtifacts request) ev)
  /\ exists sent tail,
       ev = [WaitResource (r_resource_name resource);
             InstantiateClient (Some (r_location resource))
               (r_credentials resource);
             RpcCreateArtifact
               (lr_parent (resolver_request cfg resource metadata_type))
               sent None] ++ tail
       /\ schema_title sent = metadata_type
       /\ uri sent = make_gcp_resource_url resource
       /\ Metadata.metadata sent !! "resourceName"
          = Some (r_resource_name resource)
       /\ (forall parent a id, ~ In (RpcCreateArtifact parent a id) tail).
Proof.
  intros Htype Hwait. cbn zeta.
  rewrite (create_vertex_resource_artifact_any _ _ _ Htype Hwait). cbn zeta.
  destruct (create_artifact client _ _ None s) as [[made|e] s1];
    unfold events_of; cbn [snd].
  - split.
    + intros request [H|[H|[H|[H|[]]]]]; discriminate.
    + eexists _, [ConstructArtifact (name made)].
      split; [reflexivity|]. repeat split; try done.
      intros parent a id [H|[]]. discriminate.
  - split.
    + intros request [H|[H|[H|[]]]]; discriminate.
    + eexists _, []. split; [reflexivity|]. repeat split; try done.
      intros parent a id [].
Qed.

(** X7: [resolve_or_create_resource_artifact] creates only when the list
    is empty.  When the list call returns artifacts, it returns the last
    of them in ascending order of creation time and makes no create call;
    when the list is empty, it goes on exactly as
    [create_vertex_resource_artifact] does from the state the list call
    left. *)
Theorem resolve_or_create_creates_only_when_none
    resource metadata_type s rs s1 :
  _resource_to_artifact_type (r_type resource) = Some metadata_type ->
  r_wait resource = None ->
  list_artifacts client (resolver_request cfg resource metadata_type) s
  = (Ok rs, s1) ->
  let listing :=
    [WaitResource (r_resource_name resource);
     InstantiateClient (Some (r_location resource)) (r_credentials resource);
     RpcListArtifacts (resolver_request cfg resource metadata_type)] in
  let out := resolve_or_create_resource_artifact client cfg resource s in
  (rs <> [] ->
   exists found,
     last (sort_by artifact_create_time (map (resolver_handle resource) rs))
     = Some found
     /\ out = (Ok found, s1,
               listing ++ map (fun r => ConstructArtifact (name r)) rs)
     /\ forall parent a id, ~ In (RpcCreateArtifact parent a id) (events_of out))
  /\ (rs = [] ->
      out = (result_of (create_vertex_resource_artifact client cfg resource s1),
             state_of (create_vertex_resource_artifact client cfg resource s1),
             listing
               ++ events_of
                    (create_vertex_resource_artifact client cfg resource s1))).
Proof.
  intros Htype Hwait Hlist. cbn zeta.
  unfold resolve_or_create_resource_artifact. rewrite bind_run.
  rewrite (resolve_vertex_resource_run _ _ _ _ _ Htype Hwait), Hlist.
  split.
  - intros Hrs.
    destruct (last (sort_by artifact_create_time
                      (map (resolver_handle resource) rs))) as [found|] eqn:E.
    + exists found. split; [done|]. cbn. rewrite app_nil_r.
      split; [done|].
      intros parent a id [H|[H|[H|H]]]; try discriminate.
      apply in_map_iff in H as (r & H & _). discriminate.
    + apply last_None, sort_by_nil_iff, map_eq_nil in E. done.
  - intros ->. reflexivity.
Qed.

End MetadataMore.

(** ** Resolving twice *)

Section ResolverTwice.
Import Metadata.
Context {St : Type} (client : MetadataClient St) (cfg : GlobalConfig).
Implicit Types (s : St) (rs : list gca_artifact).

Lemma last_sorted_handle resource rs found :
  last (sort_by artifact_create_time (map (resolver_handle resource) rs))
  = Some found ->
  found = resolver_handle resource (gca_resource found)
  /\ In (gca_resource found) rs.
Proof.
  intros [Hin _]%sort_by_last_max.
  apply in_map_iff in Hin as (r & <- & Hr). by split.
Qed.

Lemma listing_has_no_create resource request rs parent a id :
  ~ In (RpcCreateArtifact parent a id)
      ([WaitResource (r_resource_name resource);
        InstantiateClient (Some (r_location resource))
          (r_credentials resource);
        RpcListArtifacts request]
         ++ map (fun r => ConstructArtifact (name r)) rs).
Proof.
  intros [H|[H|[H|H]]]; try discriminate.
  apply in_map_iff in H as (r & H & _). discriminate.
Qed.

(** C5: two calls of [resolve_or_create_resource_artifact] in a row for a
    supported, stable resource, on a service no one else writes to, return
    the same artifact.  The service is taken by what it answers: the list
    call of the first call returns artifacts of the [(schema_title, uri)]
    asked for; listing again gives the same artifacts; and an artifact
    created when none was listed is stored with the [(schema_title, uri)]
    sent and is the one listed from then on.  Then the first call returns
    a handle on an artifact of the type registered for the resource and of
    the URL of the resource, which is one of the listed artifacts (and
    nothing is created) or, when none was listed, the artifact the one
    create call made for that type, URL and resource name; and the second
    call, from the state the first one left, lists, finds that very
    artifact among what the service lists, returns it, creates nothing and
    leaves the state as it is. *)
Theorem resolve_or_create_twice_same
    resource metadata_type s rs s1 made s2 :
  _resource_to_artifact_type (r_type resource) = Some metadata_type ->
  r_wait resource = None ->
  let request := resolver_request cfg resource metadata_type in
  let url := make_gcp_resource_url resource in
  let sent :=
    new_gapic_artifact metadata_type (Some url) (r_display_name resource)
      None None (Some {[ "resourceName" := r_resource_name resource ]}) in
  list_artifacts client request s = (Ok rs, s1) ->
  Forall (fun r => schema_title r = metadata_type /\ uri r = url) rs ->
  (rs <> [] -> list_artifacts client request s1 = (Ok rs, s1)) ->
  (rs = [] ->
   create_artifact client (lr_parent request) sent None s1 = (Ok made, s2)
   /\ schema_title made = metadata_type
   /\ uri made = url
   /\ list_artifacts client request s2 = (Ok [made], s2)) ->
  exists artifact st1 ev1 ev2 listed,
    resolve_or_create_resource_artifact client cfg resource s
    = (Ok artifact, st1, ev1)
    /\ resolve_or_create_resource_artifact client cfg resource st1
       = (Ok artifact, st1, ev2)
    /\ artifact = resolver_handle resource (gca_resource artifact)
    /\ schema_title (gca_resource artifact) = metadata_type
    /\ uri (gca_resource artifact) = url
    /\ (rs <> [] ->
        st1 = s1
        /\ In (gca_resource artifact) rs
        /\ forall parent a id, ~ In (RpcCreateArtifact parent a id) ev1)
    /\ (rs = [] ->
        st1 = s2
        /\ gca_resource artifact = made
        /\ In (RpcCreateArtifact (lr_parent request) sent None) ev1)
    /\ In (RpcListArtifacts request) ev2
    /\ list_artifacts client request st1 = (Ok listed, st1)
    /\ In (gca_resource artifact) listed
    /\ forall parent a id, ~ In (RpcCreateArtifact parent a id) ev2.
Proof.
  intros Htype Hwait request url sent Hlist Hfilter Hagain Hcreate.
  pose proof (resolve_vertex_resource_run client cfg resource metadata_type)
    as Hrun.
  fold request in Hrun.
  destruct rs as [|r0 rs'].
  - (* nothing is listed: the first call creates, the second resolves *)
    destruct (Hcreate eq_refl) as (Hmade & Htitle & Huri & Hlist2).
    clear Hagain Hcreate.
    pose proof (create_vertex_resource_artifact_any client cfg resource
                  metadata_type s1 Htype Hwait) as Hany.
    cbv zeta in Hany. fold request url sent in Hany. rewrite Hmade in Hany.
    exists (resolver_handle resource made), s2.
    eexists _, _, [made].
    split.
    { unfold resolve_or_create_resource_artifact.
      eapply bind_ok.
      - rewrite (Hrun s Htype Hwait), Hlist. reflexivity.
      - cbn [map sort_by last]. exact Hany. }
    split.
    { unfold resolve_or_create_resource_artifact.
      eapply bind_ok.
      - rewrite (Hrun s2 Htype Hwait), Hlist2. reflexivity.
      - cbn [map sort_by insert_by last]. reflexivity. }
    split; [reflexivity|]. split; [exact Htitle|]. split; [exact Huri|].
    split; [done|].
    split.
    { intros _. split; [reflexivity|]. split; [reflexivity|].
      apply in_or_app. right. cbn. tauto. }
    split; [cbn; tauto|]. split; [exact Hlist2|]. split; [by left|].
    intros parent a id.
    rewrite app_nil_r. apply listing_has_no_create.
  - (* artifacts are listed: both calls resolve the same one *)
    specialize (Hagain ltac:(done)). clear Hcreate.
    set (rs := r0 :: rs') in *.
    destruct (last (sort_by artifact_create_time
                      (map (resolver_handle resource) rs)))
      as [found|] eqn:Hlast;
      [|by apply last_None, sort_by_nil_iff, map_eq_nil in Hlast].
    destruct (last_sorted_handle _ _ _ Hlast) as [Hhandle Hin].
    assert (Hcall : forall s0,
      list_artifacts client request s0 = (Ok rs, s1) ->
      resolve_or_create_resource_artifact client cfg resource s0
      = (Ok found, s1,
         ([WaitResource (r_resource_name resource);
           InstantiateClient (Some (r_location resource))
             (r_credentials resource);
           RpcListArtifacts request]
            ++ map (fun r => ConstructArtifact (name r)) rs) ++ [])).
    { intros s0 Hs0. unfold resolve_or_create_resource_artifact.
      eapply bind_ok.
      - rewrite (Hrun s0 Htype Hwait), Hs0. reflexivity.
      - rewrite Hlast. reflexivity. }
    exists found, s1. eexists _, _, rs.
    split; [exact (Hcall s Hlist)|]. split; [exact (Hcall s1 Hagain)|].
    split; [exact Hhandle|].
    rewrite Forall_forall in Hfilter.
    destruct (Hfilter _ (proj2 (list_elem_of_In _ _) Hin)) as [Htitle Huri].
    split; [exact Htitle|]. split; [exact Huri|].
    split.
    { intros _. split; [reflexivity|]. split; [exact Hin|].
      intros parent a id. rewrite app_nil_r. apply listing_has_no_create. }
    split; [done|].
    split; [cbn; tauto|]. split; [exact Hagain|]. split; [exact Hin|].
    intros parent a id. rewrite app_nil_r. apply listing_has_no_create.
Qed.

End ResolverTwice.

Lemma resolve_or_create_twice_same_witness :
  (exists artifact st1 ev1 ev2,
     Metadata.resolve_or_create_resource_artifact Metadata.store_client
       MetadataScenario.cfg MetadataScenario.model
       MetadataScenario.empty_store
     = (Ok artifact, st1, ev1)
     /\ Metadata.resolve_or_create_resource_artifact Metadata.store_client
          MetadataScenario.cfg MetadataScenario.model st1
        = (Ok artifact, st1, ev2)
     /\ Metadata.schema_title (Metadata.gca_resource artifact)
        = "google.VertexModel"
     /\ Metadata.uri (Metadata.gca_resource artifact)
        = Metadata.make_gcp_resource_url MetadataScenario.model
     /\ Metadata.st_rows st1
        = [(MetadataScenario.parent, Metadata.gca_resource artifact)]
     /\ forall parent a id,
          ~ In (Metadata.RpcCreateArtifact parent a id) ev2)
  /\ exists st1 ev1 ev2,
       Metadata.resolve_or_create_resource_artifact Metadata.store_client
         MetadataScenario.cfg MetadataScenario.model
         MetadataScenario.store_model
       = (Ok (Metadata.resolver_handle MetadataScenario.model
                MetadataScenario.model_newer), st1, ev1)
       /\ Metadata.resolve_or_create_resource_artifact Metadata.store_client
            MetadataScenario.cfg MetadataScenario.model st1
          = (Ok (Metadata.resolver_handle MetadataScenario.model
                   MetadataScenario.model_newer), st1, ev2)
       /\ st1 = MetadataScenario.store_model.
Proof.
  split.
  - destruct (resolve_or_create_twice_same Metadata.store_client
                MetadataScenario.cfg MetadataScenario.model
                "google.VertexModel" MetadataScenario.empty_store []
                MetadataScenario.empty_store
                (Metadata.created_row MetadataScenario.cfg
                   MetadataScenario.model "google.VertexModel"
                   MetadataScenario.empty_store)
                (Metadata.store_after_create MetadataScenario.cfg
                   MetadataScenario.model "google.VertexModel"
                   MetadataScenario.empty_store)
                eq_refl eq_refl eq_refl ltac:(constructor)
                ltac:(intros H; by destruct H)
                ltac:(intros _; repeat split))
      as (artifact & st1 & ev1 & ev2 & listed & H1 & H2 & _ & Ht & Hu & _
          & Hmade & _ & _ & _ & Hnone).
    destruct (Hmade eq_refl) as (-> & Hrow & _).
    exists artifact,
      (Metadata.store_after_create MetadataScenario.cfg
         MetadataScenario.model "google.VertexModel"
         MetadataScenario.empty_store), ev1, ev2.
    split; [exact H1|]. split; [exact H2|]. split; [exact Ht|].
    split; [exact Hu|]. split; [by rewrite Hrow|exact Hnone].
  - destruct (resolve_or_create_twice_same Metadata.store_client
                MetadataScenario.cfg MetadataScenario.model
                "google.VertexModel" MetadataScenario.store_model
                [MetadataScenario.model_newer; MetadataScenario.model_older]
                MetadataScenario.store_model
                MetadataScenario.model_newer MetadataScenario.store_model
                eq_refl eq_refl eq_refl
                ltac:(by repeat constructor)
                ltac:(intros _; reflexivity)
                ltac:(intros H; discriminate H))
      as (artifact & st1 & ev1 & ev2 & listed & H1 & H2 & _ & _ & _
          & Hfound & _).
    destruct (Hfound ltac:(discriminate)) as (-> & _ & _).
    assert (Ha : artifact
                 = Metadata.resolver_handle MetadataScenario.model
                     MetadataScenario.model_newer).
    { vm_compute in H1. by injection H1 as <- _. }
    rewrite Ha in H1, H2.
    exists MetadataScenario.store_model, ev1, ev2.
    split; [exact H1|]. split; [exact H2|reflexivity].
Defined.

Section StoreMore.
Import Metadata.
Variable cfg : GlobalConfig.
Implicit Types (st : Store).

Lemma get_with_uri_first {St} (client : MetadataClient St)
    uri sid p l c (s : St) first rs s1 :
  list_artifacts client
    {| lr_parent := metadata_store_path cfg sid p l;
       lr_filter := Some (uri_filter uri) |} s = (Ok (first :: rs), s1) ->
  result_of (get_with_uri client cfg uri sid p l c s)
  = Ok (Build_Artifact first p l c).
Proof.
  intros Hlist. unfold get_with_uri. rewrite bind_run.
  rewrite Artifact_list_run. cbn zeta. rewrite Hlist. cbn [map].
  destruct rs as [|second rs]; cbn [length Nat.ltb Nat.leb];
    by rewrite !bind_run.
Qed.

Lemma uri_filter_matches parent u (row : string * gca_artifact) :
  row_matches {| lr_parent := parent; lr_filter := Some (uri_filter u) |} row
  = true ->
  uri row.2 = u.
Proof.
  unfold row_matches. cbn [lr_parent lr_filter].
  intros [_ [H|H]%orb_true_iff]%andb_true_iff;
    apply String.eqb_eq in H.
  - unfold uri_filter in H.
    apply (inj (String.append "uri = ")) in H.
    apply (inj (String.append dq)) in H.
    by apply str_app_inj_r in H.
  - unfold uri_filter, make_filter_string in H. discriminate H.
Qed.

Lemma store_create_ok parent artifact artifact_id st made st1 :
  store_create parent artifact artifact_id st = (Ok made, st1) ->
  uri made = uri artifact
  /\ st_rows st1 = st_rows st ++ [(parent, made)].
Proof.
  unfold store_create.
  destruct (truthy_opt_str artifact_id && existsb _ (st_rows st)); [done|].
  by intros [= <- <-].
Qed.

(** X9: an artifact created with a URI can be fetched by that URI.  On
    the metadata service, once [Artifact.create] has returned,
    [get_with_uri] for the same URI, store, project and location does not
    fail and returns an artifact of that URI; it is the created one when
    the store held no artifact of the URI before. *)
Theorem create_then_get_with_uri
    schema_title resource_id u display_name schema_version description
    metadata sid p l c st made st1 ev :
  create store_client cfg schema_title resource_id (Some u) display_name
    schema_version description metadata sid p l c st = (Ok made, st1, ev) ->
  exists found,
    result_of (get_with_uri store_client cfg u sid p l c st1) = Ok found
    /\ artifact_uri found = u
    /\ ((list_artifacts store_client
           {| lr_parent := metadata_store_path cfg sid p l;
              lr_filter := Some (uri_filter u) |} st).1 = Ok [] ->
        found = made).
Proof.
  unfold create. rewrite _create_run. cbn zeta.
  cbn [create_artifact store_client].
  destruct (store_create _ _ resource_id st) as [[row|e] st'] eqn:Hcreate;
    [|done].
  intros [= <- <- <-].
  apply store_create_ok in Hcreate as [Huri Hrows].
  set (request := {| lr_parent := metadata_store_path cfg sid p l;
                     lr_filter := Some (uri_filter u) |}).
  assert (Hrow : row_matches request (metadata_store_path cfg sid p l, row)
                 = true).
  { unfold row_matches. cbn [fst snd lr_parent lr_filter request].
    rewrite Huri. cbn [uri new_gapic_artifact proto_str default].
    by rewrite !String.eqb_refl. }
  assert (Hlist : list_artifacts store_client request st'
                  = (Ok (map snd (List.filter (row_matches request)
                                    (st_rows st)) ++ [row]), st')).
  { cbn [list_artifacts store_client]. unfold store_list.
    by rewrite Hrows, List.filter_app, map_app; cbn [List.filter]; rewrite Hrow. }
  cbn [list_artifacts store_client fst]. unfold store_list. cbn [fst].
  destruct (List.filter (row_matches request) (st_rows st))
    as [|[parent0 first] older] eqn:Hold.
  - exists (Build_Artifact row p l c).
    split; [apply (get_with_uri_first _ _ _ _ _ _ _ row [] st');
            exact Hlist|].
    split; [|done]. exact Huri.
  - exists (Build_Artifact first p l c).
    split;
      [apply (get_with_uri_first _ _ _ _ _ _ _ first
                (map snd older ++ [row]) st'); exact Hlist|].
    split; [|done].
    assert (Hin : In (parent0, first)
                    (List.filter (row_matches request) (st_rows st)))
      by (rewrite Hold; by left).
    apply List.filter_In in Hin as [_ Hmatch].
    by apply uri_filter_matches in Hmatch.
Qed.

End StoreMore.

(* ================================================================== *)
(** * Further properties of the reasoning engines *)
(* ================================================================== *)

Section EngineMore.
Import ReasoningEngines.
Context {St : Type}.
Variable storage : StorageClient St.
Variable api : EngineClient St.
Variable rt : Runtime.
Implicit Types s : St.

(** X11: an unsupported Python version is refused first.  When the
    version (the one given, or the one of the process when none is given)
    is not in [_SUPPORTED_PYTHON_VERSIONS], [create] raises a
    [ValueError] and has done nothing at all: no warning, no handle, no
    file read, no call. *)
Theorem create_unsupported_version_fails_first
    reasoning_engine requirements reasoning_engine_name display_name
    description gcs_dir_name sys_version extra_packages s :
  let version :=
    if truthy_opt_str sys_version then default EmptyString sys_version
    else runtime_version rt in
  existsb (String.eqb version) _SUPPORTED_PYTHON_VERSIONS = false ->
  create storage api rt reasoning_engine requirements reasoning_engine_name
    display_name description gcs_dir_name sys_version extra_packages s
  = (Raise (Exn ValueError
              ("Unsupported python version: " +:+ version
                 +:+ ". ReasoningEngine only supports "
                 +:+ "('3.8', '3.9', '3.10', '3.11') at the moment.")
              None), s, []).
Proof.
  cbn zeta. intros Hversion.
  unfold create, stage, check_runtime. cbv zeta.
  rewrite !bind_run, Hversion. reflexivity.
Qed.

Lemma check_runtime_ok reasoning_engine reasoning_engine_name sys_version s
    version bucket deployed :
  result_of (check_runtime rt reasoning_engine reasoning_engine_name
               sys_version s) = Ok (version, bucket, deployed) ->
  version = (if truthy_opt_str sys_version
             then default EmptyString sys_version else runtime_version rt)
  /\ existsb (String.eqb version) _SUPPORTED_PYTHON_VERSIONS = true
  /\ init_error rt = None
  /\ staging_bucket rt = Some bucket
  /\ String.prefix "gs://" bucket = true
  /\ has_query reasoning_engine = true
  /\ match clone reasoning_engine with
     | Some cloned => cloned = Ok deployed
     | None => deployed = reasoning_engine
     end.
Proof.
  unfold check_runtime. cbv zeta. intros H.
  apply bind_ok_inv in H as (? & s1 & ev1 & Hm1 & H).
  apply bind_ok_inv in H as (? & s2 & ev2 & _ & H).
  apply bind_ok_inv in H as (? & s3 & ev3 & _ & H).
  apply bind_ok_inv in H as (? & s4 & ev4 & _ & H).
  apply bind_ok_inv in H as (? & s5 & ev5 & Hm5 & H).
  apply bind_ok_inv in H as (bucket' & s6 & ev6 & Hm6 & H).
  apply bind_ok_inv in H as (? & s7 & ev7 & Hm7 & H).
  apply bind_ok_inv in H as (? & s8 & ev8 & Hm8 & H).
  apply bind_ok_inv in H as (? & s9 & ev9 & _ & H).
  apply bind_ok_inv in H as (deployed' & s10 & ev10 & Hm10 & H).
  injection H as <- <- <-.
  split; [done|].
  split; [by destruct (existsb _ _SUPPORTED_PYTHON_VERSIONS)|].
  split; [by destruct (init_error rt)|].
  split.
  { destruct (staging_bucket rt) as [b|]; [|done].
    cbn [truthy_opt_str default] in Hm6.
    destruct (truthy_str b); [|done]. by injection Hm6 as <-. }
  split; [by destruct (String.prefix "gs://" bucket')|].
  split; [by destruct (has_query reasoning_engine)|].
  destruct (clone reasoning_engine) as [cloned|].
  - rewrite bind_run in Hm10. cbn in Hm10. unfold lift in Hm10.
    destruct cloned; [|done]. by injection Hm10 as ->.
  - by injection Hm10 as ->.
Qed.

Lemma check_extra_packages_ok extra_packages s :
  result_of (check_extra_packages rt extra_packages s) = Ok tt ->
  Forall (fun p => path_exists rt p = true) extra_packages.
Proof.
  unfold check_extra_packages.
  induction extra_packages as [|p rest IH]; [constructor|].
  cbn [for_each]. intros H.
  apply bind_ok_inv in H as (? & s1 & ev1 & Hm & H).
  rewrite bind_run in Hm. cbn in Hm.
  destruct (path_exists rt p) eqn:Hp; [|done].
  injection Hm as <- <-. constructor; [done|]. by apply IH.
Qed.

(** X12: what [create] has staged has passed every check.  When the part
    of [create] before the remote creation returns, the Python version
    is a supported one (the one of the process when none was given), the
    staging bucket is the configured one and starts with [gs://], the
    object given has a callable [query], the object deployed is its
    clone when it can be cloned and the object itself otherwise, and
    every extra package is on the disk. *)
Theorem stage_ok_invariants
    reasoning_engine requirements reasoning_engine_name gcs_dir_name
    sys_version extra_packages s version bucket deployed lines s1 ev :
  stage storage rt reasoning_engine requirements reasoning_engine_name
    gcs_dir_name sys_version extra_packages s
  = (Ok (version, bucket, deployed, lines), s1, ev) ->
  In version _SUPPORTED_PYTHON_VERSIONS
  /\ (truthy_opt_str sys_version = false -> version = runtime_version rt)
  /\ (truthy_opt_str sys_version = true -> sys_version = Some version)
  /\ staging_bucket rt = Some bucket
  /\ String.prefix "gs://" bucket = true
  /\ has_query reasoning_engine = true
  /\ match clone reasoning_engine with
     | Some cloned => cloned = Ok deployed
     | None => deployed = reasoning_engine
     end
  /\ Forall (fun p => path_exists rt p = true) (default [] extra_packages).
Proof.
  intros Hstage.
  assert (H : result_of
                (stage storage rt reasoning_engine requirements
                   reasoning_engine_name gcs_dir_name sys_version
                   extra_packages s)
              = Ok (version, bucket, deployed, lines)) by (by rewrite Hstage).
  clear Hstage. unfold stage in H. cbv zeta in H.
  apply bind_ok_inv in H as ([[v b] d] & s2 & ev2 & Hcheck & H).
  apply bind_ok_inv in H as (reqs & s3 & ev3 & _ & H).
  apply bind_ok_inv in H as ([] & s4 & ev4 & Hextra & H).
  apply bind_ok_inv in H as ([] & s5 & ev5 & _ & H).
  injection H as -> -> -> ->.
  destruct (check_runtime_ok reasoning_engine reasoning_engine_name
              sys_version s version bucket deployed)
    as (Hv & Hsup & _ & Hb & Hgs & Hq & Hclone); [by rewrite Hcheck|].
  split.
  { apply existsb_exists in Hsup as (x & Hin & ->%String.eqb_eq). exact Hin. }
  split; [by intros Hnone; rewrite Hnone in Hv|].
  split.
  { intros Hsome. rewrite Hsome in Hv.
    destruct sys_version; [by subst|done]. }
  repeat (split; [done|]).
  apply (check_extra_packages_ok _ s3). by rewrite Hextra.
Qed.

Lemma normalize_requirements_unreadable path s :
  (forall content, fs rt !! path <> Some (File content)) ->
  exists cause ev,
    isinstance cause IOError = true
    /\ normalize_requirements rt (Some (ReqPath path)) s
       = (Raise (Exn IOError
                   ("Failed to read requirements from requirements="
                      +:+ repr path) (Some cause)), s, ev).
Proof.
  intros Hfile. unfold normalize_requirements, try_except, read_file.
  rewrite !bind_run. cbn. rewrite !bind_run. cbn.
  destruct (fs rt !! path) as [[content|]|] eqn:Hpath.
  - by destruct (Hfile content).
  - change (isinstance (Exn IOError _ None) IOError) with true.
    cbn iota. eexists _, _. split; [|reflexivity]. reflexivity.
  - change (isinstance (Exn FileNotFoundError _ None) IOError) with true.
    cbn iota. eexists _, _. split; [|reflexivity]. reflexivity.
Qed.

(** X13: a requirements file that cannot be read stops [create] before
    anything is staged.  When the other arguments pass their checks and
    the path names no file (nothing, or a directory), [create] raises an
    [IOError] that names the path and has the original error as its
    cause, with the remote state untouched and no call made. *)
Theorem create_requirements_unreadable
    reasoning_engine path reasoning_engine_name display_name description
    gcs_dir_name sys_version extra_packages s :
  is_ok (result_of (check_runtime rt reasoning_engine reasoning_engine_name
                      sys_version s)) = true ->
  (forall content, fs rt !! path <> Some (File content)) ->
  let out :=
    create storage api rt reasoning_engine (Some (ReqPath path))
      reasoning_engine_name display_name description gcs_dir_name sys_version
      extra_packages s in
  (exists cause,
     isinstance cause IOError = true
     /\ result_of out
        = Raise (Exn IOError
                   ("Failed to read requirements from requirements="
                      +:+ repr path) (Some cause)))
  /\ state_of out = s
  /\ Forall (fun ev => is_remote ev = false) (events_of out).
Proof.
  intros Hok Hfile. cbn zeta.
  destruct (check_runtime_silent rt reasoning_engine reasoning_engine_name
              sys_version s) as [Hs0 Hev0].
  destruct (normalize_requirements_unreadable path s Hfile)
    as (cause & ev1 & Hcause & Hnorm).
  destruct (normalize_requirements_silent rt (Some (ReqPath path)) s)
    as [_ Hev1].
  rewrite Hnorm in Hev1.
  destruct (check_runtime rt _ _ _ s) as [[[checked|e0] s0] ev0] eqn:Hck;
    cbn [fst snd result_of is_ok] in Hs0, Hev0, Hok; [subst s0|done].
  unfold create, stage. cbv zeta.
  erewrite bind_raise;
    [|eapply bind_ok; [exact Hck|apply bind_raise, Hnorm]].
  cbn [fst snd result_of state_of events_of].
  split; [by exists cause|]. split; [done|]. by apply Forall_app.
Qed.

Lemma stage_events
    reasoning_engine requirements reasoning_engine_name gcs_dir_name
    sys_version extra_packages s staged s1 ev :
  stage storage rt reasoning_engine requirements reasoning_engine_name
    gcs_dir_name sys_version extra_packages s = (Ok staged, s1, ev) ->
  exists local s0 uploads,
    ev = local ++ uploads
    /\ Forall (fun e => is_remote e = false) local
    /\ _prepare storage rt staged.1.2 staged.2 (project rt) (location rt)
         staged.1.1.2 gcs_dir_name (default [] extra_packages) s0
       = (Ok tt, s1, uploads).
Proof.
  unfold stage. cbv zeta. intros H.
  apply bind_eq_ok_inv in H as (checked & s2 & ev2 & ? & Hm1 & H & ->).
  apply bind_eq_ok_inv in H as (reqs & s3 & ev3 & ? & Hm2 & H & ->).
  apply bind_eq_ok_inv in H as ([] & s4 & ev4 & ? & Hm3 & H & ->).
  apply bind_eq_ok_inv in H as ([] & s5 & ev5 & ? & Hm4 & H & ->).
  injection H as <- <- <-.
  exists (ev2 ++ ev3 ++ ev4), s4, ev5. split.
  { by rewrite app_nil_r, <- !app_assoc. }
  split; [|exact Hm4].
  destruct (check_runtime_silent rt reasoning_engine reasoning_engine_name
              sys_version s) as [_ H1].
  destruct (normalize_requirements_silent rt requirements s2) as [_ H2].
  destruct (check_extra_packages_silent rt (default [] extra_packages) s3)
    as [_ H3].
  rewrite Hm1 in H1. rewrite Hm2 in H2. rewrite Hm3 in H3.
  repeat (apply Forall_app; split); done.
Qed.

Lemma _prepare_no_requirements reasoning_engine project location
    staging_bucket gcs_dir_name extra_packages :
  emits (fun ev => forall bucket blob t,
           ev <> UploadFromString bucket blob (PyStr t))
    (_prepare storage rt reasoning_engine [] project location staging_bucket
       gcs_dir_name extra_packages).
Proof.
  unfold _prepare, remote. cbv zeta. cbn [truthy_list].
  repeat
    first
      [ apply emits_bind; [|intros ?]
      | apply emits_try_except; [|intros ?]
      | apply emits_try_except_all; [|intros ?]
      | apply emits_for_each; intros ?
      | apply emits_emit; intros ? ? ?; discriminate
      | apply emits_ret
      | apply emits_raise
      | apply emits_call
      | match goal with
        | |- emits _ (if ?b then _ else _) => destruct b
        end ].
Qed.

(** X14: the package specification points at [requirements.txt] exactly
    when that blob was uploaded.  Once [create] has staged the package:
    with no requirements, the requirements URI of the specification is
    left unset and no text was uploaded; with requirements, the URI is
    [{staging_bucket}/{gcs_dir_name}/requirements.txt] and the lines,
    joined by newlines, were uploaded to
    [{gcs_dir_name}/requirements.txt]. *)
Theorem requirements_uri_iff_uploaded
    reasoning_engine requirements reasoning_engine_name gcs_dir_name
    sys_version extra_packages s version bucket deployed lines s1 ev :
  stage storage rt reasoning_engine requirements reasoning_engine_name
    gcs_dir_name sys_version extra_packages s
  = (Ok (version, bucket, deployed, lines), s1, ev) ->
  let package := make_package_spec version bucket gcs_dir_name lines in
  (lines = [] ->
   requirements_gcs_uri package = EmptyString
   /\ forall gcs_bucket blob t,
        ~ In (UploadFromString gcs_bucket blob (PyStr t)) ev)
  /\ (lines <> [] ->
      requirements_gcs_uri package
      = format3 bucket gcs_dir_name _REQUIREMENTS_FILE
      /\ exists gcs_bucket,
           In (UploadFromString gcs_bucket
                 (gcs_dir_name +:+ "/" +:+ _REQUIREMENTS_FILE)
                 (PyStr (join_lines lines))) ev).
Proof.
  intros Hstage. cbn zeta.
  destruct (stage_events _ _ _ _ _ _ _ _ _ _ Hstage)
    as (local & s0 & uploads & -> & Hlocal & Hprepare).
  cbn [fst snd] in Hprepare. split.
  - intros ->. split; [done|]. intros gcs_bucket blob t Hin.
    apply in_app_or in Hin as [Hin|Hin].
    + rewrite Forall_forall in Hlocal.
      apply list_elem_of_In, Hlocal in Hin. done.
    + pose proof (_prepare_no_requirements deployed (project rt) (location rt)
                    bucket gcs_dir_name (default [] extra_packages) s0) as Hq.
      rewrite Hprepare in Hq. cbn in Hq. rewrite Forall_forall in Hq.
      eapply Hq; [by apply list_elem_of_In|reflexivity].
  - intros Hlines. split; [by destruct lines|].
    destruct (_prepare_uploads_requirements storage rt deployed lines
                (project rt) (location rt) bucket gcs_dir_name
                (default [] extra_packages) s0) as [gcs_bucket Hin];
      [by rewrite Hprepare|done|].
    exists gcs_bucket. apply in_or_app. right.
    by rewrite Hprepare in Hin.
Qed.

(** Walks a computation and leaves the events it emits to [tac]. *)
Ltac emits_walk tac :=
  repeat
    first
      [ apply emits_bind; [|intros ?]
      | apply emits_try_except; [|intros ?]
      | apply emits_try_except_all; [|intros ?]
      | apply emits_for_each; intros ?
      | apply emits_emit; tac
      | apply emits_ret
      | apply emits_raise
      | apply emits_call
      | apply emits_lift
      | match goal with
        | |- emits _ (match ?b with _ => _ end) => destruct b
        end ].

(** The calls to the reasoning-engine service. *)
Lemma stage_no_engine_call
    reasoning_engine requirements reasoning_engine_name gcs_dir_name
    sys_version extra_packages :
  emits (fun ev =>
           match ev with
           | RpcCreateReasoningEngine _ _ | OperationResult _
           | RpcGetReasoningEngine _ | RpcQueryReasoningEngine _ => False
           | _ => True
           end)
    (stage storage rt reasoning_engine requirements reasoning_engine_name
       gcs_dir_name sys_version extra_packages).
Proof.
  unfold stage, check_runtime, normalize_requirements, read_file,
    check_extra_packages, _prepare, remote.
  cbv zeta. emits_walk ltac:(exact I).
Qed.

(** What [create] does once the package is staged, call by call. *)
Lemma create_remote_run
    version bucket deployed lines reasoning_engine_name display_name
    description gcs_dir_name s :
  let parent := common_location_path (project rt) (location rt) in
  let message :=
    {| name := default EmptyString reasoning_engine_name;
       display_name := default EmptyString display_name;
       description := default EmptyString description;
       spec :=
         {| package_spec :=
              make_package_spec version bucket gcs_dir_name lines;
            class_methods := derived_methods rt deployed |} |} in
  exists warn,
    Forall (fun ev => exists msg, ev = Log (Warning msg)) warn
    /\ (derived_methods rt deployed <> [] -> warn = [])
    /\ create_remote api rt (version, bucket, deployed, lines)
         reasoning_engine_name display_name description gcs_dir_name s
       = match create_reasoning_engine api parent message s with
         | (Raise e, s1) =>
             (Raise e, s1, warn ++ [RpcCreateReasoningEngine parent message])
         | (Ok operation, s1) =>
             let started :=
               [RpcCreateReasoningEngine parent message;
                Log (Info ("Creating ReasoningEngine; backing LRO: "
                             +:+ operation));
                OperationResult operation] in
             match operation_result api operation s1 with
             | (Raise e, s2) => (Raise e, s2, warn ++ started)
             | (Ok created, s2) =>
                 let fetch :=
                   [Log (Info ("ReasoningEngine created. Resource name: "
                                 +:+ name created));
                    RpcGetReasoningEngine (name created)] in
                 match get_reasoning_engine api (name created) s2 with
                 | (Raise e, s3) => (Raise e, s3, warn ++ started ++ fetch)
                 | (Ok fetched, s3) =>
                     (Ok {| _gca_resource := fetched;
                            _operation_schemas := None |}, s3,
                      warn ++ started ++ fetch ++ [NewExecutionClient])
                 end
             end
         end.
Proof.
  cbv zeta. unfold create_remote, derived_methods.
  set (parent := common_location_path (project rt) (location rt)).
  set (package := make_package_spec version bucket gcs_dir_name lines).
  assert (Hrest : forall methods,
    (let* operation_future :=
       remote
         (RpcCreateReasoningEngine parent
            {| name := default EmptyString reasoning_engine_name;
               display_name := default EmptyString display_name;
               description := default EmptyString description;
               spec := {| package_spec := package;
                          class_methods := methods |} |})
         (create_reasoning_engine api parent
            {| name := default EmptyString reasoning_engine_name;
               display_name := default EmptyString display_name;
               description := default EmptyString description;
               spec := {| package_spec := package;
                          class_methods := methods |} |}) in
     emit (Log (Info ("Creating ReasoningEngine; backing LRO: "
                        +:+ operation_future))) ;;;
     let* created_resource :=
       remote (OperationResult operation_future)
         (operation_result api operation_future) in
     emit (Log (Info ("ReasoningEngine created. Resource name: "
                        +:+ name created_resource))) ;;;
     let* gca_resource :=
       remote (RpcGetReasoningEngine (name created_resource))
         (get_reasoning_engine api (name created_resource)) in
     emit NewExecutionClient ;;;
     ret {| _gca_resource := gca_resource; _operation_schemas := None |}) s
    = let message :=
        {| name := default EmptyString reasoning_engine_name;
           display_name := default EmptyString display_name;
           description := default EmptyString description;
           spec := {| package_spec := package;
                      class_methods := methods |} |} in
      match create_reasoning_engine api parent message s with
      | (Raise e, s1) =>
          (Raise e, s1, [RpcCreateReasoningEngine parent message])
      | (Ok operation, s1) =>
          let started :=
            [RpcCreateReasoningEngine parent message;
             Log (Info ("Creating ReasoningEngine; backing LRO: "
                          +:+ operation));
             OperationResult operation] in
          match operation_result api operation s1 with
          | (Raise e, s2) => (Raise e, s2, started)
          | (Ok created, s2) =>
              let fetch :=
                [Log (Info ("ReasoningEngine created. Resource name: "
                              +:+ name created));
                 RpcGetReasoningEngine (name created)] in
              match get_reasoning_engine api (name created) s2 with
              | (Raise e, s3) => (Raise e, s3, started ++ fetch)
              | (Ok fetched, s3) =>
                  (Ok {| _gca_resource := fetched;
                         _operation_schemas := None |}, s3,
                   started ++ fetch ++ [NewExecutionClient])
              end
          end
      end).
  { intros methods. cbv zeta. unfold remote, bind, emit, call, ret.
    destruct (create_reasoning_engine api parent _ s) as [[op|e] s1];
      [|done].
    destruct (operation_result api op s1) as [[created|e] s2]; [|done].
    by destruct (get_reasoning_engine api (name created) s2)
      as [[fetched|e] s3]. }
  destruct (generate_schema rt deployed (type_name deployed +:+ "_query"))
    as [schema_dict|e] eqn:Hschema.
  - destruct (to_proto rt schema_dict) as [method|e] eqn:Hproto.
    + exists []. split; [constructor|]. split; [done|].
      rewrite bind_run.
      replace (try_except_all _ _ s)
        with (Ok {| package_spec := package; class_methods := [method] |},
              s, @nil event)
        by (unfold try_except_all, bind, lift, ret;
            by rewrite ?Hschema, ?Hproto).
      cbn [result_of state_of events_of fst snd app].
      rewrite (Hrest [method]). cbv zeta.
      destruct (create_reasoning_engine api parent _ s) as [[op|e] s1];
        [|done].
      destruct (operation_result api op s1) as [[created|e] s2]; [|done].
      by destruct (get_reasoning_engine api (name created) s2)
        as [[fetched|e] s3].
    + exists [Log (Warning ("failed to generate schema: " +:+ exn_msg e))].
      split; [repeat constructor; by eexists|]. split; [done|].
      rewrite bind_run.
      replace (try_except_all _ _ s)
        with (Ok {| package_spec := package; class_methods := [] |}, s,
              [Log (Warning ("failed to generate schema: " +:+ exn_msg e))])
        by (unfold try_except_all, bind, lift, ret, emit;
            by rewrite ?Hschema, ?Hproto).
      cbn [result_of state_of events_of fst snd].
      rewrite (Hrest []). cbv zeta.
      destruct (create_reasoning_engine api parent _ s) as [[op|e'] s1];
        [|done].
      destruct (operation_result api op s1) as [[created|e'] s2]; [|done].
      by destruct (get_reasoning_engine api (name created) s2)
        as [[fetched|e'] s3].
  - exists [Log (Warning ("failed to generate schema: " +:+ exn_msg e))].
    split; [repeat constructor; by eexists|]. split; [done|].
    rewrite bind_run.
    replace (try_except_all _ _ s)
      with (Ok {| package_spec := package; class_methods := [] |}, s,
            [Log (Warning ("failed to generate schema: " +:+ exn_msg e))])
      by (unfold try_except_all, bind, lift, ret, emit; by rewrite ?Hschema).
    cbn [result_of state_of events_of fst snd].
    rewrite (Hrest []). cbv zeta.
    destruct (create_reasoning_engine api parent _ s) as [[op|e'] s1];
      [|done].
    destruct (operation_result api op s1) as [[created|e'] s2]; [|done].
    by destruct (get_reasoning_engine api (name created) s2)
      as [[fetched|e'] s3].
Qed.

(** X15: when the schema of [query] can be derived and converted,
    [create] attaches it as the one class method of the specification it
    sends, and logs no warning: the remote create call is the first thing
    it does after staging. *)
Theorem create_schema_attached
    reasoning_engine requirements reasoning_engine_name display_name
    description gcs_dir_name sys_version extra_packages s
    version bucket deployed lines s1 ev1 schema_dict method :
  stage storage rt reasoning_engine requirements reasoning_engine_name
    gcs_dir_name sys_version extra_packages s
  = (Ok (version, bucket, deployed, lines), s1, ev1) ->
  generate_schema rt deployed (type_name deployed +:+ "_query")
  = Ok schema_dict ->
  to_proto rt schema_dict = Ok method ->
  exists after,
    events_of
      (create storage api rt reasoning_engine requirements
         reasoning_engine_name display_name description gcs_dir_name
         sys_version extra_packages s)
    = ev1
        ++ RpcCreateReasoningEngine
             (common_location_path (project rt) (location rt))
             {| name := default EmptyString reasoning_engine_name;
                display_name := default EmptyString display_name;
                description := default EmptyString description;
                spec :=
                  {| package_spec :=
                       make_package_spec version bucket gcs_dir_name lines;
                     class_methods := [method] |} |}
        :: after.
Proof.
  intros Hstage Hschema Hproto.
  unfold create. rewrite (events_of_bind_ok _ _ _ _ _ _ Hstage).
  destruct (create_remote_run version bucket deployed lines
              reasoning_engine_name display_name description gcs_dir_name s1)
    as (warn & _ & Hwarn & ->).
  assert (Hmethods : derived_methods rt deployed = [method])
    by (unfold derived_methods; by rewrite Hschema, Hproto).
  rewrite Hmethods in *. rewrite Hwarn by done.
  destruct (create_reasoning_engine api _ _ s1) as [[op|e] s2];
    [|by eexists].
  destruct (operation_result api op s2) as [[created|e] s3]; [|by eexists].
  destruct (get_reasoning_engine api (name created) s3)
    as [[fetched|e] s4]; by eexists.
Qed.

(** X19: the handle a successful [create] returns holds the resource the
    service gave when asked for the name of the created engine, not the
    result of the operation itself, and has no schemas cached.  The state
    [create] ends in is the one that last call left. *)
Theorem create_ok_handle
    reasoning_engine requirements reasoning_engine_name display_name
    description gcs_dir_name sys_version extra_packages s handle s2 ev :
  create storage api rt reasoning_engine requirements reasoning_engine_name
    display_name description gcs_dir_name sys_version extra_packages s
  = (Ok handle, s2, ev) ->
  _operation_schemas handle = None
  /\ exists operation created s0 s1,
       operation_result api operation s0 = (Ok created, s1)
       /\ get_reasoning_engine api (name created) s1
          = (Ok (_gca_resource handle), s2)
       /\ In (OperationResult operation) ev
       /\ In (RpcGetReasoningEngine (name created)) ev.
Proof.
  unfold create. intros H.
  apply bind_eq_ok_inv in H
    as ([[[version bucket] deployed] lines] & s' & ev1 & ev2 & _ & H & ->).
  destruct (create_remote_run version bucket deployed lines
              reasoning_engine_name display_name description gcs_dir_name s')
    as (warn & _ & _ & Hrun).
  rewrite Hrun in H. clear Hrun.
  destruct (create_reasoning_engine api _ _ s') as [[op|e] s0]; [|done].
  destruct (operation_result api op s0) as [[created|e] s1] eqn:Hop;
    [|done].
  destruct (get_reasoning_engine api (name created) s1)
    as [[fetched|e] s3] eqn:Hget; [|done].
  injection H as <- <- <-. split; [done|].
  exists op, created, s0, s1. split; [done|]. split; [done|].
  split; apply in_or_app; right; apply in_or_app; right; cbn; tauto.
Qed.

(** X20: when the long-running operation fails, [create] raises its error
    and never asks for the engine: the remote create call has been made,
    but no handle is returned and no get call follows. *)
Theorem create_operation_failure_no_get
    reasoning_engine requirements reasoning_engine_name display_name
    description gcs_dir_name sys_version extra_packages s
    version bucket deployed lines s1 ev1 operation s2 e s3 :
  stage storage rt reasoning_engine requirements reasoning_engine_name
    gcs_dir_name sys_version extra_packages s
  = (Ok (version, bucket, deployed, lines), s1, ev1) ->
  create_reasoning_engine api
    (common_location_path (project rt) (location rt))
    {| name := default EmptyString reasoning_engine_name;
       display_name := default EmptyString display_name;
       description := default EmptyString description;
       spec :=
         {| package_spec :=
              make_package_spec version bucket gcs_dir_name lines;
            class_methods := derived_methods rt deployed |} |} s1
  = (Ok operation, s2) ->
  operation_result api operation s2 = (Raise e, s3) ->
  let out :=
    create storage api rt reasoning_engine requirements
      reasoning_engine_name display_name description gcs_dir_name
      sys_version extra_packages s in
  result_of out = Raise e
  /\ state_of out = s3
  /\ In (OperationResult operation) (events_of out)
  /\ forall resource, ~ In (RpcGetReasoningEngine resource) (events_of out).
Proof.
  intros Hstage Hcreate Hop. cbv zeta.
  pose proof (stage_no_engine_call reasoning_engine requirements
                reasoning_engine_name gcs_dir_name sys_version extra_packages
                s) as Hstaged.
  rewrite Hstage in Hstaged. cbn [snd] in Hstaged.
  destruct (create_remote_run version bucket deployed lines
              reasoning_engine_name display_name description gcs_dir_name s1)
    as (warn & Hwarn & _ & Hrun).
  rewrite Hcreate, Hop in Hrun.
  unfold create. rewrite (bind_ok _ _ _ _ _ _ _ _ _ Hstage Hrun).
  cbn [result_of state_of events_of fst snd].
  split; [done|]. split; [done|]. split.
  { apply in_or_app. right. apply in_or_app. right. cbn. tauto. }
  intros resource Hin.
  apply in_app_or in Hin as [Hin|Hin].
  { rewrite Forall_forall in Hstaged.
    by apply list_elem_of_In, Hstaged in Hin. }
  apply in_app_or in Hin as [Hin|Hin].
  { rewrite Forall_forall in Hwarn.
    apply list_elem_of_In, Hwarn in Hin as [msg Hmsg]. done. }
  cbn in Hin. by destruct Hin as [?|[?|[?|[]]]].
Qed.

Lemma prefix_app (a b : string) :
  String.prefix a b = true -> exists post, b = a +:+ post.
Proof.
  revert b. induction a as [|x a IH]; intros b H; [by exists b|].
  destruct b as [|y b]; [done|]. cbn in H.
  destruct (ascii_dec x y) as [->|]; [|done].
  destruct (IH b H) as [post ->]. by exists post.
Qed.

Lemma replace_absent (old new s : string) :
  (forall pre post, s <> pre +:+ old +:+ post) ->
  replace_from old new 0 s = s.
Proof.
  induction s as [|c s IH]; intros Habsent; [done|].
  cbn [replace_from].
  destruct (String.prefix old (String c s)) eqn:Hprefix.
  - apply prefix_app in Hprefix as [post Hpost].
    by destruct (Habsent EmptyString post).
  - f_equal. apply IH. intros pre post ->.
    by apply (Habsent (String c pre) post).
Qed.

Lemma ret_bind {A B} (a : A) (k : A -> Py.M St event B) s :
  bind (ret a) k s = k a s.
Proof. unfold bind, ret. by destruct (k a s) as [[? ?] ?]. Qed.

Lemma emit_bind {B} (ev : event) (k : unit -> Py.M St event B) s :
  bind (emit ev) k s
  = (result_of (k tt s), state_of (k tt s), ev :: events_of (k tt s)).
Proof. unfold bind, emit. by destruct (k tt s) as [[? ?] ?]. Qed.

(** X16: how [_prepare] finds its bucket.  A bucket that exists is used
    and none is created.  When the lookup fails, the bucket is created in
    the given location if the error is a [NotFound] (any error at all
    when [google.cloud.exceptions] cannot be imported, as [NotFound] then
    stands for [Exception]); any other error is raised to the caller
    after the single lookup, with nothing uploaded. *)
Theorem prepare_bucket_lookup
    reasoning_engine requirements project location staging_bucket
    gcs_dir_name extra_packages s :
  has_cloud_storage rt = true -> has_cloudpickle rt = true ->
  let bucket := replace "gs://" EmptyString staging_bucket in
  let out :=
    _prepare storage rt reasoning_engine requirements project location
      staging_bucket gcs_dir_name extra_packages s in
  (forall gcs_bucket s1,
     get_bucket storage bucket s = (Ok gcs_bucket, s1) ->
     forall b l, ~ In (CreateBucket b l) (events_of out))
  /\ (forall e s1,
        get_bucket storage bucket s = (Raise e, s1) ->
        has_cloud_exceptions rt = true -> isinstance e NotFound = false ->
        out = (Raise e, s1, [NewStorageClient project; GetBucket bucket]))
  /\ (forall e s1,
        get_bucket storage bucket s = (Raise e, s1) ->
        has_cloud_exceptions rt = false \/ isinstance e NotFound = true ->
        exists after,
          events_of out
          = NewStorageClient project :: GetBucket bucket
              :: CreateBucket bucket location :: after).
Proof.
  intros Hstorage Hpickle. cbv zeta.
  unfold _prepare. rewrite Hstorage, Hpickle. cbv zeta.
  set (bucket := replace "gs://" EmptyString staging_bucket).
  rewrite 2 ret_bind, emit_bind.
  match goal with
  | |- context [bind ?l ?k s] => set (lookup := l); set (rest := k)
  end.
  assert (Hrest : forall gcs_bucket,
    emits (fun ev => forall b l, ev <> CreateBucket b l) (rest gcs_bucket)).
  { intros gcs_bucket. unfold rest, remote.
    emits_walk ltac:(intros ? ?; discriminate). }
  clearbody rest. rewrite bind_run.
  split; [|split].
  - intros gcs_bucket s1 Hget b l.
    assert (Hlookup : lookup s
                      = (Ok gcs_bucket, s1,
                         [GetBucket bucket;
                          Log (Info ("Using bucket " +:+ bucket))])).
    { unfold lookup.
      destruct (has_cloud_exceptions rt);
        unfold try_except, try_except_all, remote, bind, emit, call, ret;
        by rewrite Hget. }
    rewrite Hlookup. cbn [events_of snd]. intros Hin.
    destruct Hin as [?|Hin]; [done|].
    apply in_app_or in Hin as [Hin|Hin].
    { by destruct Hin as [?|[?|[]]]. }
    specialize (Hrest gcs_bucket s1). rewrite Forall_forall in Hrest.
    eapply Hrest; [by apply list_elem_of_In|reflexivity].
  - intros e s1 Hget Hexc Hinst.
    assert (Hlookup : lookup s = (Raise e, s1, [GetBucket bucket])).
    { unfold lookup. rewrite Hexc.
      unfold try_except, remote, bind, emit, call, ret.
      by rewrite Hget, Hinst. }
    by rewrite Hlookup.
  - intros e s1 Hget Hcase.
    assert (Hlookup : exists r s2 after,
      lookup s
      = (r, s2, GetBucket bucket :: CreateBucket bucket location :: after)).
    { unfold lookup.
      destruct (create_bucket storage bucket location s1)
        as [[gcs_bucket|e'] s2] eqn:Hmake;
        (destruct (has_cloud_exceptions rt);
         [destruct Hcase as [?|Hinst]; [done|]
         |]);
        unfold try_except, try_except_all, remote, bind, emit, call, ret;
        rewrite Hget, ?Hinst, Hmake; by eexists _, _, _. }
    destruct Hlookup as (r & s2 & after & ->).
    destruct r as [gcs_bucket|e']; cbn [events_of snd]; by eexists.
Qed.

(** X17: the bucket [_prepare] looks up is the staging bucket without its
    [gs://] scheme.  For a staging bucket [gs://name], where [name] holds
    no further [gs://], the client is made for the project and the first
    call is the lookup of [name]. *)
Theorem prepare_strips_scheme
    reasoning_engine requirements project location name gcs_dir_name
    extra_packages s :
  has_cloud_storage rt = true -> has_cloudpickle rt = true ->
  (forall pre post, name <> pre +:+ "gs://" +:+ post) ->
  exists after,
    events_of
      (_prepare storage rt reasoning_engine requirements project location
         ("gs://" +:+ name) gcs_dir_name extra_packages s)
    = NewStorageClient project :: GetBucket name :: after.
Proof.
  intros Hstorage Hpickle Habsent.
  assert (Hname : replace "gs://" EmptyString ("gs://" +:+ name) = name).
  { transitivity (replace_from "gs://" EmptyString 0 name);
      [|by apply replace_absent].
    unfold replace.
    change ("gs://" +:+ name)
      with (String "g" (String "s" (String ":" (String "/"
              (String "/" name))))).
    cbn [replace_from].
    replace (String.prefix "gs://" _) with true by (cbn; by destruct name).
    reflexivity. }
  unfold _prepare. rewrite Hstorage, Hpickle, Hname. cbv zeta.
  rewrite 2 ret_bind, emit_bind. cbn [events_of snd].
  rewrite bind_run.
  match goal with
  | |- context [match ?l s with _ => _ end] => set (lookup := l)
  end.
  assert (Hlookup : exists after, events_of (lookup s) = GetBucket name :: after).
  { unfold lookup.
    destruct (has_cloud_exceptions rt);
      unfold try_except, try_except_all, remote, bind, emit, call, ret;
      destruct (get_bucket storage name s) as [[gcs_bucket|e] s1];
      cbn; try (by eexists);
      try destruct (isinstance e NotFound);
      try destruct (create_bucket storage name location s1) as [[?|?] ?];
      cbn; by eexists. }
  destruct Hlookup as [after Hafter].
  destruct (lookup s) as [[[gcs_bucket|e] s1] ev]; cbn in Hafter |- *;
    subst ev; by eexists.
Qed.

(** X18: [operation_schemas] computes the schemas once.  The first call
    on a handle stores what it returns; from then on every call returns
    the stored schemas and leaves them stored, whatever the resource of
    the handle has become. *)
Theorem operation_schemas_cached to_dict to_dict' self resource :
  let first := operation_schemas to_dict self in
  let later :=
    operation_schemas to_dict'
      {| _gca_resource := resource;
         _operation_schemas := _operation_schemas first.2 |} in
  _operation_schemas first.2 = Some first.1
  /\ later.1 = first.1
  /\ _operation_schemas later.2 = Some first.1.
Proof.
  cbv zeta. unfold operation_schemas.
  by destruct (_operation_schemas self) as [schemas|] eqn:Hcache;
    cbn; rewrite ?Hcache.
Qed.

(** X21: a resource name given to [create] is warned about as ignored and
    sent all the same.  Once the package is staged with a non-empty
    [reasoning_engine_name], the warning that the name would be ignored
    has been logged, and the engine of the remote create call carries
    that very name. *)
Theorem create_name_warned_and_sent
    reasoning_engine requirements given display_name description
    gcs_dir_name sys_version extra_packages s staged s1 ev1 :
  truthy_str given = true ->
  stage storage rt reasoning_engine requirements (Some given) gcs_dir_name
    sys_version extra_packages s
  = (Ok staged, s1, ev1) ->
  let out :=
    create storage api rt reasoning_engine requirements (Some given)
      display_name description gcs_dir_name sys_version extra_packages s in
  In (Log (Warning
             ("ReasoningEngine does not support user-defined resource "
                +:+ "IDs at the moment. Therefore reasoning_engine_name="
                +:+ repr given
                +:+ " would be ignored and a random ID will be "
                +:+ "generated instead."))) ev1
  /\ exists before parent sent after,
       events_of out
       = ev1 ++ before ++ RpcCreateReasoningEngine parent sent :: after
       /\ name sent = given
       /\ Forall (fun ev => is_remote ev = false) before.
Proof.
  intros Hgiven Hstage. cbv zeta. split.
  - unfold stage in Hstage. cbv zeta in Hstage.
    apply bind_eq_ok_inv in Hstage
      as (checked & s2 & ev2 & ev3 & Hcheck & _ & ->).
    apply in_or_app. left.
    unfold check_runtime in Hcheck. cbv zeta in Hcheck.
    apply bind_eq_ok_inv in Hcheck as ([] & s3 & ev4 & ev5 & _ & Hcheck & ->).
    apply in_or_app. right.
    apply bind_eq_ok_inv in Hcheck as ([] & s4 & ev6 & ev7 & Hwarn & _ & ->).
    apply in_or_app. left.
    cbn [truthy_opt_str] in Hwarn. rewrite Hgiven in Hwarn.
    injection Hwarn as _ <-. by left.
  - destruct staged as [[[version bucket] deployed] lines].
    unfold create. rewrite (events_of_bind_ok _ _ _ _ _ _ Hstage).
    destruct (create_remote_run version bucket deployed lines (Some given)
                display_name description gcs_dir_name s1)
      as (warn & Hwarn & _ & ->).
    exists warn. eexists _, _.
    assert (Hquiet : Forall (fun ev => is_remote ev = false) warn).
    { eapply Forall_impl; [exact Hwarn|]. by intros ev [msg ->]. }
    destruct (create_reasoning_engine api _ _ s1) as [[op|e] s2];
      [|by eexists].
    destruct (operation_result api op s2) as [[created|e] s3];
      [|by eexists].
    destruct (get_reasoning_engine api (name created) s3)
      as [[fetched|e] s4]; by eexists.
Qed.

End EngineMore.

(* ================================================================== *)
(** * The further properties in the scenarios *)
(* ================================================================== *)

Lemma init_host_has_port_witness :
  exists transport,
    Transport.__init__ TransportScenario.auth Transport.DEFAULT_HOST
      (Some TransportScenario.given) None None None None tt
    = (Ok transport, tt, [])
    /\ Transport._host transport = "aiplatform.googleapis.com:443".
Proof.
  eexists. split; [reflexivity|].
  apply (proj2 (proj2 (init_host_has_port TransportScenario.auth
                         Transport.DEFAULT_HOST
                         (Some TransportScenario.given) None None None None
                         tt _ tt [] eq_refl))).
  reflexivity.
Defined.

Lemma init_source_failure_propagates_witness :
  Transport.__init__ TransportScenario.auth Transport.DEFAULT_HOST None
    (Some EmptyString) None None None tt
  = (Raise (Exn DefaultCredentialsError "File  was not found." None), tt,
     [Transport.LoadCredentialsFromFile EmptyString]).
Proof.
  apply (proj1 (init_source_failure_propagates TransportScenario.auth
                  Transport.DEFAULT_HOST None None None tt
                  (Exn DefaultCredentialsError "File  was not found." None))
           EmptyString).
  reflexivity.
Defined.

Lemma resolve_latest_tie_last_listed_witness :
  (Metadata.list_artifacts Metadata.store_client
     (Metadata.resolver_request MetadataScenario.cfg MetadataScenario.model
        "google.VertexModel") EdgeScenario.store_tied).1
  = Ok [EdgeScenario.tied_first; MetadataScenario.model_older;
        EdgeScenario.tied_last]
  /\ result_of (Metadata.resolve_vertex_resource Metadata.store_client
                  MetadataScenario.cfg MetadataScenario.model
                  EdgeScenario.store_tied)
     = Ok (Some (Metadata.resolver_handle MetadataScenario.model
                   EdgeScenario.tied_last))
  /\ forall a,
       In a (map (Metadata.resolver_handle MetadataScenario.model)
               [EdgeScenario.tied_first; MetadataScenario.model_older;
                EdgeScenario.tied_last]) ->
       (Metadata.artifact_create_time a <= 40)%Z.
Proof.
  split; [reflexivity|]. split; [reflexivity|].
  apply (proj2 (resolve_latest_tie_last_listed Metadata.store_client
                  MetadataScenario.cfg MetadataScenario.model
                  "google.VertexModel" EdgeScenario.store_tied
                  [EdgeScenario.tied_first; MetadataScenario.model_older;
                   EdgeScenario.tied_last]
                  EdgeScenario.store_tied
                  (Metadata.resolver_handle MetadataScenario.model
                     EdgeScenario.tied_last)
                  eq_refl eq_refl eq_refl eq_refl)).
Defined.

Lemma resolver_fails_before_any_call_witness :
  Metadata.resolve_or_create_resource_artifact Metadata.store_client
    MetadataScenario.cfg EdgeScenario.pending_model
    MetadataScenario.empty_store
  = (Raise EdgeScenario.upload_failed, MetadataScenario.empty_store,
     [Metadata.WaitResource "projects/p/locations/l/models/8"])
  /\ exists e,
       exn_cls e = KeyError
       /\ Metadata.resolve_or_create_resource_artifact Metadata.store_client
            MetadataScenario.cfg EdgeScenario.endpoint
            MetadataScenario.empty_store
          = (Raise e, MetadataScenario.empty_store,
             [Metadata.WaitResource "projects/p/locations/l/endpoints/3"]).
Proof.
  split.
  - apply (proj1 (resolver_fails_before_any_call Metadata.store_client
                    MetadataScenario.cfg EdgeScenario.pending_model
                    MetadataScenario.empty_store)
             EdgeScenario.upload_failed eq_refl).
  - destruct (proj2 (resolver_fails_before_any_call Metadata.store_client
                       MetadataScenario.cfg EdgeScenario.endpoint
                       MetadataScenario.empty_store) eq_refl eq_refl)
      as (e & Hcls & _ & _ & Hout).
    exists e. split; [exact Hcls|exact Hout].
Defined.

Lemma resolve_or_create_creates_only_when_none_witness :
  result_of
    (Metadata.resolve_or_create_resource_artifact Metadata.store_client
       MetadataScenario.cfg MetadataScenario.model
       MetadataScenario.store_model)
  = Ok (Metadata.resolver_handle MetadataScenario.model
          MetadataScenario.model_newer)
  /\ forall parent a id,
       ~ In (Metadata.RpcCreateArtifact parent a id)
           (events_of
              (Metadata.resolve_or_create_resource_artifact
                 Metadata.store_client MetadataScenario.cfg
                 MetadataScenario.model MetadataScenario.store_model)).
Proof.
  destruct (proj1 (resolve_or_create_creates_only_when_none
                     Metadata.store_client MetadataScenario.cfg
                     MetadataScenario.model "google.VertexModel"
                     MetadataScenario.store_model
                     [MetadataScenario.model_newer;
                      MetadataScenario.model_older]
                     MetadataScenario.store_model eq_refl eq_refl eq_refl)
              ltac:(discriminate))
    as (found & _ & _ & Hnone).
  split; [reflexivity|exact Hnone].
Defined.

Lemma create_vertex_resource_artifact_no_lookup_witness :
  exists sent tail,
    events_of
      (Metadata.create_vertex_resource_artifact Metadata.store_client
         MetadataScenario.cfg MetadataScenario.model
         MetadataScenario.empty_store)
    = [Metadata.WaitResource "projects/p/locations/l/models/7";
       Metadata.InstantiateClient (Some "l") None;
       Metadata.RpcCreateArtifact MetadataScenario.parent sent None] ++ tail
    /\ Metadata.schema_title sent = "google.VertexModel"
    /\ Metadata.uri sent
       = Metadata.make_gcp_resource_url MetadataScenario.model
    /\ Metadata.metadata sent !! "resourceName"
       = Some "projects/p/locations/l/models/7".
Proof.
  destruct (create_vertex_resource_artifact_no_lookup Metadata.store_client
              MetadataScenario.cfg MetadataScenario.model
              "google.VertexModel" MetadataScenario.empty_store
              eq_refl eq_refl)
    as (_ & sent & tail & Hev & Htitle & Huri & Hname & _).
  exists sent, tail. split; [exact Hev|]. split; [exact Htitle|].
  split; [exact Huri|exact Hname].
Defined.

Lemma create_then_get_with_uri_witness :
  exists made st1 ev,
    Metadata.create Metadata.store_client MetadataScenario.cfg
      "system.Dataset" None (Some "gs://bucket/data") None None None None
      (Some "default") None None None MetadataScenario.store_two
    = (Ok made, st1, ev)
    /\ result_of
         (Metadata.get_with_uri Metadata.store_client MetadataScenario.cfg
            "gs://bucket/data" (Some "default") None None None st1)
       = Ok made
    /\ Metadata.artifact_uri made = "gs://bucket/data".
Proof.
  destruct (Metadata.create Metadata.store_client MetadataScenario.cfg
              "system.Dataset" None (Some "gs://bucket/data") None None None
              None (Some "default") None None None
              MetadataScenario.store_two)
    as [[[made|e] st1] ev] eqn:Hcreate; [|vm_compute in Hcreate; discriminate].
  destruct (create_then_get_with_uri MetadataScenario.cfg "system.Dataset"
              None "gs://bucket/data" None None None None (Some "default")
              None None None MetadataScenario.store_two made st1 ev Hcreate)
    as (found & Hfound & Huri & Hsame).
  rewrite <- (Hsame eq_refl).
  exists found, st1, ev. split; [|split; [exact Hfound|exact Huri]].
  by rewrite (Hsame eq_refl).
Defined.

Lemma artifact_create_passes_outcome_witness :
  exists e,
    isinstance e AlreadyExists = true
    /\ result_of
         (Metadata.create Metadata.store_client MetadataScenario.cfg
            "google.VertexModel" (Some "1") (Some "gs://bucket/model")
            None None None None (Some "default") None None None
            MetadataScenario.store_two)
       = Raise e.
Proof.
  exists (Exn AlreadyExists (MetadataScenario.parent +:+ "/artifacts/1") None).
  split; [reflexivity|].
  destruct (artifact_create_passes_outcome Metadata.store_client
              MetadataScenario.cfg "google.VertexModel" (Some "1")
              (Some "gs://bucket/model") None None None None (Some "default")
              None None None MetadataScenario.store_two)
    as (_ & _ & Hfail & _).
  by rewrite (Hfail _ MetadataScenario.store_two eq_refl).
Defined.

Lemma create_unsupported_version_fails_first_witness :
  ReasoningEngines.create ReasoningEngines.cloud_storage
    ReasoningEngines.cloud_api EngineScenario.rt EngineScenario.app None None
    None None "reasoning_engine" (Some "2.7") None EngineScenario.cloud
  = (Raise (Exn ValueError
              ("Unsupported python version: " +:+ "2.7"
                 +:+ ". ReasoningEngine only supports "
                 +:+ "('3.8', '3.9', '3.10', '3.11') at the moment.")
              None), EngineScenario.cloud, []).
Proof.
  apply (create_unsupported_version_fails_first ReasoningEngines.cloud_storage
           ReasoningEngines.cloud_api EngineScenario.rt EngineScenario.app
           None None None None "reasoning_engine" (Some "2.7") None
           EngineScenario.cloud).
  reflexivity.
Defined.

Lemma stage_ok_invariants_witness :
  result_of
    (ReasoningEngines.stage ReasoningEngines.cloud_storage EngineScenario.rt
       EngineScenario.app None None "reasoning_engine" None
       (Some ["main.py"]) EngineScenario.cloud)
  = Ok ("3.10", "gs://staging", EngineScenario.app, [])
  /\ In "3.10" ReasoningEngines._SUPPORTED_PYTHON_VERSIONS
  /\ ReasoningEngines.staging_bucket EngineScenario.rt = Some "gs://staging"
  /\ Forall (fun p => ReasoningEngines.path_exists EngineScenario.rt p = true)
       ["main.py"].
Proof.
  split; [vm_compute; reflexivity|].
  destruct (stage_ok_invariants ReasoningEngines.cloud_storage
              EngineScenario.rt EngineScenario.app None None
              "reasoning_engine" None (Some ["main.py"]) EngineScenario.cloud
              "3.10" "gs://staging" EngineScenario.app []
              (state_of
                 (ReasoningEngines.stage ReasoningEngines.cloud_storage
                    EngineScenario.rt EngineScenario.app None None
                    "reasoning_engine" None (Some ["main.py"])
                    EngineScenario.cloud))
              (events_of
                 (ReasoningEngines.stage ReasoningEngines.cloud_storage
                    EngineScenario.rt EngineScenario.app None None
                    "reasoning_engine" None (Some ["main.py"])
                    EngineScenario.cloud)))
    as (Hin & _ & _ & Hbucket & _ & _ & _ & Hextra).
  - vm_compute. reflexivity.
  - split; [exact Hin|]. split; [exact Hbucket|exact Hextra].
Defined.

Lemma create_requirements_unreadable_witness :
  let out :=
    ReasoningEngines.create ReasoningEngines.cloud_storage
      ReasoningEngines.cloud_api EngineScenario.rt EngineScenario.app
      (Some (ReasoningEngines.ReqPath "nowhere.txt")) None None None
      "reasoning_engine" None None EngineScenario.cloud in
  (exists cause,
     isinstance cause IOError = true
     /\ result_of out
        = Raise (Exn IOError
                   ("Failed to read requirements from requirements="
                      +:+ repr "nowhere.txt") (Some cause)))
  /\ state_of out = EngineScenario.cloud
  /\ Forall (fun ev => ReasoningEngines.is_remote ev = false) (events_of out).
Proof.
  apply (create_requirements_unreadable ReasoningEngines.cloud_storage
           ReasoningEngines.cloud_api EngineScenario.rt EngineScenario.app
           "nowhere.txt" None None None "reasoning_engine" None None
           EngineScenario.cloud).
  - reflexivity.
  - intros content H. vm_compute in H. discriminate H.
Defined.

Lemma requirements_uri_iff_uploaded_witness :
  ReasoningEngines.requirements_gcs_uri
    (ReasoningEngines.make_package_spec "3.10" "gs://staging"
       "reasoning_engine" EngineScenario.lines)
  = "gs://staging/reasoning_engine/requirements.txt"
  /\ exists gcs_bucket,
       In (ReasoningEngines.UploadFromString gcs_bucket
             "reasoning_engine/requirements.txt"
             (ReasoningEngines.PyStr
                (ReasoningEngines.join_lines EngineScenario.lines)))
         (events_of
            (ReasoningEngines.stage ReasoningEngines.cloud_storage
               EngineScenario.rt EngineScenario.app
               (Some (ReasoningEngines.ReqList EngineScenario.lines)) None
               "reasoning_engine" None None EngineScenario.cloud)).
Proof.
  apply (proj2 (requirements_uri_iff_uploaded ReasoningEngines.cloud_storage
                  EngineScenario.rt EngineScenario.app
                  (Some (ReasoningEngines.ReqList EngineScenario.lines)) None
                  "reasoning_engine" None None EngineScenario.cloud
                  "3.10" "gs://staging" EngineScenario.app
                  EngineScenario.lines
                  (state_of
                     (ReasoningEngines.stage ReasoningEngines.cloud_storage
                        EngineScenario.rt EngineScenario.app
                        (Some (ReasoningEngines.ReqList EngineScenario.lines))
                        None "reasoning_engine" None None
                        EngineScenario.cloud))
                  _ ltac:(vm_compute; reflexivity))).
  discriminate.
Defined.

Lemma create_schema_attached_witness :
  exists after,
    events_of
      (ReasoningEngines.create ReasoningEngines.cloud_storage
         ReasoningEngines.cloud_api EdgeScenario.rt_schema EngineScenario.app
         None None (Some "assistant") None "reasoning_engine" None None
         EngineScenario.cloud)
    = events_of
        (ReasoningEngines.stage ReasoningEngines.cloud_storage
           EdgeScenario.rt_schema EngineScenario.app None None
           "reasoning_engine" None None EngineScenario.cloud)
        ++ ReasoningEngines.RpcCreateReasoningEngine "projects/p/locations/l"
             {| ReasoningEngines.name := EmptyString;
                ReasoningEngines.display_name := "assistant";
                ReasoningEngines.description := EmptyString;
                ReasoningEngines.spec :=
                  {| ReasoningEngines.package_spec :=
                       ReasoningEngines.make_package_spec "3.10"
                         "gs://staging" "reasoning_engine" [];
                     ReasoningEngines.class_methods :=
                       [ReasoningEngines.JStr "App_query"] |} |}
        :: after.
Proof.
  apply (create_schema_attached ReasoningEngines.cloud_storage
           ReasoningEngines.cloud_api EdgeScenario.rt_schema
           EngineScenario.app None None (Some "assistant") None
           "reasoning_engine" None None EngineScenario.cloud
           "3.10" "gs://staging" EngineScenario.app []
           (state_of
              (ReasoningEngines.stage ReasoningEngines.cloud_storage
                 EdgeScenario.rt_schema EngineScenario.app None None
                 "reasoning_engine" None None EngineScenario.cloud))
           _ (ReasoningEngines.JStr "App_query")
           (ReasoningEngines.JStr "App_query")).
  - vm_compute. reflexivity.
  - reflexivity.
  - reflexivity.
Defined.

Lemma prepare_bucket_lookup_witness :
  exists after,
    events_of
      (ReasoningEngines._prepare ReasoningEngines.cloud_storage
         EngineScenario.rt EngineScenario.app [] "p" "l" "gs://staging"
         "reasoning_engine" [] EngineScenario.cloud)
    = ReasoningEngines.NewStorageClient "p"
        :: ReasoningEngines.GetBucket "staging"
        :: ReasoningEngines.CreateBucket "staging" "l" :: after.
Proof.
  destruct (prepare_bucket_lookup ReasoningEngines.cloud_storage
              EngineScenario.rt EngineScenario.app [] "p" "l" "gs://staging"
              "reasoning_engine" [] EngineScenario.cloud eq_refl eq_refl)
    as (_ & _ & Hmake).
  apply (Hmake (Exn NotFound ("404 bucket " +:+ "staging") None)
           EngineScenario.cloud eq_refl (or_intror eq_refl)).
Defined.

Lemma prepare_strips_scheme_witness :
  exists after,
    events_of
      (ReasoningEngines._prepare ReasoningEngines.cloud_storage
         EngineScenario.rt EngineScenario.app [] "p" "l"
         ("gs://" +:+ "staging") "reasoning_engine" [] EngineScenario.cloud)
    = ReasoningEngines.NewStorageClient "p"
        :: ReasoningEngines.GetBucket "staging" :: after.
Proof.
  apply (prepare_strips_scheme ReasoningEngines.cloud_storage
           EngineScenario.rt EngineScenario.app [] "p" "l" "staging"
           "reasoning_engine" [] EngineScenario.cloud eq_refl eq_refl).
  intros pre post H.
  do 8 (destruct pre as [|? pre]; [discriminate H|];
        try discriminate H; injection H as _ H).
Defined.

Lemma create_ok_handle_witness :
  exists handle operation created s0 s1,
    result_of
      (ReasoningEngines.create ReasoningEngines.cloud_storage
         ReasoningEngines.cloud_api EngineScenario.rt EngineScenario.app
         None None None None "reasoning_engine" None None
         EngineScenario.cloud)
    = Ok handle
    /\ ReasoningEngines._operation_schemas handle = None
    /\ ReasoningEngines.resource_name handle
       = "projects/p/locations/l/reasoningEngines/0"
    /\ ReasoningEngines.operation_result ReasoningEngines.cloud_api
         operation s0 = (Ok created, s1)
    /\ (ReasoningEngines.get_reasoning_engine ReasoningEngines.cloud_api
          (ReasoningEngines.name created) s1).1
       = Ok (ReasoningEngines._gca_resource handle).
Proof.
  destruct (ReasoningEngines.create ReasoningEngines.cloud_storage
              ReasoningEngines.cloud_api EngineScenario.rt EngineScenario.app
              None None None None "reasoning_engine" None None
              EngineScenario.cloud)
    as [[[handle|e] s2] ev] eqn:Hcreate; [|vm_compute in Hcreate; discriminate].
  destruct (create_ok_handle ReasoningEngines.cloud_storage
              ReasoningEngines.cloud_api EngineScenario.rt EngineScenario.app
              None None None None "reasoning_engine" None None
              EngineScenario.cloud handle s2 ev Hcreate)
    as (Hnone & operation & created & s0 & s1 & Hop & Hget & _).
  exists handle, operation, created, s0, s1.
  split; [reflexivity|]. split; [exact Hnone|].
  split; [|split; [exact Hop|by rewrite Hget]].
  vm_compute in Hcreate. by injection Hcreate as <- _ _.
Defined.

Lemma create_operation_failure_no_get_witness :
  let out :=
    ReasoningEngines.create ReasoningEngines.cloud_storage
      EdgeScenario.lost_operation_api EngineScenario.rt EngineScenario.app
      None None None None "reasoning_engine" None None EngineScenario.cloud in
  result_of out = Raise EdgeScenario.deadline_exceeded
  /\ length (ReasoningEngines.engines (state_of out)) = 1%nat
  /\ forall resource,
       ~ In (ReasoningEngines.RpcGetReasoningEngine resource) (events_of out).
Proof.
  cbv zeta.
  destruct (create_operation_failure_no_get ReasoningEngines.cloud_storage
              EdgeScenario.lost_operation_api EngineScenario.rt
              EngineScenario.app None None None None "reasoning_engine" None
              None EngineScenario.cloud
              "3.10" "gs://staging" EngineScenario.app []
              (state_of
                 (ReasoningEngines.stage ReasoningEngines.cloud_storage
                    EngineScenario.rt EngineScenario.app None None
                    "reasoning_engine" None None EngineScenario.cloud))
              (events_of
                 (ReasoningEngines.stage ReasoningEngines.cloud_storage
                    EngineScenario.rt EngineScenario.app None None
                    "reasoning_engine" None None EngineScenario.cloud))
              _ _ EdgeScenario.deadline_exceeded _
              ltac:(vm_compute; reflexivity) eq_refl eq_refl)
    as (Hresult & Hstate & _ & Hnone).
  split; [exact Hresult|]. split; [|exact Hnone].
  rewrite Hstate. reflexivity.
Defined.

Lemma create_name_warned_and_sent_witness :
  exists before parent sent after,
    events_of
      (ReasoningEngines.create ReasoningEngines.cloud_storage
         ReasoningEngines.cloud_api EngineScenario.rt EngineScenario.app
         None (Some "my-engine") None None "reasoning_engine" None None
         EngineScenario.cloud)
    = events_of
        (ReasoningEngines.stage ReasoningEngines.cloud_storage
           EngineScenario.rt EngineScenario.app None (Some "my-engine")
           "reasoning_engine" None None EngineScenario.cloud)
        ++ before
        ++ ReasoningEngines.RpcCreateReasoningEngine parent sent :: after
    /\ ReasoningEngines.name sent = "my-engine".
Proof.
  destruct (create_name_warned_and_sent ReasoningEngines.cloud_storage
              ReasoningEngines.cloud_api EngineScenario.rt EngineScenario.app
              None "my-engine" None None "reasoning_engine" None None
              EngineScenario.cloud
              ("3.10", "gs://staging", EngineScenario.app, [])
              (state_of
                 (ReasoningEngines.stage ReasoningEngines.cloud_storage
                    EngineScenario.rt EngineScenario.app None
                    (Some "my-engine") "reasoning_engine" None None
                    EngineScenario.cloud))
              (events_of
                 (ReasoningEngines.stage ReasoningEngines.cloud_storage
                    EngineScenario.rt EngineScenario.app None
                    (Some "my-engine") "reasoning_engine" None None
                    EngineScenario.cloud))
              eq_refl ltac:(vm_compute; reflexivity))
    as (_ & before & parent & sent & after & Hev & Hname & _).
  exists before, parent, sent, after. split; [exact Hev|exact Hname].
Defined.
